(** * Tegra audio HAL (libaudio/audio_hw.c): shallow embedding and properties

    The C translation unit is embedded function by function.  Conventions:

    - C integers are [Z] with the conversions written out: [u32]/[s32] for
      [unsigned int]/[int], [u64]/[s64] for [uint64_t]/[int64_t].  [size_t]
      is 32 bits wide: the file hands a [size_t *] to tinyalsa where an
      [unsigned int *] is expected (out_get_presentation_position), so it is
      written for an ILP32 target.
    - Pointers to streams are addresses ([nat]) into finite maps; the
      [active_out]/[active_in] registrations are optional addresses.
    - Calls into tinyalsa, the resampler, the mixer and [usleep] are recorded
      in a trace of [event]s; what the hardware answers is an explicit
      argument of the embedded function.
    - Every API call runs to completion on its own: mutexes are represented
      by the [lock_cnt] counters the source keeps next to them.
    - Sample payloads are not represented, only frame and byte counts. *)

From Stdlib Require Import ZArith List Bool Lia.
From stdpp Require Import gmap.

Open Scope Z_scope.

(** ** Machine integers *)

Definition u32 (z : Z) : Z := z mod 2 ^ 32.
Definition s32 (z : Z) : Z := (z + 2 ^ 31) mod 2 ^ 32 - 2 ^ 31.
Definition u64 (z : Z) : Z := z mod 2 ^ 64.
Definition s64 (z : Z) : Z := (z + 2 ^ 63) mod 2 ^ 64 - 2 ^ 63.

(** errno values used by the file *)
Definition ENOMEM : Z := 12.
Definition ENODEV : Z := 19.
Definition EINVAL : Z := 22.
Definition EPIPE : Z := 32.
Definition ENOSYS : Z := 38.

(** ** Constants and PCM configurations (lines 42-103) *)

Definition OUT_PERIOD_SIZE : Z := 1024.
Definition OUT_SHORT_PERIOD_COUNT : Z := 2.
Definition OUT_LONG_PERIOD_COUNT : Z := 4.
Definition OUT_SAMPLING_RATE : Z := 44100.

Definition IN_PERIOD_SIZE : Z := 1024.
Definition IN_PERIOD_SIZE_LOW_LATENCY : Z := 512.
Definition IN_PERIOD_COUNT : Z := 4.
Definition IN_SAMPLING_RATE : Z := 44100.

Definition MIN_WRITE_SLEEP_US : Z := 2000.
Definition MAX_WRITE_SLEEP_US : Z :=
  Z.quot (s32 (OUT_PERIOD_SIZE * OUT_SHORT_PERIOD_COUNT * 1000000)) OUT_SAMPLING_RATE.

Inductive buffer_type_t :=
| OUT_BUFFER_TYPE_UNKNOWN
| OUT_BUFFER_TYPE_SHORT
| OUT_BUFFER_TYPE_LONG.

Global Instance buffer_type_eq_dec : EqDecision buffer_type_t.
Proof. solve_decision. Defined.

(** [struct pcm_config] of tinyalsa; the sample format is S16_LE in all
    three configurations and is folded into [pcm_frames_to_bytes]. *)
Record pcm_config := mk_pcm_config {
  channels : Z;
  rate : Z;
  period_size : Z;
  period_count : Z;
  start_threshold : Z;
  stop_threshold : Z
}.

Definition pcm_config_out : pcm_config :=
  {| channels := 2;
     rate := OUT_SAMPLING_RATE;
     period_size := OUT_PERIOD_SIZE;
     period_count := OUT_LONG_PERIOD_COUNT;
     start_threshold := OUT_PERIOD_SIZE * OUT_SHORT_PERIOD_COUNT;
     stop_threshold := 0 |}.

Definition pcm_config_in : pcm_config :=
  {| channels := 2;
     rate := IN_SAMPLING_RATE;
     period_size := IN_PERIOD_SIZE;
     period_count := IN_PERIOD_COUNT;
     start_threshold := 1;
     stop_threshold := IN_PERIOD_SIZE * IN_PERIOD_COUNT |}.

Definition pcm_config_in_low_latency : pcm_config :=
  {| channels := 2;
     rate := IN_SAMPLING_RATE;
     period_size := IN_PERIOD_SIZE_LOW_LATENCY;
     period_count := IN_PERIOD_COUNT;
     start_threshold := 1;
     stop_threshold := IN_PERIOD_SIZE_LOW_LATENCY * IN_PERIOD_COUNT |}.

(** tinyalsa: bytes of [frames] frames of 16-bit samples on [cfg]'s channels. *)
Definition pcm_frames_to_bytes (cfg : pcm_config) (frames : Z) : Z :=
  u32 (frames * (channels cfg * 2)).

(** libhardware: frame size of the stream as the framework sees it,
    channel count of [out_get_channels]/[in_get_channels] times the two bytes
    of [AUDIO_FORMAT_PCM_16_BIT]. *)
Definition audio_channel_count_from_out_mask_stereo : Z := 2.
Definition audio_stream_out_frame_size : Z := audio_channel_count_from_out_mask_stereo * 2.
Definition audio_stream_in_frame_size : Z := 1 * 2.

(** ** Hardware handles and the trace of external calls *)

Inductive direction := Playback | Capture.

(** What a [struct pcm *] field can hold: NULL, a ready handle, a handle that
    tinyalsa returned but that is not ready, or a pointer that was passed to
    [pcm_close] and not cleared. *)
Inductive pcm_ptr := NullPcm | ReadyPcm | BadPcm | ClosedPcm.

Inductive pcm_open_result := PcmOpenReady | PcmOpenNotReady | PcmOpenNull.

Definition pcm_of_open (r : pcm_open_result) : pcm_ptr :=
  match r with
  | PcmOpenReady => ReadyPcm
  | PcmOpenNotReady => BadPcm
  | PcmOpenNull => NullPcm
  end.

Definition pcm_is_null (p : pcm_ptr) : bool :=
  match p with NullPcm => true | _ => false end.

Definition pcm_is_ready (p : pcm_ptr) : bool :=
  match p with ReadyPcm => true | _ => false end.

Global Instance pcm_ptr_eq_dec : EqDecision pcm_ptr.
Proof. solve_decision. Defined.
Global Instance pcm_open_result_eq_dec : EqDecision pcm_open_result.
Proof. solve_decision. Defined.
Global Instance direction_eq_dec : EqDecision direction.
Proof. solve_decision. Defined.

Record resampler_itfe := mk_resampler {
  rs_in_rate : Z;
  rs_out_rate : Z;
  rs_channels : Z;
  rs_has_provider : bool
}.

Inductive event :=
| EvPcmOpen (d : direction) (r : pcm_open_result)
| EvPcmClose (d : direction) (p : pcm_ptr)
| EvCreateResampler (d : direction) (in_rate out_rate chans : Z) (ok : bool)
| EvReleaseResampler (d : direction)
| EvMalloc (d : direction) (bytes : Z) (ok : bool)
| EvFree (d : direction)
| EvUsleep (us : Z)
| EvGetHtimestamp (avail : option Z)
| EvPcmWrite (bytes : Z) (ret : Z)
| EvPcmRead (bytes : Z) (ret : Z)
| EvResampleFromInput (in_frames out_frames : Z)
| EvResampleFromProvider (frames : Z)
| EvSelectDevices (out_device in_device : Z)
| EvSelectInputSource (source : Z)
| EvMemset (bytes : Z).

Definition trace := list event.

(** Answers of the environment while a stream is started: the result of
    [pcm_open], and whether [create_resampler] and [malloc] succeed. *)
Record start_hw := mk_start_hw {
  hw_open : pcm_open_result;
  hw_resampler_ok : bool;
  hw_malloc_ok : bool
}.

(** ** The three structures (lines 105-168) *)

Inductive audio_mode_t := AUDIO_MODE_NORMAL | AUDIO_MODE_RINGTONE
                        | AUDIO_MODE_IN_CALL | AUDIO_MODE_IN_COMMUNICATION.

Global Instance audio_mode_eq_dec : EqDecision audio_mode_t.
Proof. solve_decision. Defined.

Module ADev.
Record audio_device := mk {
  mode : audio_mode_t;
  out_device : Z;
  in_device : Z;
  in_source : Z;
  standby : bool;
  mic_mute : bool;
  screen_off : bool;
  lock_cnt : Z;
  active_out : option nat;
  active_in : option nat
}.

Definition set_mode v (d : audio_device) :=
  mk v (out_device d) (in_device d) (in_source d) (standby d) (mic_mute d)
     (screen_off d) (lock_cnt d) (active_out d) (active_in d).
Definition set_out_device v (d : audio_device) :=
  mk (mode d) v (in_device d) (in_source d) (standby d) (mic_mute d)
     (screen_off d) (lock_cnt d) (active_out d) (active_in d).
Definition set_in_device v (d : audio_device) :=
  mk (mode d) (out_device d) v (in_source d) (standby d) (mic_mute d)
     (screen_off d) (lock_cnt d) (active_out d) (active_in d).
Definition set_in_source v (d : audio_device) :=
  mk (mode d) (out_device d) (in_device d) v (standby d) (mic_mute d)
     (screen_off d) (lock_cnt d) (active_out d) (active_in d).
Definition set_mic_mute v (d : audio_device) :=
  mk (mode d) (out_device d) (in_device d) (in_source d) (standby d) v
     (screen_off d) (lock_cnt d) (active_out d) (active_in d).
Definition set_screen_off v (d : audio_device) :=
  mk (mode d) (out_device d) (in_device d) (in_source d) (standby d) (mic_mute d)
     v (lock_cnt d) (active_out d) (active_in d).
Definition set_lock_cnt v (d : audio_device) :=
  mk (mode d) (out_device d) (in_device d) (in_source d) (standby d) (mic_mute d)
     (screen_off d) v (active_out d) (active_in d).
Definition set_active_out v (d : audio_device) :=
  mk (mode d) (out_device d) (in_device d) (in_source d) (standby d) (mic_mute d)
     (screen_off d) (lock_cnt d) v (active_in d).
Definition set_active_in v (d : audio_device) :=
  mk (mode d) (out_device d) (in_device d) (in_source d) (standby d) (mic_mute d)
     (screen_off d) (lock_cnt d) (active_out d) v.
End ADev.

Module SOut.
Record stream_out := mk {
  pcm : pcm_ptr;
  pcm_config : option pcm_config;
  standby : bool;
  written : Z;
  resampler : option resampler_itfe;
  buffer : option Z;
  buffer_frames : Z;
  write_threshold : Z;
  cur_write_threshold : Z;
  buffer_type : buffer_type_t;
  sleep_req : bool;
  lock_cnt : Z
}.

Definition set_pcm v (s : stream_out) :=
  mk v (pcm_config s) (standby s) (written s) (resampler s) (buffer s)
     (buffer_frames s) (write_threshold s) (cur_write_threshold s)
     (buffer_type s) (sleep_req s) (lock_cnt s).
Definition set_pcm_config v (s : stream_out) :=
  mk (pcm s) v (standby s) (written s) (resampler s) (buffer s)
     (buffer_frames s) (write_threshold s) (cur_write_threshold s)
     (buffer_type s) (sleep_req s) (lock_cnt s).
Definition set_standby v (s : stream_out) :=
  mk (pcm s) (pcm_config s) v (written s) (resampler s) (buffer s)
     (buffer_frames s) (write_threshold s) (cur_write_threshold s)
     (buffer_type s) (sleep_req s) (lock_cnt s).
Definition set_written v (s : stream_out) :=
  mk (pcm s) (pcm_config s) (standby s) v (resampler s) (buffer s)
     (buffer_frames s) (write_threshold s) (cur_write_threshold s)
     (buffer_type s) (sleep_req s) (lock_cnt s).
Definition set_resampler v (s : stream_out) :=
  mk (pcm s) (pcm_config s) (standby s) (written s) v (buffer s)
     (buffer_frames s) (write_threshold s) (cur_write_threshold s)
     (buffer_type s) (sleep_req s) (lock_cnt s).
Definition set_buffer v (s : stream_out) :=
  mk (pcm s) (pcm_config s) (standby s) (written s) (resampler s) v
     (buffer_frames s) (write_threshold s) (cur_write_threshold s)
     (buffer_type s) (sleep_req s) (lock_cnt s).
Definition set_buffer_frames v (s : stream_out) :=
  mk (pcm s) (pcm_config s) (standby s) (written s) (resampler s) (buffer s)
     v (write_threshold s) (cur_write_threshold s)
     (buffer_type s) (sleep_req s) (lock_cnt s).
Definition set_write_threshold v (s : stream_out) :=
  mk (pcm s) (pcm_config s) (standby s) (written s) (resampler s) (buffer s)
     (buffer_frames s) v (cur_write_threshold s)
     (buffer_type s) (sleep_req s) (lock_cnt s).
Definition set_cur_write_threshold v (s : stream_out) :=
  mk (pcm s) (pcm_config s) (standby s) (written s) (resampler s) (buffer s)
     (buffer_frames s) (write_threshold s) v
     (buffer_type s) (sleep_req s) (lock_cnt s).
Definition set_buffer_type v (s : stream_out) :=
  mk (pcm s) (pcm_config s) (standby s) (written s) (resampler s) (buffer s)
     (buffer_frames s) (write_threshold s) (cur_write_threshold s)
     v (sleep_req s) (lock_cnt s).
Definition set_sleep_req v (s : stream_out) :=
  mk (pcm s) (pcm_config s) (standby s) (written s) (resampler s) (buffer s)
     (buffer_frames s) (write_threshold s) (cur_write_threshold s)
     (buffer_type s) v (lock_cnt s).
Definition set_lock_cnt v (s : stream_out) :=
  mk (pcm s) (pcm_config s) (standby s) (written s) (resampler s) (buffer s)
     (buffer_frames s) (write_threshold s) (cur_write_threshold s)
     (buffer_type s) (sleep_req s) v.

(** [calloc(1, sizeof(struct stream_out))] *)
Definition zero : stream_out :=
  mk NullPcm None false 0 None None 0 0 0 OUT_BUFFER_TYPE_UNKNOWN false 0.
End SOut.

Module SIn.
Record stream_in := mk {
  pcm : pcm_ptr;
  pcm_config : pcm_config;
  standby : bool;
  requested_rate : Z;
  resampler : option resampler_itfe;
  buffer : option Z;
  buffer_size : Z;
  frames_in : Z;
  read_status : Z;
  sleep_req : bool;
  lock_cnt : Z
}.

Definition set_pcm v (s : stream_in) :=
  mk v (pcm_config s) (standby s) (requested_rate s) (resampler s) (buffer s)
     (buffer_size s) (frames_in s) (read_status s) (sleep_req s) (lock_cnt s).
Definition set_standby v (s : stream_in) :=
  mk (pcm s) (pcm_config s) v (requested_rate s) (resampler s) (buffer s)
     (buffer_size s) (frames_in s) (read_status s) (sleep_req s) (lock_cnt s).
Definition set_resampler v (s : stream_in) :=
  mk (pcm s) (pcm_config s) (standby s) (requested_rate s) v (buffer s)
     (buffer_size s) (frames_in s) (read_status s) (sleep_req s) (lock_cnt s).
Definition set_buffer v (s : stream_in) :=
  mk (pcm s) (pcm_config s) (standby s) (requested_rate s) (resampler s) v
     (buffer_size s) (frames_in s) (read_status s) (sleep_req s) (lock_cnt s).
Definition set_buffer_size v (s : stream_in) :=
  mk (pcm s) (pcm_config s) (standby s) (requested_rate s) (resampler s) (buffer s)
     v (frames_in s) (read_status s) (sleep_req s) (lock_cnt s).
Definition set_frames_in v (s : stream_in) :=
  mk (pcm s) (pcm_config s) (standby s) (requested_rate s) (resampler s) (buffer s)
     (buffer_size s) v (read_status s) (sleep_req s) (lock_cnt s).
Definition set_read_status v (s : stream_in) :=
  mk (pcm s) (pcm_config s) (standby s) (requested_rate s) (resampler s) (buffer s)
     (buffer_size s) (frames_in s) v (sleep_req s) (lock_cnt s).
Definition set_sleep_req v (s : stream_in) :=
  mk (pcm s) (pcm_config s) (standby s) (requested_rate s) (resampler s) (buffer s)
     (buffer_size s) (frames_in s) (read_status s) v (lock_cnt s).
Definition set_lock_cnt v (s : stream_in) :=
  mk (pcm s) (pcm_config s) (standby s) (requested_rate s) (resampler s) (buffer s)
     (buffer_size s) (frames_in s) (read_status s) (sleep_req s) v.
End SIn.

Abbreviation audio_device := ADev.audio_device.
Abbreviation stream_out := SOut.stream_out.
Abbreviation stream_in := SIn.stream_in.

(** ** Lock helpers on the structures (lines 579-613) *)

Definition out_lock (out : stream_out) : stream_out :=
  SOut.set_lock_cnt (s32 (SOut.lock_cnt out + 1)) out.
Definition out_unlock (out : stream_out) : stream_out :=
  SOut.set_lock_cnt (s32 (SOut.lock_cnt out - 1)) out.
Definition in_lock (inp : stream_in) : stream_in :=
  SIn.set_lock_cnt (s32 (SIn.lock_cnt inp + 1)) inp.
Definition in_unlock (inp : stream_in) : stream_in :=
  SIn.set_lock_cnt (s32 (SIn.lock_cnt inp - 1)) inp.
Definition adev_lock (adev : audio_device) : audio_device :=
  ADev.set_lock_cnt (s32 (ADev.lock_cnt adev + 1)) adev.
Definition adev_unlock (adev : audio_device) : audio_device :=
  ADev.set_lock_cnt (s32 (ADev.lock_cnt adev - 1)) adev.

(** ** Standby (lines 341-385) *)

Definition do_out_standby (adev : audio_device) (out : stream_out)
  : audio_device * stream_out * trace :=
  if negb (SOut.standby out) then
    let t_close := [EvPcmClose Playback (SOut.pcm out)] in
    let out := SOut.set_pcm NullPcm out in
    let adev := ADev.set_active_out None adev in
    let '(out, t_rs) :=
      match SOut.resampler out with
      | Some _ => (SOut.set_resampler None out, [EvReleaseResampler Playback])
      | None => (out, [])
      end in
    let '(out, t_buf) :=
      match SOut.buffer out with
      | Some _ => (SOut.set_buffer None out, [EvFree Playback])
      | None => (out, [])
      end in
    (adev, SOut.set_standby true out, t_close ++ t_rs ++ t_buf)
  else
    (adev, out, []).

Definition do_in_standby (adev : audio_device) (inp : stream_in)
  : audio_device * stream_in * trace :=
  if negb (SIn.standby inp) then
    let t_close := [EvPcmClose Capture (SIn.pcm inp)] in
    let inp := SIn.set_pcm NullPcm inp in
    let adev := ADev.set_active_in None adev in
    let '(inp, t_rs) :=
      match SIn.resampler inp with
      | Some _ => (SIn.set_resampler None inp, [EvReleaseResampler Capture])
      | None => (inp, [])
      end in
    let '(inp, t_buf) :=
      match SIn.buffer inp with
      | Some _ => (SIn.set_buffer None inp, [EvFree Capture])
      | None => (inp, [])
      end in
    (adev, SIn.set_standby true inp, t_close ++ t_rs ++ t_buf)
  else
    (adev, inp, []).

(** ** Sample rates (lines 618-621, 1049-1054) *)

Definition out_get_sample_rate : Z := rate pcm_config_out.

Definition in_get_sample_rate (inp : stream_in) : Z := SIn.requested_rate inp.

(** ** Starting a stream (lines 387-479) *)

(** [start_output_stream] with the value of
    [out_get_sample_rate(&out->stream.common)] as the argument [sample_rate]. *)
Definition start_output_stream_at (sample_rate : Z) (o : nat) (hw : start_hw)
    (adev : audio_device) (out : stream_out)
  : Z * audio_device * stream_out * trace :=
  let out := SOut.set_pcm_config (Some pcm_config_out) out in
  let cfg := pcm_config_out in
  let out := SOut.set_buffer_type OUT_BUFFER_TYPE_UNKNOWN out in
  let out := SOut.set_pcm (pcm_of_open (hw_open hw)) out in
  let t_open := [EvPcmOpen Playback (hw_open hw)] in
  if negb (pcm_is_null (SOut.pcm out)) && negb (pcm_is_ready (SOut.pcm out)) then
    (- ENOMEM, adev, SOut.set_pcm ClosedPcm out,
     t_open ++ [EvPcmClose Playback (SOut.pcm out)])
  else
    let '(out, t_rs) :=
      if negb (sample_rate =? rate cfg) then
        let t_cr := [EvCreateResampler Playback sample_rate (rate cfg)
                       (channels cfg) (hw_resampler_ok hw)] in
        let out :=
          if hw_resampler_ok hw
          then SOut.set_resampler
                 (Some (mk_resampler sample_rate (rate cfg) (channels cfg) false)) out
          else out in
        let out :=
          SOut.set_buffer_frames
            (u32 (u32 (period_size pcm_config_out * rate cfg) / sample_rate + 1)) out in
        let bytes := pcm_frames_to_bytes cfg (SOut.buffer_frames out) in
        let out := SOut.set_buffer (if hw_malloc_ok hw then Some bytes else None) out in
        (out, t_cr ++ [EvMalloc Playback bytes (hw_malloc_ok hw)])
      else (out, []) in
    (0, ADev.set_active_out (Some o) adev, out, t_open ++ t_rs).

Definition start_output_stream (o : nat) (hw : start_hw)
    (adev : audio_device) (out : stream_out)
  : Z * audio_device * stream_out * trace :=
  start_output_stream_at out_get_sample_rate o hw adev out.

Definition start_input_stream (i : nat) (hw : start_hw)
    (adev : audio_device) (inp : stream_in)
  : Z * audio_device * stream_in * trace :=
  let cfg := SIn.pcm_config inp in
  let inp := SIn.set_pcm (pcm_of_open (hw_open hw)) inp in
  let t_open := [EvPcmOpen Capture (hw_open hw)] in
  if negb (pcm_is_null (SIn.pcm inp)) && negb (pcm_is_ready (SIn.pcm inp)) then
    (- ENOMEM, adev, SIn.set_pcm ClosedPcm inp,
     t_open ++ [EvPcmClose Capture (SIn.pcm inp)])
  else
    let '(inp, t_rs) :=
      if negb (in_get_sample_rate inp =? rate cfg) then
        let inp :=
          if hw_resampler_ok hw
          then SIn.set_resampler
                 (Some (mk_resampler (rate cfg) (in_get_sample_rate inp) 1 true)) inp
          else inp in
        (inp, [EvCreateResampler Capture (rate cfg) (in_get_sample_rate inp) 1
                 (hw_resampler_ok hw)])
      else (inp, []) in
    let inp := SIn.set_buffer_size (pcm_frames_to_bytes cfg (period_size cfg)) inp in
    let inp :=
      SIn.set_buffer (if hw_malloc_ok hw then Some (SIn.buffer_size inp) else None) inp in
    let t_buf := [EvMalloc Capture (SIn.buffer_size inp) (hw_malloc_ok hw)] in
    let inp := SIn.set_frames_in 0 inp in
    (0, ADev.set_active_in (Some i) adev, inp, t_open ++ t_rs ++ t_buf).

(** ** The buffer provider (lines 481-539) *)

(** [struct resampler_buffer]: [raw] is [None] for NULL and otherwise the
    offset, in samples, of the view into [in->buffer]. *)
Record resampler_buffer := mk_resampler_buffer {
  raw : option Z;
  frame_count : Z
}.

(** [read_ret] is what [pcm_read] returns if the call is made.  The provider
    and buffer arguments are never NULL at the call sites of this file, so the
    leading [-EINVAL] guard is not represented. *)
Definition get_next_buffer (read_ret : Z) (inp : stream_in) (buf : resampler_buffer)
  : Z * stream_in * resampler_buffer * trace :=
  if pcm_is_null (SIn.pcm inp) then
    (- ENODEV, SIn.set_read_status (- ENODEV) inp, mk_resampler_buffer None 0, [])
  else
    let cfg := SIn.pcm_config inp in
    let '(inp, t_read, failed) :=
      if SIn.frames_in inp =? 0 then
        let inp := SIn.set_read_status read_ret inp in
        let t := [EvPcmRead (SIn.buffer_size inp) read_ret] in
        if negb (SIn.read_status inp =? 0) then (inp, t, true)
        else (SIn.set_frames_in (period_size cfg) inp, t, false)
      else (inp, [], false) in
    if failed : bool then
      (SIn.read_status inp, inp, mk_resampler_buffer None 0, t_read)
    else
      let count :=
        if frame_count buf >? SIn.frames_in inp
        then SIn.frames_in inp else frame_count buf in
      (SIn.read_status inp, inp,
       mk_resampler_buffer (Some (u32 (period_size cfg - SIn.frames_in inp))) count,
       t_read).

Definition release_buffer (inp : stream_in) (buf : resampler_buffer) : stream_in :=
  SIn.set_frames_in (u32 (SIn.frames_in inp - frame_count buf)) inp.

(** ** The pacing loop and the threshold smoothing of out_write (lines 901-957) *)

(** The [do ... while] loop.  [hts k] is the answer of the [k]-th
    [pcm_get_htimestamp] of the call ([None]: it returned a negative value and
    left the local untouched), [bufsz] what [pcm_get_buffer_size] returns.
    The result is the final [kernel_frames], the final
    [total_sleep_time_us] and the calls made; [None] when [fuel] iterations
    did not reach the end of the loop. *)
Fixpoint pacing_loop (fuel : nat) (hts : nat -> option Z) (k : nat)
    (bufsz hw_rate cur_write_threshold kernel_frames total_sleep_time_us : Z)
  : option (Z * Z * trace) :=
  match fuel with
  | O => None
  | S fuel =>
    match hts k with
    | None => Some (kernel_frames, total_sleep_time_us, [EvGetHtimestamp None])
    | Some avail =>
      let ev := EvGetHtimestamp (Some avail) in
      let kernel_frames := s32 (u32 (u32 bufsz - u32 avail)) in
      if kernel_frames >? cur_write_threshold then
        let sleep_time_us :=
          s32 (Z.quot (s64 (s32 (kernel_frames - cur_write_threshold) * 1000000))
                      hw_rate) in
        if sleep_time_us <? MIN_WRITE_SLEEP_US then
          Some (kernel_frames, total_sleep_time_us, [ev])
        else
          let total_sleep_time_us := s32 (total_sleep_time_us + sleep_time_us) in
          let sleep_time_us :=
            if total_sleep_time_us >? MAX_WRITE_SLEEP_US
            then s32 (MAX_WRITE_SLEEP_US - s32 (total_sleep_time_us - sleep_time_us))
            else sleep_time_us in
          let t := [ev; EvUsleep (u32 sleep_time_us)] in
          if (kernel_frames >? cur_write_threshold)
             && (total_sleep_time_us <=? MAX_WRITE_SLEEP_US) then
            match pacing_loop fuel hts (S k) bufsz hw_rate cur_write_threshold
                    kernel_frames total_sleep_time_us with
            | Some (kf, total, t') => Some (kf, total, t ++ t')
            | None => None
            end
          else Some (kernel_frames, total_sleep_time_us, t)
      else Some (kernel_frames, total_sleep_time_us, [ev])
    end
  end.

(** Lines 941-956, on the values involved: the new [cur_write_threshold]. *)
Definition smooth_write_threshold
    (period_size write_threshold kernel_frames cur_write_threshold : Z) : Z :=
  if cur_write_threshold >? write_threshold then
    let cur := s32 (u32 (u32 cur_write_threshold - period_size / 4)) in
    if cur <? write_threshold then write_threshold else cur
  else if cur_write_threshold <? write_threshold then
    let cur := s32 (u32 (u32 cur_write_threshold + period_size / 4)) in
    if cur >? write_threshold then write_threshold else cur
  else if (kernel_frames <? write_threshold)
          && (s32 (write_threshold - kernel_frames)
              >? s32 (u32 (period_size * OUT_SHORT_PERIOD_COUNT))) then
    let cur := s32 (u32 ((u32 kernel_frames / period_size + 1) * period_size)) in
    s32 (u32 (u32 cur + period_size / 4))
  else cur_write_threshold.

(** Lines 857-875: choice of the buffering regime and of the target. *)
Definition select_buffer_type (adev : audio_device) (cfg : pcm_config)
    (out : stream_out) : stream_out :=
  let buffer_type :=
    if ADev.screen_off adev && negb (bool_decide (is_Some (ADev.active_in adev)))
    then OUT_BUFFER_TYPE_LONG else OUT_BUFFER_TYPE_SHORT in
  if negb (bool_decide (buffer_type = SOut.buffer_type out)) then
    let period_count :=
      if bool_decide (buffer_type = OUT_BUFFER_TYPE_LONG)
      then OUT_LONG_PERIOD_COUNT else OUT_SHORT_PERIOD_COUNT in
    let out := SOut.set_write_threshold (s32 (u32 (period_size cfg * period_count))) out in
    let out :=
      if bool_decide (SOut.buffer_type out = OUT_BUFFER_TYPE_UNKNOWN)
      then SOut.set_cur_write_threshold (SOut.write_threshold out) out
      else out in
    SOut.set_buffer_type buffer_type out
  else out.

(** ** Output stream API on one stream (lines 649-713, 1009-1046) *)

Definition out_standby (adev : audio_device) (out : stream_out)
  : Z * audio_device * stream_out * trace :=
  let out := SOut.set_sleep_req true out in
  let out := out_lock out in
  let out := SOut.set_sleep_req false out in
  let adev := adev_lock adev in
  let '(adev, out, t) := do_out_standby adev out in
  let adev := adev_unlock adev in
  let out := out_unlock out in
  (0, adev, out, t).

(** [ret] is what [str_parms_get_str] returns for the routing key of
    [kvpairs], [value] the result of [atoi] on the string it found. *)
Definition out_set_parameters (ret value : Z)
    (adev : audio_device) (out : stream_out)
  : Z * audio_device * stream_out * trace :=
  let out := SOut.set_sleep_req true out in
  let out := out_lock out in
  let out := SOut.set_sleep_req false out in
  let adev := adev_lock adev in
  let '(adev, out, t) :=
    if ret >=? 0 then
      let val := u32 value in
      if negb (ADev.out_device adev =? val) && negb (val =? 0) then
        let '(adev, out, t) :=
          if negb (ADev.out_device adev =? val) then
            if negb (bool_decide (ADev.mode adev = AUDIO_MODE_IN_CALL)) then
              if negb (SOut.standby out) then do_out_standby adev out
              else (adev, out, [])
            else (adev, out, [])
          else (adev, out, []) in
        (ADev.set_out_device val adev, out, t)
      else (adev, out, [])
    else (adev, out, []) in
  let adev := adev_unlock adev in
  let out := out_unlock out in
  (ret, adev, out, t).

(** [ht] is the available-frame count stored by [pcm_get_htimestamp] when it
    returns 0, [None] when it returns something else.  The result is the
    status, the value stored through [frames] if any, and the stream; there is
    no result when a started stream has no configuration to dereference. *)
Definition out_get_presentation_position (ht : option Z) (out : stream_out)
  : option (Z * option Z * stream_out * trace) :=
  let out := SOut.set_sleep_req true out in
  let out := out_lock out in
  let out := SOut.set_sleep_req false out in
  if SOut.standby out then Some (- ENOSYS, None, out_unlock out, [])
  else if pcm_is_null (SOut.pcm out) then Some (- ENOSYS, None, out_unlock out, [])
  else
    match ht with
    | Some avail =>
      match SOut.pcm_config out with
      | None => None
      | Some cfg =>
        let kernel_buffer_size := u32 (period_size cfg * period_count cfg) in
        let signed_frames :=
          s64 (u64 (u64 (SOut.written out - kernel_buffer_size) + u32 avail)) in
        if signed_frames >=? 0
        then Some (0, Some (u64 signed_frames), out_unlock out,
                   [EvGetHtimestamp ht])
        else Some (- 1, None, out_unlock out, [EvGetHtimestamp ht])
      end
    | None => Some (- 1, None, out_unlock out, [EvGetHtimestamp ht])
    end.

(** ** Input stream API on one stream (lines 1094-1172) *)

Definition in_standby (adev : audio_device) (inp : stream_in)
  : Z * audio_device * stream_in * trace :=
  let inp := SIn.set_sleep_req true inp in
  let inp := in_lock inp in
  let inp := SIn.set_sleep_req false inp in
  let adev := adev_lock adev in
  let '(adev, inp, t) := do_in_standby adev inp in
  let adev := adev_unlock adev in
  let inp := in_unlock inp in
  (0, adev, inp, t).

Definition AUDIO_DEVICE_BIT_IN : Z := 0x80000000.

(** [ret_source], [source] and [ret_routing], [routing] are the results of
    [str_parms_get_str] and [atoi] for the two keys. *)
Definition in_set_parameters (ret_source source ret_routing routing : Z)
    (adev : audio_device) (inp : stream_in)
  : Z * audio_device * stream_in * trace :=
  let inp := SIn.set_sleep_req true inp in
  let inp := in_lock inp in
  let inp := SIn.set_sleep_req false inp in
  let adev := adev_lock adev in
  let '(adev, t_src) :=
    if ret_source >=? 0 then
      let val := u32 source in
      if negb (ADev.in_source adev =? val)
      then (ADev.set_in_source val adev, [EvSelectInputSource val])
      else (adev, [])
    else (adev, []) in
  let '(adev, inp, t) :=
    if ret_routing >=? 0 then
      let val := Z.land (u32 routing) (u32 (Z.lnot AUDIO_DEVICE_BIT_IN)) in
      if negb (ADev.in_device adev =? val) && negb (val =? 0) then
        let '(adev, inp, t) :=
          if negb (bool_decide (ADev.mode adev = AUDIO_MODE_IN_CALL)) then
            if negb (SIn.standby inp) then do_in_standby adev inp
            else (adev, inp, [])
          else (adev, inp, []) in
        (ADev.set_in_device val adev, inp, t)
      else (adev, inp, [])
    else (adev, inp, []) in
  let adev := adev_unlock adev in
  let inp := in_unlock inp in
  (ret_routing, adev, inp, t_src ++ t).

(** ** The heap of streams *)

Record world := mk_world {
  adev : audio_device;
  outs : gmap nat stream_out;
  ins : gmap nat stream_in
}.

Definition set_adev (a : audio_device) (w : world) : world :=
  mk_world a (outs w) (ins w).
Definition set_outs (m : gmap nat stream_out) (w : world) : world :=
  mk_world (adev w) m (ins w).
Definition set_ins (m : gmap nat stream_in) (w : world) : world :=
  mk_world (adev w) (outs w) m.

(** ** out_write (lines 737-985) *)

(** Lines 781-813: the loop that takes the lock of the active input.
    The result is the device, the input streams, the local [in], [in_locked],
    [restart_input] and the calls made.  Without another thread between the
    two reads of [adev->active_in] the first iteration breaks out; [fuel]
    bounds the retries. *)
Fixpoint out_write_wait_input (fuel : nat) (adev : audio_device)
    (ins : gmap nat stream_in) (inp : option nat)
  : audio_device * gmap nat stream_in * option nat * bool * bool * trace :=
  match inp with
  | None => (adev, ins, inp, false, false, [])
  | Some i =>
    match ins !! i with
    | None => (adev, ins, inp, false, false, [])
    | Some si =>
      if SIn.standby si then (adev, ins, inp, false, false, [])
      else
        match fuel with
        | O => (adev, ins, inp, false, false, [])
        | S fuel =>
          let adev := adev_unlock adev in
          let si := SIn.set_sleep_req true si in
          let si := in_lock si in
          let adev := adev_lock adev in
          if bool_decide (inp = ADev.active_in adev) then
            if negb (SIn.standby si) then
              let '(adev, si, t) := do_in_standby adev si in
              (adev, <[i := si]> ins, inp, true, true, t)
            else (adev, <[i := si]> ins, inp, true, false, [])
          else
            let si := in_unlock si in
            out_write_wait_input fuel adev (<[i := si]> ins) (ADev.active_in adev)
        end
    end
  end.

(** Answers of the environment during one [out_write]. *)
Record out_write_hw := mk_out_write_hw {
  ow_start_out : start_hw;
  ow_start_in : start_hw;
  ow_buffer_size : Z;
  ow_htimestamp : nat -> option Z;
  ow_kernel_frames0 : Z;
  ow_resample : Z * Z;
  ow_pcm_write : Z
}.

(** Lines 824-840: the input that was put in standby is started again. *)
Definition out_write_restart_input (hw : start_hw) (inp : option nat)
    (in_locked restart_input : bool) (adev : audio_device) (ins : gmap nat stream_in)
  : audio_device * gmap nat stream_in * trace :=
  match inp with
  | Some i =>
    match ins !! i with
    | Some si =>
      let '(adev, si, t) :=
        if restart_input && SIn.standby si then
          let '(r, adev, si, t) := start_input_stream i hw adev si in
          if r =? 0 then (adev, SIn.set_standby false si, t) else (adev, si, t)
        else (adev, si, []) in
      let si := if in_locked then in_unlock si else si in
      let si := SIn.set_sleep_req false si in
      (adev, <[i := si]> ins, t)
    | None => (adev, ins, [])
    end
  | None => (adev, ins, [])
  end.

(** Lines 777-856: leaving standby.  The status is that of
    [start_output_stream]; when it is not 0 the source jumps to [exit] and the
    state is the one reached at the jump. *)
Definition out_write_exit_standby (o : nat) (hw : out_write_hw)
    (adev : audio_device) (out : stream_out) (ins : gmap nat stream_in)
  : Z * audio_device * stream_out * gmap nat stream_in * trace :=
  let adev := adev_lock adev in
  let '(adev, ins, inp, in_locked, restart_input, t_wait) :=
    out_write_wait_input 1 adev ins (ADev.active_in adev) in
  let '(ret, adev, out, t_start) := start_output_stream o (ow_start_out hw) adev out in
  if negb (ret =? 0) then (ret, adev, out, ins, t_wait ++ t_start)
  else
    let '(adev, ins, t_in) :=
      out_write_restart_input (ow_start_in hw) inp in_locked restart_input adev ins in
    let t_mix := [EvSelectDevices (ADev.out_device adev) (ADev.in_device adev)] in
    let out := SOut.set_standby false out in
    let adev := adev_unlock adev in
    (0, adev, out, ins, t_wait ++ t_start ++ t_in ++ t_mix).

(** The [exit] label: unlock, compensating sleep, [return bytes]. *)
Definition out_write_exit (bytes ret : Z) (out : stream_out) : Z * stream_out * trace :=
  let out := out_unlock out in
  let t :=
    if negb (ret =? 0)
    then [EvUsleep (u32 (u32 (bytes * 1000000) / audio_stream_out_frame_size
                         / out_get_sample_rate))]
    else [] in
  (s32 bytes, out, t).

Definition PACING_FUEL : nat := 24.

(** Lines 857-985 once the stream is out of standby.  No result when the
    stream has no configuration to dereference or when the pacing loop has not
    ended after [PACING_FUEL] iterations. *)
Definition out_write_body (bytes : Z) (hw : out_write_hw)
    (adev : audio_device) (out : stream_out)
  : option (Z * stream_out * trace) :=
  match SOut.pcm_config out with
  | None => None
  | Some cfg =>
    let frame_size := audio_stream_out_frame_size in
    let in_frames := bytes / frame_size in
    let out := select_buffer_type adev cfg out in
    let frame_size :=
      if audio_channel_count_from_out_mask_stereo >? s32 (channels cfg)
      then frame_size / 2 else frame_size in
    let '(out_frames, t_rs) :=
      if negb (out_get_sample_rate =? rate cfg)
      then (snd (ow_resample hw),
            [EvResampleFromInput (fst (ow_resample hw)) (snd (ow_resample hw))])
      else (in_frames, []) in
    let period_size := period_size cfg in
    match pacing_loop PACING_FUEL (ow_htimestamp hw) 0 (ow_buffer_size hw) (rate cfg)
            (SOut.cur_write_threshold out) (ow_kernel_frames0 hw) 0 with
    | None => None
    | Some (kernel_frames, _, t_pace) =>
      let out :=
        SOut.set_cur_write_threshold
          (smooth_write_threshold period_size (SOut.write_threshold out)
             kernel_frames (SOut.cur_write_threshold out)) out in
      let ret := ow_pcm_write hw in
      let t_write := [EvPcmWrite (u32 (out_frames * frame_size)) ret] in
      if ret =? - EPIPE then
        Some (ret, out_unlock out, t_rs ++ t_pace ++ t_write)
      else
        let out :=
          if ret =? 0 then SOut.set_written (u64 (SOut.written out + out_frames)) out
          else out in
        let '(r, out, t_exit) := out_write_exit bytes ret out in
        Some (r, out, t_rs ++ t_pace ++ t_write ++ t_exit)
    end
  end.

Definition out_write (o : nat) (bytes : Z) (hw : out_write_hw) (w : world)
  : option (Z * world * trace) :=
  match outs w !! o with
  | None => None
  | Some out =>
    let t_req := if SOut.sleep_req out then [EvUsleep 10000] else [] in
    let out := out_lock out in
    let '(ret, adev, out, ins, t_sb) :=
      if SOut.standby out
      then out_write_exit_standby o hw (adev w) out (ins w)
      else (0, adev w, out, ins w, []) in
    if negb (ret =? 0) then
      let '(r, out, t_exit) := out_write_exit bytes ret out in
      Some (r, mk_world adev (<[o := out]> (outs w)) ins, t_req ++ t_sb ++ t_exit)
    else
      match out_write_body bytes hw adev out with
      | None => None
      | Some (r, out, t) =>
        Some (r, mk_world adev (<[o := out]> (outs w)) ins, t_req ++ t_sb ++ t)
      end
  end.

(** ** in_read (lines 541-577, 1185-1333) *)

(** The resampler is a black box that drives the provider: one
    [resample_from_provider] call is the list of provider calls it makes and
    the frame count it stores back through its last argument. *)
Inductive provider_call :=
| ProvGetNextBuffer (request read_ret : Z)
| ProvReleaseBuffer (frames : Z).

Fixpoint run_provider (cs : list provider_call) (inp : stream_in)
  : stream_in * list resampler_buffer * trace :=
  match cs with
  | [] => (inp, [], [])
  | ProvGetNextBuffer request read_ret :: cs =>
    let '(_, inp, buf, t) :=
      get_next_buffer read_ret inp (mk_resampler_buffer None request) in
    let '(inp, views, t') := run_provider cs inp in
    (inp, buf :: views, t ++ t')
  | ProvReleaseBuffer frames :: cs =>
    let inp := release_buffer inp (mk_resampler_buffer None frames) in
    run_provider cs inp
  end.

Record resampler_call := mk_resampler_call {
  rc_calls : list provider_call;
  rc_frames : Z
}.

(** Lines 548-568: one pass of the loop of [read_frames], through the
    resampler or, without one, straight from the provider.  The result is
    the stream, the new [frames_rd] and the calls made. *)
Definition read_frames_pass (rc : resampler_call) (direct_read : Z)
    (inp : stream_in) (frames_rd : Z) : stream_in * Z * trace :=
  match SIn.resampler inp with
  | Some _ =>
    let '(inp, _, t) := run_provider (rc_calls rc) inp in
    (inp, rc_frames rc, EvResampleFromProvider frames_rd :: t)
  | None =>
    let '(_, inp, buf, t) :=
      get_next_buffer direct_read inp (mk_resampler_buffer None frames_rd) in
    let frames_rd :=
      match raw buf with Some _ => frame_count buf | None => frames_rd end in
    (release_buffer inp buf, frames_rd, t)
  end.

(** [read_frames]: one element of [rcs] per iteration of the loop; no result
    when [rcs] is used up before the loop ends. *)
Fixpoint read_frames (rcs : list resampler_call) (direct_read : Z)
    (inp : stream_in) (frames frames_wr : Z)
  : option (Z * stream_in * trace) :=
  if frames_wr <? frames then
    match rcs with
    | [] => None
    | rc :: rcs =>
      let frames_rd := u32 (frames - frames_wr) in
      let '(inp, frames_rd, t) := read_frames_pass rc direct_read inp frames_rd in
      if negb (SIn.read_status inp =? 0) then Some (SIn.read_status inp, inp, t)
      else
        match read_frames rcs direct_read inp frames (s32 (frames_wr + s32 frames_rd)) with
        | Some (r, inp, t') => Some (r, inp, t ++ t')
        | None => None
        end
    end
  else Some (frames_wr, inp, []).

(** Lines 1219-1245: the loop that takes the lock of the active output. *)
Fixpoint in_read_wait_output (fuel : nat) (adev : audio_device)
    (outs : gmap nat stream_out) (inp : stream_in) (out : option nat)
  : audio_device * gmap nat stream_out * stream_in * option nat * bool :=
  match out with
  | None => (adev, outs, inp, out, false)
  | Some o =>
    match outs !! o with
    | None => (adev, outs, inp, out, false)
    | Some so =>
      if SOut.standby so then (adev, outs, inp, out, false)
      else
        match fuel with
        | O => (adev, outs, inp, out, false)
        | S fuel =>
          let adev := adev_unlock adev in
          let inp := in_unlock inp in
          let so := SOut.set_sleep_req true so in
          let so := out_lock so in
          let inp := in_lock inp in
          let adev := adev_lock adev in
          if bool_decide (out = ADev.active_out adev) then
            (adev, <[o := so]> outs, inp, out, true)
          else
            let so := out_unlock so in
            in_read_wait_output fuel adev (<[o := so]> outs) inp (ADev.active_out adev)
        end
    end
  end.

(** Answers of the environment during one [in_read]. *)
Record in_read_hw := mk_in_read_hw {
  ir_start_out : start_hw;
  ir_start_in : start_hw;
  ir_resampler : list resampler_call;
  ir_pcm_read : Z
}.

(** Lines 1247-1266: the active output, when there is one, is put in
    standby and started again. *)
Definition in_read_restart_output (hw : start_hw) (out : option nat)
    (out_locked : bool) (adev : audio_device) (outs : gmap nat stream_out)
  : audio_device * gmap nat stream_out * trace :=
  match out with
  | Some o =>
    match outs !! o with
    | Some so =>
      if negb (SOut.standby so) then
        let '(adev, so, t_sb) := do_out_standby adev so in
        let '(_, adev, so, t_start) := start_output_stream o hw adev so in
        let so := SOut.set_standby false so in
        let so :=
          if out_locked then SOut.set_sleep_req false (out_unlock so) else so in
        (adev, <[o := so]> outs, t_sb ++ t_start)
      else (adev, outs, [])
    | None => (adev, outs, [])
    end
  | None => (adev, outs, [])
  end.

(** Lines 1215-1286: leaving standby.  The status is the one with which the
    block is left, that of [start_input_stream]. *)
Definition in_read_exit_standby (i : nat) (hw : in_read_hw)
    (adev : audio_device) (outs : gmap nat stream_out) (inp : stream_in)
  : Z * audio_device * gmap nat stream_out * stream_in * trace :=
  let adev := adev_lock adev in
  let '(adev, outs, inp, out, out_locked) :=
    in_read_wait_output 1 adev outs inp (ADev.active_out adev) in
  let '(adev, outs, t_out) :=
    in_read_restart_output (ir_start_out hw) out out_locked adev outs in
  let '(ret, adev, inp, t_in) := start_input_stream i (ir_start_in hw) adev inp in
  let inp := if ret =? 0 then SIn.set_standby false inp else inp in
  let t_mix := [EvSelectDevices (ADev.out_device adev) (ADev.in_device adev);
                EvSelectInputSource (ADev.in_source adev)] in
  let adev := adev_unlock adev in
  (ret, adev, outs, inp, t_out ++ t_in ++ t_mix).

(** The bytes [in->buffer] has room for: what [malloc] was asked for, nothing
    when the pointer is NULL. *)
Definition in_buffer_capacity (inp : stream_in) : Z :=
  match SIn.buffer inp with
  | Some size => size
  | None => 0
  end.

(** Lines 1288-1333: the transfer and the [exit] label.  No result where the
    call leaves defined behaviour: in the stereo branch when [in->buffer] is
    shorter than the [bytes * 2] that [pcm_read] is asked to fill and that
    the loop reads back, and at the [exit] label when the sleep is taken with
    a requested rate of 0, by which it divides. *)
Definition in_read_body (bytes ret : Z) (hw : in_read_hw)
    (adev : audio_device) (inp : stream_in)
  : option (Z * stream_in * trace) :=
  let frames_rq := bytes / audio_stream_in_frame_size in
  let exit (ret : Z) (inp : stream_in) (t : trace) :=
    let t_sleep :=
      if ret <? 0
      then [EvUsleep (u32 (u32 (bytes * 1000000) / audio_stream_in_frame_size
                           / in_get_sample_rate inp))]
      else [] in
    if (ret <? 0) && (in_get_sample_rate inp =? 0) then None
    else Some (s32 bytes, in_unlock inp, t ++ t_sleep) in
  if ret <? 0 then exit ret inp []
  else
    let transfer :=
      match SIn.resampler inp with
      | Some _ =>
        match read_frames (ir_resampler hw) (ir_pcm_read hw) inp (s32 frames_rq) 0 with
        | Some (r, inp, t) => Some (s32 r, inp, t)
        | None => None
        end
      | None =>
        if channels (SIn.pcm_config inp) =? 2
        then
          if bytes * 2 <=? in_buffer_capacity inp
          then Some (ir_pcm_read hw, inp, [EvPcmRead (u32 (bytes * 2)) (ir_pcm_read hw)])
          else None
        else Some (ir_pcm_read hw, inp, [EvPcmRead bytes (ir_pcm_read hw)])
      end in
    match transfer with
    | None => None
    | Some (ret, inp, t) =>
      let ret := if ret >? 0 then 0 else ret in
      let t_mute := if (ret =? 0) && ADev.mic_mute adev then [EvMemset bytes] else [] in
      exit ret inp (t ++ t_mute)
    end.

Definition in_read (i : nat) (bytes : Z) (hw : in_read_hw) (w : world)
  : option (Z * world * trace) :=
  match ins w !! i with
  | None => None
  | Some inp =>
    let t_req := if SIn.sleep_req inp then [EvUsleep 10000] else [] in
    let inp := in_lock inp in
    let '(ret, adev, outs, inp, t_sb) :=
      if SIn.standby inp
      then in_read_exit_standby i hw (adev w) (outs w) inp
      else (0, adev w, outs w, inp, []) in
    match in_read_body bytes ret hw adev inp with
    | None => None
    | Some (r, inp, t) =>
      Some (r, mk_world adev outs (<[i := inp]> (ins w)), t_req ++ t_sb ++ t)
    end
  end.

(** ** Device API (lines 1350-1714) *)

Definition AUDIO_CHANNEL_OUT_STEREO : Z := 0x3.
Definition AUDIO_CHANNEL_IN_MONO : Z := 0x10.
Definition AUDIO_FORMAT_PCM_16_BIT : Z := 0x1.

Record audio_config := mk_audio_config {
  sample_rate : Z;
  channel_mask : Z;
  format : Z
}.

(** The status, the configuration handed back, and the stream when one is
    returned through [stream_out]; [calloc_ok] tells whether [calloc] returned
    a block. *)
Definition adev_open_output_stream (calloc_ok : bool) (config : audio_config)
  : Z * audio_config * option stream_out :=
  if negb calloc_ok then (- ENOMEM, config, None)
  else if negb (channel_mask config =? AUDIO_CHANNEL_OUT_STEREO)
          || negb (sample_rate config =? 44100) then
    (- EINVAL, mk_audio_config 44100 AUDIO_CHANNEL_OUT_STEREO (format config), None)
  else
    let out := SOut.zero in
    let config :=
      mk_audio_config out_get_sample_rate AUDIO_CHANNEL_OUT_STEREO
        AUDIO_FORMAT_PCM_16_BIT in
    let out := SOut.set_standby true out in
    (0, config, Some out).

Definition adev_open_input_stream (calloc_ok : bool) (config : audio_config)
    (flag_fast : bool)
  : Z * audio_config * option stream_in :=
  if negb (channel_mask config =? AUDIO_CHANNEL_IN_MONO) then
    (- EINVAL, mk_audio_config (sample_rate config) AUDIO_CHANNEL_IN_MONO (format config),
     None)
  else if negb calloc_ok then (- ENOMEM, config, None)
  else
    let cfg :=
      if (sample_rate config =? IN_SAMPLING_RATE) && flag_fast
      then pcm_config_in_low_latency else pcm_config_in in
    (0, config,
     Some (SIn.mk NullPcm cfg true (sample_rate config) None None 0 0 0 false 0)).

Definition adev_set_mode (m : audio_mode_t) (adev : audio_device) : audio_device :=
  let adev := adev_lock adev in
  let adev := ADev.set_mode m adev in
  adev_unlock adev.

(** [ret] is what [str_parms_get_str] returns for the key [screen_state],
    [is_on] whether the value found is [AUDIO_PARAMETER_VALUE_ON]. *)
Definition adev_set_parameters (ret : Z) (is_on : bool) (adev : audio_device)
  : Z * audio_device :=
  if ret >=? 0
  then (ret, ADev.set_screen_off (negb is_on) adev)
  else (ret, adev).

Definition adev_set_mic_mute (state : bool) (w : world) : Z * world * trace :=
  let '(w, t) :=
    match ADev.active_in (adev w) with
    | Some i =>
      match ins w !! i with
      | Some si =>
        let si := SIn.set_sleep_req true si in
        let si := in_lock si in
        let si := SIn.set_sleep_req false si in
        let a := adev_lock (adev w) in
        let '(a, si, t) :=
          if negb (bool_decide (ADev.mode a = AUDIO_MODE_IN_CALL))
          then do_in_standby a si else (a, si, []) in
        let a := adev_unlock a in
        let si := in_unlock si in
        (mk_world a (outs w) (<[i := si]> (ins w)), t)
      | None => (w, [])
      end
    | None => (w, [])
    end in
  (0, set_adev (ADev.set_mic_mute state (adev w)) w, t).

(** [adev_open]: the zeroed device. *)
Definition adev_open : world :=
  mk_world (ADev.mk AUDIO_MODE_NORMAL 0 0 0 false false false 0 None None) ∅ ∅.

(** The calls of the framework.  Stream arguments are addresses; an
    opened stream is placed at the address [calloc] returned, which holds no
    other stream. *)
Inductive api_call :=
| OpenOutputStream (o : nat) (calloc_ok : bool) (config : audio_config)
| CloseOutputStream (o : nat)
| OpenInputStream (i : nat) (calloc_ok : bool) (config : audio_config) (flag_fast : bool)
| CloseInputStream (i : nat)
| OutWrite (o : nat) (bytes : Z) (hw : out_write_hw)
| OutStandby (o : nat)
| OutSetParameters (o : nat) (ret value : Z)
| OutGetPresentationPosition (o : nat) (ht : option Z)
| InRead (i : nat) (bytes : Z) (hw : in_read_hw)
| InStandby (i : nat)
| InSetParameters (i : nat) (ret_source source ret_routing routing : Z)
| SetMode (m : audio_mode_t)
| SetMicMute (state : bool)
| SetParameters (ret : Z) (is_on : bool).

Definition on_out {A} (o : nat) (w : world)
    (f : audio_device -> stream_out -> A * audio_device * stream_out * trace)
  : option (A * world * trace) :=
  match outs w !! o with
  | Some out =>
    let '(r, a, out, t) := f (adev w) out in
    Some (r, mk_world a (<[o := out]> (outs w)) (ins w), t)
  | None => None
  end.

Definition on_in {A} (i : nat) (w : world)
    (f : audio_device -> stream_in -> A * audio_device * stream_in * trace)
  : option (A * world * trace) :=
  match ins w !! i with
  | Some inp =>
    let '(r, a, inp, t) := f (adev w) inp in
    Some (r, mk_world a (outs w) (<[i := inp]> (ins w)), t)
  | None => None
  end.

Definition api_run (c : api_call) (w : world) : option (Z * world * trace) :=
  match c with
  | OpenOutputStream o calloc_ok config =>
    match outs w !! o with
    | Some _ => None
    | None =>
      match adev_open_output_stream calloc_ok config with
      | (r, _, Some out) => Some (r, set_outs (<[o := out]> (outs w)) w, [])
      | (r, _, None) => Some (r, w, [])
      end
    end
  | CloseOutputStream o =>
    match on_out o w out_standby with
    | Some (_, w, t) => Some (0, set_outs (delete o (outs w)) w, t)
    | None => None
    end
  | OpenInputStream i calloc_ok config flag_fast =>
    match ins w !! i with
    | Some _ => None
    | None =>
      match adev_open_input_stream calloc_ok config flag_fast with
      | (r, _, Some inp) => Some (r, set_ins (<[i := inp]> (ins w)) w, [])
      | (r, _, None) => Some (r, w, [])
      end
    end
  | CloseInputStream i =>
    match on_in i w in_standby with
    | Some (_, w, t) =>
      let a := adev_lock (adev w) in
      let a := ADev.set_active_in None a in
      let a := adev_unlock a in
      Some (0, mk_world a (outs w) (delete i (ins w)), t)
    | None => None
    end
  | OutWrite o bytes hw => out_write o bytes hw w
  | OutStandby o => on_out o w out_standby
  | OutSetParameters o ret value => on_out o w (out_set_parameters ret value)
  | OutGetPresentationPosition o ht =>
    match outs w !! o with
    | Some out =>
      match out_get_presentation_position ht out with
      | Some (r, _, out, t) => Some (r, set_outs (<[o := out]> (outs w)) w, t)
      | None => None
      end
    | None => None
    end
  | InRead i bytes hw => in_read i bytes hw w
  | InStandby i => on_in i w in_standby
  | InSetParameters i ret_source source ret_routing routing =>
    on_in i w (in_set_parameters ret_source source ret_routing routing)
  | SetMode m => Some (0, set_adev (adev_set_mode m (adev w)) w, [])
  | SetMicMute state => Some (adev_set_mic_mute state w)
  | SetParameters ret is_on =>
    let '(r, a) := adev_set_parameters ret is_on (adev w) in
    Some (r, set_adev a w, [])
  end.

(** States the framework can bring the device to. *)
Inductive reachable : world -> Prop :=
| reachable_open : reachable adev_open
| reachable_call w c r w' t :
    reachable w -> api_run c w = Some (r, w', t) -> reachable w'.

(** ** Vocabulary of the properties *)

(** Both registered streams exist and neither is in standby. *)
Definition both_directions_active (w : world) : Prop :=
  exists o i so si,
    ADev.active_out (adev w) = Some o /\ ADev.active_in (adev w) = Some i /\
    outs w !! o = Some so /\ ins w !! i = Some si /\
    SOut.standby so = false /\ SIn.standby si = false.

(** At most one of the registered active output and active input is out of
    standby. *)
Definition at_most_one_direction_active (w : world) : Prop :=
  forall o i so si,
    ADev.active_out (adev w) = Some o -> ADev.active_in (adev w) = Some i ->
    outs w !! o = Some so -> ins w !! i = Some si ->
    SOut.standby so = true \/ SIn.standby si = true.

(** Ceiling of a quotient of positive integers. *)
Definition ceil_div (a b : Z) : Z := (a + b - 1) / b.

(** Time, in whole microseconds, that [bytes] bytes of frames of
    [frame_size] bytes last at [rate] frames per second. *)
Definition transfer_time_us (bytes frame_size rate : Z) : Z :=
  bytes * 1000000 / frame_size / rate.

(** Iterating the threshold smoothing over the fill levels seen by
    successive writes. *)
Fixpoint smooth_writes (period_size write_threshold : Z) (fills : list Z)
    (cur_write_threshold : Z) : Z :=
  match fills with
  | [] => cur_write_threshold
  | kernel_frames :: fills =>
    smooth_writes period_size write_threshold fills
      (smooth_write_threshold period_size write_threshold kernel_frames
         cur_write_threshold)
  end.

(** External calls that release or allocate resources. *)
Definition is_release (e : event) : bool :=
  match e with
  | EvPcmClose _ _ | EvReleaseResampler _ | EvFree _ => true
  | _ => false
  end.

Definition is_output_resampling (e : event) : bool :=
  match e with
  | EvCreateResampler Playback _ _ _ _ | EvMalloc Playback _ _
  | EvReleaseResampler Playback | EvFree Playback
  | EvResampleFromInput _ _ => true
  | _ => false
  end.

Definition slept_us (e : event) : Z :=
  match e with EvUsleep us => us | _ => 0 end.

(** Total time handed to [usleep] by the calls of a trace. *)
Definition total_slept (t : trace) : Z := fold_right (fun e acc => slept_us e + acc) 0 t.

(** ** Auxiliary definitions of the statements *)

Definition int_range (z : Z) : Prop := - 2 ^ 31 <= z < 2 ^ 31.

(** Running a call [n] times in a row, collecting the traces. *)
Fixpoint repeat_call {St : Type} (n : nat) (f : St -> St * trace) (s : St) : St * trace :=
  match n with
  | O => (s, [])
  | S n =>
    let '(s, t) := f s in
    let '(s, t') := repeat_call n f s in
    (s, t ++ t')
  end.

Definition do_out_standby_call (s : audio_device * stream_out) :=
  do_out_standby (fst s) (snd s).
Definition do_in_standby_call (s : audio_device * stream_in) :=
  do_in_standby (fst s) (snd s).
Definition out_standby_call (s : audio_device * stream_out) :=
  let '(_, a, out, t) := out_standby (fst s) (snd s) in (a, out, t).
Definition in_standby_call (s : audio_device * stream_in) :=
  let '(_, a, inp, t) := in_standby (fst s) (snd s) in (a, inp, t).

Definition out_in_standby : stream_out := SOut.set_standby true SOut.zero.
Definition in_in_standby : stream_in :=
  SIn.mk NullPcm pcm_config_in true 44100 None None 0 0 0 false 0.

(** Frames handed back by the [release_buffer] calls of a sequence. *)
Fixpoint released_frames (cs : list provider_call) : Z :=
  match cs with
  | [] => 0
  | ProvGetNextBuffer _ _ :: cs => released_frames cs
  | ProvReleaseBuffer n :: cs => n + released_frames cs
  end.

(** A caller that never releases more frames than the provider holds. *)
Fixpoint releases_within_carry (cs : list provider_call) (inp : stream_in) : Prop :=
  match cs with
  | [] => True
  | ProvGetNextBuffer request read_ret :: cs =>
    0 <= request /\
    releases_within_carry cs
      (snd (fst (fst (get_next_buffer read_ret inp (mk_resampler_buffer None request)))))
  | ProvReleaseBuffer n :: cs =>
    0 <= n <= SIn.frames_in inp /\
    releases_within_carry cs (release_buffer inp (mk_resampler_buffer None n))
  end.

(** Number of [pcm_read] calls of a trace that returned 0. *)
Fixpoint successful_pcm_reads (t : trace) : Z :=
  match t with
  | [] => 0
  | EvPcmRead _ 0 :: t => 1 + successful_pcm_reads t
  | _ :: t => successful_pcm_reads t
  end.

(** What the provider keeps fixed, and the range of its carry count. *)
Definition provider_ready (period : Z) (inp : stream_in) : Prop :=
  SIn.pcm inp <> NullPcm /\ period_size (SIn.pcm_config inp) = period /\
  0 <= SIn.frames_in inp <= period.


(** An input stream as [start_input_stream] leaves it on the default
    configuration, and the same stream with 724 frames still to consume. *)
Definition in_started : stream_in :=
  SIn.mk ReadyPcm pcm_config_in false 44100 None (Some 4096) 4096 0 0 false 0.
Definition in_partly_consumed : stream_in := SIn.set_frames_in 724 in_started.

(** An output stream as [out_write] leaves it after 10000 frames. *)
Definition out_started : stream_out :=
  SOut.mk ReadyPcm (Some pcm_config_out) false 10000 None None 0 2048 2048
    OUT_BUFFER_TYPE_SHORT false 0.

(** The direction whose resources an external call opens, allocates or
    releases. *)
Definition resource_direction (e : event) : option direction :=
  match e with
  | EvPcmOpen d _ | EvPcmClose d _ | EvCreateResampler d _ _ _ _
  | EvReleaseResampler d | EvMalloc d _ _ | EvFree d => Some d
  | _ => None
  end.

Definition resource_events (d : direction) (t : trace) : trace :=
  List.filter (fun e => bool_decide (resource_direction e = Some d)) t.

(** Hardware that opens every handle and accepts every transfer at once. *)
Definition start_ok : start_hw := mk_start_hw PcmOpenReady true true.
Definition start_not_ready : start_hw := mk_start_hw PcmOpenNotReady true true.

Definition out_write_ok (write_ret : Z) : out_write_hw :=
  mk_out_write_hw start_ok start_ok 4096 (fun _ => None) 0 (0, 0) write_ret.
Definition out_write_not_ready : out_write_hw :=
  mk_out_write_hw start_not_ready start_ok 4096 (fun _ => None) 0 (0, 0) 0.
Definition in_read_ok : in_read_hw := mk_in_read_hw start_ok start_ok [] 0.
Definition in_read_not_ready : in_read_hw :=
  mk_in_read_hw start_ok start_not_ready [] 0.

(** A device with one started output stream, and one with an output stream
    and an input stream that were opened and not started yet. *)
Definition world_playing : world :=
  mk_world (ADev.set_active_out (Some 0%nat) (adev adev_open))
    {[ 0%nat := out_started ]} ∅.
Definition world_opened : world :=
  mk_world (adev adev_open) {[ 0%nat := out_in_standby ]} {[ 0%nat := in_in_standby ]}.

(** The configurations the framework opens the two streams with. *)
Definition config_stereo_44100 : audio_config :=
  mk_audio_config 44100 AUDIO_CHANNEL_OUT_STEREO AUDIO_FORMAT_PCM_16_BIT.
Definition config_mono_44100 : audio_config :=
  mk_audio_config 44100 AUDIO_CHANNEL_IN_MONO AUDIO_FORMAT_PCM_16_BIT.

(** Open both streams, read once, then write once. *)
Definition capture_then_playback : list api_call :=
  [OpenOutputStream 0 true config_stereo_44100;
   OpenInputStream 0 true config_mono_44100 false;
   InRead 0 2048 in_read_ok;
   OutWrite 0 4096 (out_write_ok 0)].

(** The state after a list of calls, when each of them returns. *)
Fixpoint api_runs (cs : list api_call) (w : world) : option world :=
  match cs with
  | [] => Some w
  | c :: cs =>
    match api_run c w with
    | Some (_, w, _) => api_runs cs w
    | None => None
    end
  end.

(** An output stream without resampler and conversion buffer, configured,
    if at all, with [pcm_config_out]. *)
Definition out_plain (so : stream_out) : Prop :=
  SOut.resampler so = None /\ SOut.buffer so = None /\
  (SOut.pcm_config so = None \/ SOut.pcm_config so = Some pcm_config_out).

Definition outputs_plain (m : gmap nat stream_out) : Prop :=
  forall o so, m !! o = Some so -> out_plain so.

(** No call of the trace creates, feeds or releases an output resampler or
    its buffer. *)
Definition no_output_resampling (t : trace) : bool :=
  forallb (fun e => negb (is_output_resampling e)) t.

(** The device after the output stream alone has been opened, and a request
    for another rate. *)
Definition world_output_opened : world :=
  set_outs (<[ 0%nat := out_in_standby ]> ∅) adev_open.
Definition config_stereo_48000 : audio_config :=
  mk_audio_config 48000 AUDIO_CHANNEL_OUT_STEREO AUDIO_FORMAT_PCM_16_BIT.

(** ** Buffer sizes and the mute flag (lines 1062-1077, 1547-1571) *)

Definition in_get_buffer_size (inp : stream_in) : Z :=
  let cfg := SIn.pcm_config inp in
  let size := u32 (period_size cfg * in_get_sample_rate inp) / rate cfg in
  let size := u32 (u32 (size + 15) / 16 * 16) in
  u32 (size * audio_stream_in_frame_size).

(** [channel_count] and [bytes_per_sample] are what
    [audio_channel_count_from_in_mask] and [audio_bytes_per_sample] return
    for the channel mask and the format of [config]. *)
Definition adev_get_input_buffer_size (channel_count bytes_per_sample : Z)
    (config : audio_config) : Z :=
  let size := u32 (period_size pcm_config_in * sample_rate config) / rate pcm_config_in in
  let size := u32 (u32 (size + 15) / 16 * 16) in
  u32 (u32 (size * channel_count) * bytes_per_sample).

(** The status and the value stored through [state]. *)
Definition adev_get_mic_mute (adev : audio_device) : Z * bool :=
  (0, ADev.mic_mute adev).

(** ** Mixer routing (lines 206-278) *)

(** The enumeration strings written to the controls "Playback Path" and
    "Capture MIC Path": "SPK_HP", "SPK", "HP_NO_MIC", "HP", and "Main Mic",
    "Hands Free Mic", "BT Sco Mic", "MIC OFF". *)
Inductive playback_path := SPK_HP | SPK | HP_NO_MIC | HP.
Inductive capture_mic_path := Main_Mic | Hands_Free_Mic | BT_Sco_Mic | MIC_OFF.

Section Routing.

(** The device bits of [system/audio.h]. *)
Variables AUDIO_DEVICE_OUT_SPEAKER AUDIO_DEVICE_OUT_WIRED_HEADSET
          AUDIO_DEVICE_OUT_WIRED_HEADPHONE : Z.
Variables AUDIO_DEVICE_IN_BUILTIN_MIC AUDIO_DEVICE_IN_WIRED_HEADSET
          AUDIO_DEVICE_IN_BLUETOOTH_SCO_HEADSET : Z.

(** The value written to "Playback Path", if one is written, and the value
    written to "Capture MIC Path". *)
Definition select_devices (adev : audio_device)
  : option playback_path * capture_mic_path :=
  let headphone_on :=
    s32 (Z.land (ADev.out_device adev)
           (Z.lor AUDIO_DEVICE_OUT_WIRED_HEADSET AUDIO_DEVICE_OUT_WIRED_HEADPHONE)) in
  let headset_on := s32 (Z.land (ADev.out_device adev) AUDIO_DEVICE_OUT_WIRED_HEADSET) in
  let speaker_on := s32 (Z.land (ADev.out_device adev) AUDIO_DEVICE_OUT_SPEAKER) in
  let main_mic_on := s32 (Z.land (ADev.in_device adev) AUDIO_DEVICE_IN_BUILTIN_MIC) in
  let headset_mic_on := s32 (Z.land (ADev.in_device adev) AUDIO_DEVICE_IN_WIRED_HEADSET) in
  let bt_sco_on :=
    s32 (Z.land (ADev.in_device adev) AUDIO_DEVICE_IN_BLUETOOTH_SCO_HEADSET) in
  let playback :=
    if negb (speaker_on =? 0) && negb (headphone_on =? 0) then Some SPK_HP
    else if negb (speaker_on =? 0) then Some SPK
    else if negb (headset_on =? 0) then Some HP_NO_MIC
    else if negb (headphone_on =? 0) then Some HP
    else None in
  let capture :=
    if negb (main_mic_on =? 0) then Main_Mic
    else if negb (headset_mic_on =? 0) then Hands_Free_Mic
    else if negb (bt_sco_on =? 0) then BT_Sco_Mic
    else MIC_OFF in
  (playback, capture).

End Routing.

(** ** Discarding the right channel (lines 510-516, 877-885, 1300-1307) *)

(** [for (i = ...; i < n; i++) buf[i] = buf[i * 2];] on a buffer of 16-bit
    samples, [k] iterations from index [i] on; the index is an
    [unsigned int].  No result when a read falls outside the buffer. *)
Fixpoint discard_right_channel_loop (k : nat) (i : Z) (buf : list Z) : option (list Z) :=
  match k with
  | O => Some buf
  | S k =>
    match buf !! Z.to_nat (u32 (i * 2)) with
    | Some v => discard_right_channel_loop k (u32 (i + 1)) (<[Z.to_nat i := v]> buf)
    | None => None
    end
  end.

(** The loop as [get_next_buffer] and [out_write] run it, from index 1 up to
    [n] frames. *)
Definition discard_right_channel (n : Z) (buf : list Z) : option (list Z) :=
  discard_right_channel_loop (Z.to_nat (n - 1)) 1 buf.

(** ** Vocabulary of the further properties *)

(** Handles, resamplers and buffers of direction [d] acquired by the calls
    of a trace and not given back by them. *)
Definition handle_delta (d : direction) (e : event) : Z :=
  match e with
  | EvPcmOpen d' r =>
    if bool_decide (d' = d) && negb (bool_decide (r = PcmOpenNull)) then 1 else 0
  | EvPcmClose d' p =>
    if bool_decide (d' = d) && negb (bool_decide (p = NullPcm)) then - 1 else 0
  | _ => 0
  end.

Definition resampler_delta (d : direction) (e : event) : Z :=
  match e with
  | EvCreateResampler d' _ _ _ ok => if bool_decide (d' = d) && ok then 1 else 0
  | EvReleaseResampler d' => if bool_decide (d' = d) then - 1 else 0
  | _ => 0
  end.

Definition buffer_delta (d : direction) (e : event) : Z :=
  match e with
  | EvMalloc d' _ ok => if bool_decide (d' = d) && ok then 1 else 0
  | EvFree d' => if bool_decide (d' = d) then - 1 else 0
  | _ => 0
  end.

Definition held (delta : event -> Z) (t : trace) : Z :=
  fold_right (fun e acc => delta e + acc) 0 t.

(** A stream that holds no handle, resampler or buffer. *)
Definition in_idle (inp : stream_in) : Prop :=
  (SIn.pcm inp = NullPcm \/ SIn.pcm inp = ClosedPcm) /\
  SIn.resampler inp = None /\ SIn.buffer inp = None.

(** What holds of every output stream of a state the framework can reach:
    in standby it has no open handle; out of standby it has its
    configuration; the threshold is the one of the regime in use. *)
Definition out_ok (so : stream_out) : Prop :=
  (SOut.standby so = true -> SOut.pcm so = NullPcm \/ SOut.pcm so = ClosedPcm) /\
  (SOut.standby so = false -> SOut.pcm_config so = Some pcm_config_out) /\
  (SOut.buffer_type so = OUT_BUFFER_TYPE_SHORT ->
   SOut.write_threshold so = OUT_PERIOD_SIZE * OUT_SHORT_PERIOD_COUNT) /\
  (SOut.buffer_type so = OUT_BUFFER_TYPE_LONG ->
   SOut.write_threshold so = OUT_PERIOD_SIZE * OUT_LONG_PERIOD_COUNT).

(** And of every input stream: in standby it holds nothing; out of standby
    its handle is the one [pcm_open] returned; it has one of the two capture
    configurations, the low-latency one only at the hardware rate; a
    resampler is there only for another rate, from the hardware rate to the
    requested one. *)
Definition in_ok (si : stream_in) : Prop :=
  (SIn.standby si = true -> in_idle si) /\
  (SIn.standby si = false -> SIn.pcm si = ReadyPcm \/ SIn.pcm si = NullPcm) /\
  (SIn.pcm_config si = pcm_config_in \/
   (SIn.pcm_config si = pcm_config_in_low_latency /\
    SIn.requested_rate si = IN_SAMPLING_RATE)) /\
  (forall rs, SIn.resampler si = Some rs ->
     SIn.requested_rate si <> IN_SAMPLING_RATE /\
     rs = mk_resampler IN_SAMPLING_RATE (SIn.requested_rate si) 1 true).

(** A registered stream exists and is out of standby. *)
Definition active_out_valid (a : audio_device) (m : gmap nat stream_out) : Prop :=
  forall o, ADev.active_out a = Some o ->
    exists so, m !! o = Some so /\ SOut.standby so = false.

Definition active_in_valid (a : audio_device) (m : gmap nat stream_in) : Prop :=
  forall i, ADev.active_in a = Some i ->
    exists si, m !! i = Some si /\ SIn.standby si = false.

Definition outs_ok (m : gmap nat stream_out) : Prop :=
  forall o so, m !! o = Some so -> out_ok so.

Definition ins_ok (m : gmap nat stream_in) : Prop :=
  forall i si, m !! i = Some si -> in_ok si.

Definition world_ok (w : world) : Prop :=
  active_out_valid (adev w) (outs w) /\ active_in_valid (adev w) (ins w) /\
  outs_ok (outs w) /\ ins_ok (ins w) /\
  0 <= ADev.in_device (adev w) < 2 ^ 31.

(** No call of the trace hands [pcm_close] a capture handle that was closed
    before. *)
Definition is_stale_capture_close (e : event) : bool :=
  match e with
  | EvPcmClose Capture ClosedPcm => true
  | _ => false
  end.

Definition closes_live_capture (t : trace) : bool :=
  forallb (fun e => negb (is_stale_capture_close e)) t.

(** What [adev_open_input_stream] fixes for the life of an input stream. *)
Definition in_static (si : stream_in) : pcm_config * Z :=
  (SIn.pcm_config si, SIn.requested_rate si).

(** Streams used by the examples: a capture stream at 8000 Hz in standby,
    and the same stream started. *)
Definition in_8000_standby : stream_in :=
  SIn.mk NullPcm pcm_config_in true 8000 None None 0 0 0 false 0.
Definition in_8000_started : stream_in :=
  SIn.mk ReadyPcm pcm_config_in false 8000
    (Some (mk_resampler 44100 8000 1 true)) (Some 4096) 4096 0 0 false 0.
Definition config_mono_8000 : audio_config :=
  mk_audio_config 8000 AUDIO_CHANNEL_IN_MONO AUDIO_FORMAT_PCM_16_BIT.

(** A device with one started input stream on the default configuration. *)
Definition world_recording : world :=
  mk_world (ADev.set_active_in (Some 0%nat) (adev adev_open))
    ∅ {[ 0%nat := in_started ]}.

(** * Properties *)

(** ** Machine-integer facts *)

Lemma u32_id z : 0 <= z < 2 ^ 32 -> u32 z = z.
Proof. intros H. unfold u32. apply Z.mod_small. exact H. Qed.

Lemma s32_id z : int_range z -> s32 z = z.
Proof.
  unfold int_range, s32. intros H.
  rewrite Z.mod_small by lia. lia.
Qed.

Lemma u64_id z : 0 <= z < 2 ^ 64 -> u64 z = z.
Proof. intros H. unfold u64. apply Z.mod_small. exact H. Qed.

Lemma s64_id z : - 2 ^ 63 <= z < 2 ^ 63 -> s64 z = z.
Proof.
  unfold s64. intros H.
  rewrite Z.mod_small by lia. lia.
Qed.

Lemma s32_u32 z : s32 (u32 z) = s32 z.
Proof.
  unfold s32, u32.
  rewrite Zplus_mod_idemp_l. reflexivity.
Qed.

Lemma s64_u64 z : s64 (u64 z) = s64 z.
Proof.
  unfold s64, u64.
  rewrite Zplus_mod_idemp_l. reflexivity.
Qed.

Lemma u32_add_l a b : u32 (u32 a + b) = u32 (a + b).
Proof. unfold u32. apply Zplus_mod_idemp_l. Qed.

Lemma u32_sub_l a b : u32 (u32 a - b) = u32 (a - b).
Proof. unfold u32. apply Zminus_mod_idemp_l. Qed.

Lemma u32_sub_r a b : u32 (a - u32 b) = u32 (a - b).
Proof. unfold u32. apply Zminus_mod_idemp_r. Qed.

Lemma u64_add_l a b : u64 (u64 a + b) = u64 (a + b).
Proof. unfold u64. apply Zplus_mod_idemp_l. Qed.

Lemma s32_lock_unlock c : int_range c -> s32 (s32 (c + 1) - 1) = c.
Proof.
  intros H. unfold s32 at 2.
  replace ((c + 1 + 2 ^ 31) mod 2 ^ 32 - 2 ^ 31 - 1)
    with ((c + 1 + 2 ^ 31) mod 2 ^ 32 - (2 ^ 31 + 1)) by lia.
  unfold s32.
  replace ((c + 1 + 2 ^ 31) mod 2 ^ 32 - (2 ^ 31 + 1) + 2 ^ 31)
    with ((c + 1 + 2 ^ 31) mod 2 ^ 32 - 1) by lia.
  rewrite Zminus_mod_idemp_l.
  replace (c + 1 + 2 ^ 31 - 1) with (c + 2 ^ 31) by lia.
  unfold int_range in H. rewrite Z.mod_small by lia. lia.
Qed.

Lemma MAX_WRITE_SLEEP_US_value : MAX_WRITE_SLEEP_US = 46439.
Proof. reflexivity. Qed.

(** ** Standby on a stream already in standby *)

Lemma do_out_standby_noop adev out :
  SOut.standby out = true -> do_out_standby adev out = (adev, out, []).
Proof. intros H. unfold do_out_standby. rewrite H. reflexivity. Qed.

Lemma do_in_standby_noop adev inp :
  SIn.standby inp = true -> do_in_standby adev inp = (adev, inp, []).
Proof. intros H. unfold do_in_standby. rewrite H. reflexivity. Qed.

Lemma out_standby_noop adev out :
  int_range (ADev.lock_cnt adev) -> int_range (SOut.lock_cnt out) ->
  SOut.standby out = true ->
  out_standby adev out = (0, adev, SOut.set_sleep_req false out, []).
Proof.
  intros Ha Ho Hs. unfold out_standby.
  rewrite do_out_standby_noop by (destruct out; exact Hs).
  destruct adev, out; cbn in *.
  unfold adev_unlock, adev_lock, out_unlock, out_lock,
    SOut.set_sleep_req, SOut.set_lock_cnt, ADev.set_lock_cnt; cbn.
  rewrite !s32_lock_unlock by assumption. reflexivity.
Qed.

Lemma in_standby_noop adev inp :
  int_range (ADev.lock_cnt adev) -> int_range (SIn.lock_cnt inp) ->
  SIn.standby inp = true ->
  in_standby adev inp = (0, adev, SIn.set_sleep_req false inp, []).
Proof.
  intros Ha Hi Hs. unfold in_standby.
  rewrite do_in_standby_noop by (destruct inp; exact Hs).
  destruct adev, inp; cbn in *.
  unfold adev_unlock, adev_lock, in_unlock, in_lock,
    SIn.set_sleep_req, SIn.set_lock_cnt, ADev.set_lock_cnt; cbn.
  rewrite !s32_lock_unlock by assumption. reflexivity.
Qed.

(** C9.  On a stream that is already in standby, [do_out_standby] and
    [do_in_standby] make no external call and return the device and the
    stream as they were, however often they are repeated; the API entry
    points [out_standby] and [in_standby] likewise release nothing and leave
    device and stream as they were (their advisory [sleep_req] flag, which
    they clear on every call, being clear already). *)
Theorem standby_on_standby_stream_is_noop :
  forall (adev : audio_device) (out : stream_out) (inp : stream_in) (n : nat),
    int_range (ADev.lock_cnt adev) ->
    int_range (SOut.lock_cnt out) ->
    int_range (SIn.lock_cnt inp) ->
    (SOut.standby out = true ->
       repeat_call n do_out_standby_call (adev, out) = ((adev, out), []) /\
       (SOut.sleep_req out = false ->
          repeat_call n out_standby_call (adev, out) = ((adev, out), [])) /\
       List.filter is_release (snd (repeat_call n out_standby_call (adev, out)))
         = []) /\
    (SIn.standby inp = true ->
       repeat_call n do_in_standby_call (adev, inp) = ((adev, inp), []) /\
       (SIn.sleep_req inp = false ->
          repeat_call n in_standby_call (adev, inp) = ((adev, inp), [])) /\
       List.filter is_release (snd (repeat_call n in_standby_call (adev, inp)))
         = []).
Proof.
  intros adev out inp n Ha Ho Hi. split.
  - intros Hs. split; [|split].
    + induction n as [|n IH]; [reflexivity|].
      cbn [repeat_call]. unfold do_out_standby_call at 1. cbn [fst snd].
      rewrite do_out_standby_noop by exact Hs. rewrite IH. reflexivity.
    + intros Hr. induction n as [|n IH]; [reflexivity|].
      cbn [repeat_call]. unfold out_standby_call at 1. cbn [fst snd].
      rewrite out_standby_noop by assumption.
      replace (SOut.set_sleep_req false out) with out
        by (destruct out; cbn in *; subst; reflexivity).
      rewrite IH. reflexivity.
    + clear Hi. revert out Ho Hs. induction n as [|n IH]; intros out Ho Hs; [reflexivity|].
      cbn [repeat_call]. unfold out_standby_call at 1. cbn [fst snd].
      rewrite out_standby_noop by assumption.
      specialize (IH (SOut.set_sleep_req false out)).
      destruct (repeat_call n out_standby_call (adev, SOut.set_sleep_req false out))
        as [s t] eqn:E.
      cbn [snd app] in *. apply IH; destruct out; assumption.
  - intros Hs. split; [|split].
    + induction n as [|n IH]; [reflexivity|].
      cbn [repeat_call]. unfold do_in_standby_call at 1. cbn [fst snd].
      rewrite do_in_standby_noop by exact Hs. rewrite IH. reflexivity.
    + intros Hr. induction n as [|n IH]; [reflexivity|].
      cbn [repeat_call]. unfold in_standby_call at 1. cbn [fst snd].
      rewrite in_standby_noop by assumption.
      replace (SIn.set_sleep_req false inp) with inp
        by (destruct inp; cbn in *; subst; reflexivity).
      rewrite IH. reflexivity.
    + clear Ho. revert inp Hi Hs. induction n as [|n IH]; intros inp Hi Hs; [reflexivity|].
      cbn [repeat_call]. unfold in_standby_call at 1. cbn [fst snd].
      rewrite in_standby_noop by assumption.
      specialize (IH (SIn.set_sleep_req false inp)).
      destruct (repeat_call n in_standby_call (adev, SIn.set_sleep_req false inp))
        as [s t] eqn:E.
      cbn [snd app] in *. apply IH; destruct inp; assumption.
Qed.

Lemma standby_on_standby_stream_is_noop_witness :
  (repeat_call 3 do_out_standby_call (adev adev_open, out_in_standby)
     = ((adev adev_open, out_in_standby), []) /\
   repeat_call 3 out_standby_call (adev adev_open, out_in_standby)
     = ((adev adev_open, out_in_standby), []) /\
   List.filter is_release
     (snd (repeat_call 3 out_standby_call (adev adev_open, out_in_standby))) = []) /\
  (repeat_call 3 do_in_standby_call (adev adev_open, in_in_standby)
     = ((adev adev_open, in_in_standby), []) /\
   repeat_call 3 in_standby_call (adev adev_open, in_in_standby)
     = ((adev adev_open, in_in_standby), []) /\
   List.filter is_release
     (snd (repeat_call 3 in_standby_call (adev adev_open, in_in_standby))) = []).
Proof.
  assert (R0 : int_range 0) by (unfold int_range; lia).
  destruct (standby_on_standby_stream_is_noop
              (adev adev_open) out_in_standby in_in_standby 3 R0 R0 R0) as [Ho Hi].
  destruct (Ho eq_refl) as (H1 & H2 & H3).
  destruct (Hi eq_refl) as (H4 & H5 & H6).
  split.
  - split; [exact H1 | split; [exact (H2 eq_refl) | exact H3]].
  - split; [exact H4 | split; [exact (H5 eq_refl) | exact H6]].
Defined.

(** ** Smoothing of the write threshold *)

Lemma smooth_above ps wt kf cur :
  4 <= ps <= 2 ^ 20 -> 0 <= wt <= 2 ^ 30 -> 0 <= cur <= 2 ^ 30 ->
  wt < cur -> smooth_write_threshold ps wt kf cur = Z.max wt (cur - ps / 4).
Proof.
  intros Hps Hwt Hcur Hlt. unfold smooth_write_threshold.
  assert (Hq : 1 <= ps / 4 <= 2 ^ 18).
  { split; [apply Z.div_le_lower_bound; lia | apply Z.div_le_upper_bound; lia]. }
  destruct (Z.gtb_spec cur wt) as [_|]; [|lia].
  rewrite s32_u32, (u32_id cur) by lia.
  rewrite s32_id by (unfold int_range; lia).
  destruct (Z.ltb_spec (cur - ps / 4) wt); lia.
Qed.

Lemma smooth_below ps wt kf cur :
  4 <= ps <= 2 ^ 20 -> 0 <= wt <= 2 ^ 30 -> 0 <= cur <= 2 ^ 30 ->
  cur < wt -> smooth_write_threshold ps wt kf cur = Z.min wt (cur + ps / 4).
Proof.
  intros Hps Hwt Hcur Hlt. unfold smooth_write_threshold.
  assert (Hq : 1 <= ps / 4 <= 2 ^ 18).
  { split; [apply Z.div_le_lower_bound; lia | apply Z.div_le_upper_bound; lia]. }
  destruct (Z.gtb_spec cur wt) as [|_]; [lia|].
  destruct (Z.ltb_spec cur wt) as [_|]; [|lia].
  rewrite s32_u32, (u32_id cur) by lia.
  rewrite s32_id by (unfold int_range; lia).
  destruct (Z.gtb_spec (cur + ps / 4) wt); lia.
Qed.

Lemma smooth_distance ps wt kf cur :
  4 <= ps <= 2 ^ 20 -> 0 <= wt <= 2 ^ 30 -> 0 <= cur <= 2 ^ 30 ->
  cur <> wt ->
  let cur' := smooth_write_threshold ps wt kf cur in
  0 <= cur' <= 2 ^ 30 /\
  Z.abs (wt - cur') = Z.max 0 (Z.abs (wt - cur) - ps / 4).
Proof.
  intros Hps Hwt Hcur Hne cur'. subst cur'.
  assert (Hq : 1 <= ps / 4 <= 2 ^ 18).
  { split; [apply Z.div_le_lower_bound; lia | apply Z.div_le_upper_bound; lia]. }
  destruct (Z.lt_ge_cases cur wt).
  - rewrite smooth_below by assumption. lia.
  - rewrite smooth_above by (try assumption; lia). lia.
Qed.

Lemma ceil_div_step d q :
  1 <= d -> 1 <= q ->
  ceil_div d q = 1 + ceil_div (Z.max 0 (d - q)) q.
Proof.
  intros Hd Hq. unfold ceil_div.
  destruct (Z.le_gt_cases d q).
  - rewrite Z.max_l by lia.
    rewrite (Z.div_small (0 + q - 1)) by lia.
    symmetry. apply Z.div_unique with (r := d - 1); lia.
  - rewrite Z.max_r by lia.
    replace (d + q - 1) with (1 * q + (d - q + q - 1)) by lia.
    rewrite Z.div_add_l by lia. reflexivity.
Qed.

Lemma smooth_writes_reaches ps wt fills :
  4 <= ps <= 2 ^ 20 -> 0 <= wt <= 2 ^ 30 ->
  forall cur,
    0 <= cur <= 2 ^ 30 ->
    Z.of_nat (length fills) = ceil_div (Z.abs (wt - cur)) (ps / 4) ->
    smooth_writes ps wt fills cur = wt.
Proof.
  intros Hps Hwt.
  assert (Hq : 1 <= ps / 4 <= 2 ^ 18).
  { split; [apply Z.div_le_lower_bound; lia | apply Z.div_le_upper_bound; lia]. }
  induction fills as [|kf fills IH]; intros cur Hcur Hlen.
  - cbn [length smooth_writes] in *.
    destruct (Z.eq_dec cur wt) as [->|Hne]; [reflexivity|].
    rewrite (ceil_div_step (Z.abs (wt - cur)) (ps / 4)) in Hlen by lia.
    assert (0 <= ceil_div (Z.max 0 (Z.abs (wt - cur) - ps / 4)) (ps / 4)).
    { unfold ceil_div. apply Z.div_pos; lia. }
    lia.
  - cbn [smooth_writes].
    destruct (Z.eq_dec cur wt) as [->|Hne].
    + exfalso. replace (wt - wt) with 0 in Hlen by lia. cbn [Z.abs] in Hlen.
      unfold ceil_div in Hlen. rewrite Z.div_small in Hlen by lia.
      cbn [length] in Hlen. lia.
    + destruct (smooth_distance ps wt kf cur Hps Hwt Hcur Hne) as [Hr Hd].
      apply IH; [exact Hr|].
      rewrite Hd.
      rewrite (ceil_div_step (Z.abs (wt - cur)) (ps / 4)) in Hlen by lia.
      cbn [length] in Hlen. lia.
Qed.

(** C4, as the code has it.  With [period_size] between 4 and 2^20 and
    thresholds between 0 and 2^30: while [cur_write_threshold] differs from
    [write_threshold], every write moves it towards the target by
    [period_size/4], or onto the target when that is nearer, whatever the
    fill level of the kernel buffer; after
    [ceil (|T1 - T0| / (period_size/4))] writes it equals the target.  The
    reset to [(kernel_frames / period_size + 1) * period_size + period_size/4]
    is made only by a write that finds [cur_write_threshold] equal to
    [write_threshold] and the kernel buffer more than
    [period_size * OUT_SHORT_PERIOD_COUNT] frames below it. *)
Theorem write_threshold_converges :
  forall (ps T0 T1 : Z) (fills : list Z),
    4 <= ps <= 2 ^ 20 ->
    0 <= T0 <= 2 ^ 30 ->
    0 <= T1 <= 2 ^ 30 ->
    (forall kf, T0 < T1 ->
       smooth_write_threshold ps T1 kf T0 = Z.min T1 (T0 + ps / 4)) /\
    (forall kf, T1 < T0 ->
       smooth_write_threshold ps T1 kf T0 = Z.max T1 (T0 - ps / 4)) /\
    (Z.of_nat (length fills) = ceil_div (Z.abs (T1 - T0)) (ps / 4) ->
       smooth_writes ps T1 fills T0 = T1) /\
    (forall kf,
       0 <= kf < T1 -> T1 - kf > ps * OUT_SHORT_PERIOD_COUNT ->
       smooth_write_threshold ps T1 kf T1 = (kf / ps + 1) * ps + ps / 4) /\
    (forall kf,
       int_range kf ->
       ~ (kf < T1 /\ T1 - kf > ps * OUT_SHORT_PERIOD_COUNT) ->
       smooth_write_threshold ps T1 kf T1 = T1).
Proof.
  intros ps T0 T1 fills Hps HT0 HT1.
  assert (Hq : 1 <= ps / 4 <= 2 ^ 18).
  { split; [apply Z.div_le_lower_bound; lia | apply Z.div_le_upper_bound; lia]. }
  split; [|split; [|split; [|split]]].
  - intros kf Hlt. apply smooth_below; assumption.
  - intros kf Hlt. apply smooth_above; assumption.
  - apply smooth_writes_reaches; assumption.
  - intros kf Hkf Hdrained. unfold smooth_write_threshold, OUT_SHORT_PERIOD_COUNT in *.
    destruct (Z.gtb_spec T1 T1) as [|_]; [lia|].
    destruct (Z.ltb_spec T1 T1) as [|_]; [lia|].
    destruct (Z.ltb_spec kf T1) as [_|]; [|lia].
    rewrite (s32_u32 (ps * 2)), (s32_id (ps * 2)) by (unfold int_range; lia).
    rewrite (s32_id (T1 - kf)) by (unfold int_range; lia).
    destruct (Z.gtb_spec (T1 - kf) (ps * 2)) as [_|]; [|lia].
    cbn [andb].
    assert (Hd : 0 <= kf / ps /\ kf / ps * ps <= kf).
    { split; [apply Z.div_pos; lia|].
      pose proof (Z.mul_div_le kf ps ltac:(lia)). lia. }
    rewrite (u32_id kf) by lia.
    rewrite (s32_u32 ((kf / ps + 1) * ps)).
    rewrite (s32_id ((kf / ps + 1) * ps)) by (unfold int_range; nia).
    rewrite s32_u32.
    rewrite (u32_id ((kf / ps + 1) * ps)) by nia.
    apply s32_id. unfold int_range. nia.
  - intros kf Hkf Hnot. unfold smooth_write_threshold, OUT_SHORT_PERIOD_COUNT in *.
    destruct (Z.gtb_spec T1 T1) as [|_]; [lia|].
    destruct (Z.ltb_spec T1 T1) as [|_]; [lia|].
    rewrite (s32_u32 (ps * 2)), (s32_id (ps * 2)) by (unfold int_range; lia).
    unfold int_range in Hkf.
    rewrite (s32_id (T1 - kf)) by (unfold int_range; lia).
    destruct (Z.ltb_spec kf T1); [|reflexivity].
    destruct (Z.gtb_spec (T1 - kf) (ps * 2)); [lia|reflexivity].
Qed.

Lemma write_threshold_converges_witness :
  smooth_writes 1024 4096 [0; 0; 0; 0; 0; 0; 0; 0] 2048 = 4096 /\
  smooth_write_threshold 1024 4096 100 4096 = 1280.
Proof.
  pose proof (write_threshold_converges 1024 2048 4096 [0; 0; 0; 0; 0; 0; 0; 0]
                ltac:(lia) ltac:(lia) ltac:(lia)) as (_ & _ & Hconv & _).
  pose proof (write_threshold_converges 1024 4096 4096 []
                ltac:(lia) ltac:(lia) ltac:(lia)) as (_ & _ & _ & Hreset & _).
  split.
  - apply Hconv. reflexivity.
  - apply (Hreset 100); unfold OUT_SHORT_PERIOD_COUNT; lia.
Defined.

(** C4 as stated fails: with [cur_write_threshold = 2048] on its way to
    [write_threshold = 4096] and an empty kernel buffer, which is more than
    [period_size * OUT_SHORT_PERIOD_COUNT = 2048] frames below the target, the
    write steps to 2304 and does not reset to
    [(0 / 1024 + 1) * 1024 + 1024 / 4 = 1280]. *)
Lemma write_threshold_not_reset_while_converging :
  0 < 4096 /\ 4096 - 0 > 1024 * OUT_SHORT_PERIOD_COUNT /\
  smooth_write_threshold 1024 4096 0 2048 = 2304 /\
  (0 / 1024 + 1) * 1024 + 1024 / 4 = 1280 /\
  ~ (forall ps wt kf cur,
       kf < wt -> wt - kf > ps * OUT_SHORT_PERIOD_COUNT ->
       smooth_write_threshold ps wt kf cur = (kf / ps + 1) * ps + ps / 4).
Proof.
  split; [lia|]. split; [reflexivity|]. split; [reflexivity|]. split; [reflexivity|].
  intros H. specialize (H 1024 4096 0 2048 ltac:(lia) ltac:(reflexivity)).
  vm_compute in H. discriminate.
Qed.

(** ** The pacing loop of out_write *)

Section Pacing.

Variables (hts : nat -> option Z) (bufsz cur : Z).
Hypothesis bufsz_range : 0 <= bufsz <= 2 ^ 25.
Hypothesis cur_range : 0 <= cur < 2 ^ 31.
Hypothesis hts_range : forall k avail, hts k = Some avail -> 0 <= avail <= bufsz.

Lemma requested_sleep_range d :
  0 < d <= 2 ^ 25 -> 0 <= d * 1000000 / 44100 <= 760871474.
Proof.
  intros Hd. split.
  - apply Z.div_pos; lia.
  - apply Z.div_le_upper_bound; lia.
Qed.

(** One iteration of the loop, with the conversions resolved. *)
Lemma pacing_loop_iteration fuel k kf total avail :
  hts k = Some avail ->
  0 <= total <= MAX_WRITE_SLEEP_US ->
  pacing_loop (S fuel) hts k bufsz (rate pcm_config_out) cur kf total =
    let ev := EvGetHtimestamp (Some avail) in
    let kf' := bufsz - avail in
    if kf' >? cur then
      let sleep := (kf' - cur) * 1000000 / 44100 in
      if sleep <? MIN_WRITE_SLEEP_US then Some (kf', total, [ev])
      else if total + sleep >? MAX_WRITE_SLEEP_US
      then Some (kf', total + sleep, [ev; EvUsleep (MAX_WRITE_SLEEP_US - total)])
      else
        match pacing_loop fuel hts (S k) bufsz (rate pcm_config_out) cur kf' (total + sleep) with
        | Some (kf'', total', t') => Some (kf'', total', [ev; EvUsleep sleep] ++ t')
        | None => None
        end
    else Some (kf', total, [ev]).
Proof.
  intros Hk Htotal. rewrite MAX_WRITE_SLEEP_US_value in *.
  pose proof (hts_range k avail Hk) as Hav.
  cbn [pacing_loop]. rewrite Hk. cbv zeta.
  rewrite (u32_id bufsz), (u32_id avail), (u32_id (bufsz - avail)) by lia.
  rewrite (s32_id (bufsz - avail)) by (unfold int_range; lia).
  destruct (Z.gtb_spec (bufsz - avail) cur) as [Hgt|Hle]; [|reflexivity].
  pose proof (requested_sleep_range (bufsz - avail - cur) ltac:(lia)) as Hs.
  rewrite (s32_id (bufsz - avail - cur)) by (unfold int_range; lia).
  rewrite (s64_id ((bufsz - avail - cur) * 1000000)) by lia.
  change (rate pcm_config_out) with 44100.
  rewrite Z.quot_div_nonneg by lia.
  set (sleep := (bufsz - avail - cur) * 1000000 / 44100) in *.
  rewrite (s32_id sleep) by (unfold int_range; lia).
  unfold MIN_WRITE_SLEEP_US.
  destruct (Z.ltb_spec sleep 2000) as [|Hmin]; [reflexivity|].
  rewrite (s32_id (total + sleep)) by (unfold int_range; lia).
  rewrite MAX_WRITE_SLEEP_US_value.
  cbn [andb].
  destruct (Z.gtb_spec (total + sleep) 46439) as [Hex|Hin].
  - destruct (Z.leb_spec (total + sleep) 46439); [lia|].
    replace (total + sleep - sleep) with total by lia.
    rewrite (s32_id total) by (unfold int_range; lia).
    rewrite (s32_id (46439 - total)) by (unfold int_range; lia).
    rewrite (u32_id (46439 - total)) by lia.
    reflexivity.
  - destruct (Z.leb_spec (total + sleep) 46439); [|lia].
    rewrite (u32_id sleep) by lia.
    reflexivity.
Qed.

Lemma pacing_loop_total fuel :
  forall k kf total,
    0 <= total <= MAX_WRITE_SLEEP_US ->
    (MAX_WRITE_SLEEP_US - total) / MIN_WRITE_SLEEP_US + 1 <= Z.of_nat fuel ->
    exists kf' total' t,
      pacing_loop fuel hts k bufsz (rate pcm_config_out) cur kf total = Some (kf', total', t) /\
      0 <= total_slept t <= MAX_WRITE_SLEEP_US - total.
Proof.
  induction fuel as [|fuel IH]; intros k kf total Htotal Hfuel.
  - exfalso.
    assert (0 <= (MAX_WRITE_SLEEP_US - total) / MIN_WRITE_SLEEP_US)
      by (apply Z.div_pos; [lia | reflexivity]).
    cbn in Hfuel. lia.
  - destruct (hts k) as [avail|] eqn:Hk.
    + rewrite (pacing_loop_iteration fuel k kf total avail Hk Htotal). cbv zeta.
      destruct (bufsz - avail >? cur); [|eexists _, _, _; split; [reflexivity|cbn; lia]].
      set (sleep := (bufsz - avail - cur) * 1000000 / 44100).
      destruct (Z.ltb_spec sleep MIN_WRITE_SLEEP_US) as [|Hmin];
        [eexists _, _, _; split; [reflexivity|cbn; lia]|].
      destruct (Z.gtb_spec (total + sleep) MAX_WRITE_SLEEP_US) as [Hex|Hin];
        [eexists _, _, _; split; [reflexivity|cbn; lia]|].
      unfold MIN_WRITE_SLEEP_US in *.
      destruct (IH (S k) (bufsz - avail) (total + sleep)) as (kf' & total' & t & E & Hsl).
      * lia.
      * assert ((MAX_WRITE_SLEEP_US - (total + sleep)) / 2000
                <= (MAX_WRITE_SLEEP_US - total) / 2000 - 1).
        { replace ((MAX_WRITE_SLEEP_US - total) / 2000 - 1)
            with ((MAX_WRITE_SLEEP_US - total - 1 * 2000) / 2000).
          - apply Z.div_le_mono; lia.
          - replace (MAX_WRITE_SLEEP_US - total - 1 * 2000)
              with (MAX_WRITE_SLEEP_US - total + (- 1) * 2000) by lia.
            rewrite Z.div_add by lia. lia. }
        lia.
      * rewrite E. eexists _, _, _. split; [reflexivity|].
        unfold total_slept in *. cbn [app fold_right slept_us] in *. lia.
    + cbn [pacing_loop]. rewrite Hk.
      eexists _, _, _. split; [reflexivity|]. cbn. lia.
Qed.

End Pacing.

Lemma pacing_loop_more_fuel hts bufsz hw_rate cur fuel :
  forall k kf total r,
    pacing_loop fuel hts k bufsz hw_rate cur kf total = Some r ->
    forall fuel', (fuel <= fuel')%nat ->
      pacing_loop fuel' hts k bufsz hw_rate cur kf total = Some r.
Proof.
  induction fuel as [|fuel IH]; intros k kf total r E fuel' Hle; [discriminate|].
  destruct fuel' as [|fuel']; [lia|].
  cbn [pacing_loop] in *.
  destruct (hts k) as [avail|]; [|exact E].
  cbv zeta in *.
  destruct (_ >? cur); [|exact E].
  destruct (_ <? MIN_WRITE_SLEEP_US); [exact E|].
  destruct (_ && _); [|exact E].
  destruct (pacing_loop fuel _ _ _ _ _ _ _) as [r'|] eqn:E'; [|discriminate].
  rewrite (IH _ _ _ _ E' fuel') by lia. exact E.
Qed.

(** C8.  Whenever the hardware reports no more available frames than its
    buffer holds (of at most 2^25 frames) and the threshold is a non-negative
    [int], the pacing loop of [out_write] ends within 24 iterations, with the
    same result for any larger bound; the time handed to [usleep] never
    exceeds [MAX_WRITE_SLEEP_US] in total; an iteration whose requested sleep
    is below [MIN_WRITE_SLEEP_US] leaves the loop without sleeping, and one
    that takes the accumulated time over [MAX_WRITE_SLEEP_US] sleeps for the
    remainder up to that bound and leaves the loop. *)
Theorem pacing_loop_terminates :
  forall (hts : nat -> option Z) (bufsz cur kf0 : Z) (fuel : nat),
    0 <= bufsz <= 2 ^ 25 ->
    0 <= cur < 2 ^ 31 ->
    (forall k avail, hts k = Some avail -> 0 <= avail <= bufsz) ->
    (24 <= fuel)%nat ->
    (exists kf total t,
       pacing_loop fuel hts 0 bufsz (rate pcm_config_out) cur kf0 0
         = Some (kf, total, t) /\
       pacing_loop PACING_FUEL hts 0 bufsz (rate pcm_config_out) cur kf0 0
         = Some (kf, total, t) /\
       0 <= total_slept t <= MAX_WRITE_SLEEP_US) /\
    (forall k kf total avail n,
       hts k = Some avail -> 0 <= total <= MAX_WRITE_SLEEP_US ->
       cur < bufsz - avail ->
       (bufsz - avail - cur) * 1000000 / 44100 < MIN_WRITE_SLEEP_US ->
       pacing_loop (S n) hts k bufsz (rate pcm_config_out) cur kf total
         = Some (bufsz - avail, total, [EvGetHtimestamp (Some avail)])) /\
    (forall k kf total avail n,
       hts k = Some avail -> 0 <= total <= MAX_WRITE_SLEEP_US ->
       cur < bufsz - avail ->
       MIN_WRITE_SLEEP_US <= (bufsz - avail - cur) * 1000000 / 44100 ->
       MAX_WRITE_SLEEP_US < total + (bufsz - avail - cur) * 1000000 / 44100 ->
       pacing_loop (S n) hts k bufsz (rate pcm_config_out) cur kf total
         = Some (bufsz - avail, total + (bufsz - avail - cur) * 1000000 / 44100,
                 [EvGetHtimestamp (Some avail);
                  EvUsleep (MAX_WRITE_SLEEP_US - total)])).
Proof.
  intros hts bufsz cur kf0 fuel Hb Hc Hh Hfuel.
  split; [|split].
  - destruct (pacing_loop_total hts bufsz cur Hb Hc Hh PACING_FUEL 0 kf0 0)
      as (kf & total & t & E & Hsl).
    + rewrite MAX_WRITE_SLEEP_US_value. lia.
    + vm_compute. discriminate.
    + exists kf, total, t. split; [|split; [exact E|lia]].
      apply (pacing_loop_more_fuel _ _ _ _ _ _ _ _ _ E). exact Hfuel.
  - intros k kf total avail n Hk Ht Hgt Hmin.
    rewrite (pacing_loop_iteration hts bufsz cur Hb Hc Hh n k kf total avail Hk Ht).
    cbv zeta.
    destruct (Z.gtb_spec (bufsz - avail) cur); [|lia].
    destruct (Z.ltb_spec ((bufsz - avail - cur) * 1000000 / 44100) MIN_WRITE_SLEEP_US);
      [reflexivity|lia].
  - intros k kf total avail n Hk Ht Hgt Hmin Hmax.
    rewrite (pacing_loop_iteration hts bufsz cur Hb Hc Hh n k kf total avail Hk Ht).
    cbv zeta.
    destruct (Z.gtb_spec (bufsz - avail) cur); [|lia].
    destruct (Z.ltb_spec ((bufsz - avail - cur) * 1000000 / 44100) MIN_WRITE_SLEEP_US);
      [lia|].
    destruct (Z.gtb_spec (total + (bufsz - avail - cur) * 1000000 / 44100)
                MAX_WRITE_SLEEP_US); [reflexivity|lia].
Qed.

Lemma pacing_loop_terminates_witness :
  let hts := fun k : nat => match k with O => Some 4000 | _ => Some 0 end in
  (exists kf total t,
     pacing_loop 24 hts 0 4096 (rate pcm_config_out) 50 0 0 = Some (kf, total, t) /\
     pacing_loop PACING_FUEL hts 0 4096 (rate pcm_config_out) 50 0 0
       = Some (kf, total, t) /\
     0 <= total_slept t <= MAX_WRITE_SLEEP_US) /\
  pacing_loop 1 hts 0 4096 (rate pcm_config_out) 50 0 0
    = Some (4096 - 4000, 0, [EvGetHtimestamp (Some 4000)]) /\
  pacing_loop 1 hts 1 4096 (rate pcm_config_out) 50 0 0
    = Some (4096 - 0, 0 + (4096 - 0 - 50) * 1000000 / 44100,
            [EvGetHtimestamp (Some 0); EvUsleep (MAX_WRITE_SLEEP_US - 0)]).
Proof.
  intros hts.
  assert (Hh : forall k avail, hts k = Some avail -> 0 <= avail <= 4096).
  { intros [|k] avail E; inversion E; lia. }
  destruct (pacing_loop_terminates hts 4096 50 0 24 ltac:(lia) ltac:(lia) Hh
              ltac:(apply le_n)) as (H1 & H2 & H3).
  split; [exact H1|]. split.
  - apply (H2 0%nat 0 0 4000 0%nat); [reflexivity|vm_compute; split; discriminate
                                     |lia|vm_compute; reflexivity].
  - apply (H3 1%nat 0 0 0 0%nat); [reflexivity|vm_compute; split; discriminate|lia
                                  |vm_compute; discriminate|vm_compute; reflexivity].
Defined.

(** ** The buffer provider *)

Lemma get_next_buffer_carry read_ret inp buf :
  SIn.pcm inp <> NullPcm -> SIn.frames_in inp <> 0 ->
  get_next_buffer read_ret inp buf =
    (SIn.read_status inp, inp,
     mk_resampler_buffer
       (Some (u32 (period_size (SIn.pcm_config inp) - SIn.frames_in inp)))
       (Z.min (frame_count buf) (SIn.frames_in inp)),
     []).
Proof.
  intros Hp Hf. unfold get_next_buffer.
  destruct (SIn.pcm inp); [congruence| | |];
    cbn [pcm_is_null];
    (destruct (Z.eqb_spec (SIn.frames_in inp) 0); [congruence|]);
    (destruct (Z.gtb_spec (frame_count buf) (SIn.frames_in inp));
     [rewrite Z.min_r by lia | rewrite Z.min_l by lia]); reflexivity.
Qed.

Lemma get_next_buffer_refill read_ret inp buf :
  SIn.pcm inp <> NullPcm -> SIn.frames_in inp = 0 ->
  get_next_buffer read_ret inp buf =
    if read_ret =? 0 then
      (0, SIn.set_frames_in (period_size (SIn.pcm_config inp))
            (SIn.set_read_status 0 inp),
       mk_resampler_buffer (Some 0)
         (Z.min (frame_count buf) (period_size (SIn.pcm_config inp))),
       [EvPcmRead (SIn.buffer_size inp) 0])
    else
      (read_ret, SIn.set_read_status read_ret inp, mk_resampler_buffer None 0,
       [EvPcmRead (SIn.buffer_size inp) read_ret]).
Proof.
  intros Hp Hf. unfold get_next_buffer.
  destruct (SIn.pcm inp); [congruence| | |];
    cbn [pcm_is_null]; rewrite Hf; cbn [Z.eqb];
    cbn [SIn.read_status SIn.set_read_status SIn.buffer_size];
    (destruct (Z.eqb_spec read_ret 0) as [->|]; cbn [negb]; [|reflexivity]);
    cbn [SIn.frames_in SIn.set_frames_in SIn.pcm_config SIn.read_status];
    rewrite Z.sub_diag;
    (destruct (Z.gtb_spec (frame_count buf) (period_size (SIn.pcm_config inp)));
     [rewrite Z.min_r by lia | rewrite Z.min_l by lia]); reflexivity.
Qed.

Lemma run_provider_conserves period cs :
  0 < period < 2 ^ 32 ->
  forall inp inp' views t,
    provider_ready period inp ->
    releases_within_carry cs inp ->
    run_provider cs inp = (inp', views, t) ->
    provider_ready period inp' /\
    period * successful_pcm_reads t + SIn.frames_in inp
      = released_frames cs + SIn.frames_in inp'.
Proof.
  intros Hper. induction cs as [|c cs IH]; intros inp inp' views t Hr Hp E.
  - cbn in E. inversion E; subst. split; [exact Hr|]. cbn. lia.
  - destruct Hr as (Hpcm & Hps & Hfr).
    destruct c as [request read_ret|n]; cbn [run_provider releases_within_carry
                                              released_frames] in *.
    + destruct Hp as [Hrq Hp].
      destruct (Z.eq_dec (SIn.frames_in inp) 0) as [Hz|Hnz].
      * rewrite (get_next_buffer_refill _ _ _ Hpcm Hz) in *.
        destruct (Z.eqb_spec read_ret 0) as [->|Hne]; cbn [fst snd] in *.
        -- destruct (run_provider cs _) as [[inp1 views1] t1] eqn:E1.
           inversion E; subst; clear E.
           assert (Hr1 : provider_ready (period_size (SIn.pcm_config inp))
                           (SIn.set_frames_in (period_size (SIn.pcm_config inp))
                              (SIn.set_read_status 0 inp))).
           { unfold provider_ready. destruct inp; cbn in *. repeat split; try assumption; lia. }
           destruct (IH _ _ _ _ Hr1 Hp E1) as [Hr' Hc].
           split; [exact Hr'|].
           cbn [app successful_pcm_reads]. destruct inp; cbn in *. lia.
        -- destruct (run_provider cs _) as [[inp1 views1] t1] eqn:E1.
           inversion E; subst; clear E.
           assert (Hr1 : provider_ready (period_size (SIn.pcm_config inp))
                           (SIn.set_read_status read_ret inp)).
           { unfold provider_ready. destruct inp; cbn in *. repeat split; try assumption; lia. }
           destruct (IH _ _ _ _ Hr1 Hp E1) as [Hr' Hc].
           split; [exact Hr'|].
           cbn [app successful_pcm_reads].
           destruct read_ret; [congruence| |]; destruct inp; cbn in *; lia.
      * rewrite (get_next_buffer_carry _ _ _ Hpcm Hnz) in *. cbn [fst snd] in *.
        destruct (run_provider cs _) as [[inp1 views1] t1] eqn:E1.
        inversion E; subst; clear E.
        assert (Hr1 : provider_ready (period_size (SIn.pcm_config inp)) inp).
        { unfold provider_ready. repeat split; try assumption; lia. }
        destruct (IH _ _ _ _ Hr1 Hp E1) as [Hr' Hc].
        split; [exact Hr'|]. cbn [app]. exact Hc.
    + destruct Hp as [Hn Hp].
      assert (Hrel : SIn.frames_in (release_buffer inp (mk_resampler_buffer None n))
                     = SIn.frames_in inp - n).
      { unfold release_buffer. cbn [frame_count].
        destruct inp; cbn in *. apply u32_id. lia. }
      assert (Hr1 : provider_ready period
                      (release_buffer inp (mk_resampler_buffer None n))).
      { split; [|split]; [destruct inp; assumption | destruct inp; assumption
                         | rewrite Hrel; lia]. }
      destruct (IH _ _ _ _ Hr1 Hp E) as [Hr' Hc].
      split; [exact Hr'|]. rewrite Hrel in Hc. lia.
Qed.

(** C7.  With an open handle and a carry count within the period:
    [get_next_buffer] calls [pcm_read] only when the carry count is zero, then
    exactly once, for the [buffer_size] bytes that [start_input_stream] set to
    one period, and a successful read sets the carry count to the period
    size; the view it returns starts at the unconsumed tail and holds
    [min (requested, carry)] frames; [release_buffer] subtracts the released
    frames from the carry count; and over any sequence of provider calls that
    never releases more than is held, successful reads times the period size
    equal the frames released plus the change of the carry count, so there is
    one successful read per period consumed. *)
Theorem provider_reads_one_period_per_exhaustion :
  forall (period : Z) (inp : stream_in),
    0 < period < 2 ^ 32 ->
    SIn.pcm inp <> NullPcm ->
    period_size (SIn.pcm_config inp) = period ->
    0 <= SIn.frames_in inp <= period ->
    (forall request read_ret ret inp' buf t,
       0 <= request ->
       get_next_buffer read_ret inp (mk_resampler_buffer None request)
         = (ret, inp', buf, t) ->
       (SIn.frames_in inp <> 0 ->
          t = [] /\ inp' = inp /\
          buf = mk_resampler_buffer (Some (period - SIn.frames_in inp))
                  (Z.min request (SIn.frames_in inp))) /\
       (SIn.frames_in inp = 0 ->
          t = [EvPcmRead (SIn.buffer_size inp) read_ret] /\
          (read_ret = 0 ->
             SIn.frames_in inp' = period /\
             buf = mk_resampler_buffer (Some 0) (Z.min request period)) /\
          (read_ret <> 0 ->
             SIn.frames_in inp' = 0 /\ ret = read_ret /\
             buf = mk_resampler_buffer None 0))) /\
    (forall i hw adev r adev' inp' t,
       start_input_stream i hw adev inp = (r, adev', inp', t) -> r = 0 ->
       SIn.buffer_size inp' = pcm_frames_to_bytes (SIn.pcm_config inp) period /\
       SIn.frames_in inp' = 0) /\
    (forall n, 0 <= n <= SIn.frames_in inp ->
       SIn.frames_in (release_buffer inp (mk_resampler_buffer None n))
         = SIn.frames_in inp - n) /\
    (forall cs inp' views t,
       releases_within_carry cs inp ->
       run_provider cs inp = (inp', views, t) ->
       0 <= SIn.frames_in inp' <= period /\
       period * successful_pcm_reads t + SIn.frames_in inp
         = released_frames cs + SIn.frames_in inp').
Proof.
  intros period inp Hper Hpcm Hps Hfr.
  split; [|split; [|split]].
  - intros request read_ret ret inp' buf t Hrq E. split.
    + intros Hnz. rewrite (get_next_buffer_carry _ _ _ Hpcm Hnz) in E.
      inversion E; subst; clear E. cbn [frame_count].
      rewrite u32_id by lia. auto.
    + intros Hz. rewrite (get_next_buffer_refill _ _ _ Hpcm Hz) in E.
      split; [|split].
      * destruct (read_ret =? 0) eqn:Hr; inversion E; subst; clear E;
          [apply Z.eqb_eq in Hr; subst|]; reflexivity.
      * intros ->. cbn [Z.eqb] in E. inversion E; subst; clear E.
        destruct inp; cbn in *. auto.
      * intros Hne. destruct (Z.eqb_spec read_ret 0); [congruence|].
        inversion E; subst; clear E. destruct inp; cbn in *. auto.
  - intros i hw adev r adev' inp' t E Hr. unfold start_input_stream in E.
    destruct (negb (pcm_is_null _) && negb (pcm_is_ready _)).
    + inversion E; subst. discriminate.
    + destruct (negb (in_get_sample_rate _ =? _));
        [destruct (hw_resampler_ok hw)|];
        inversion E; subst; clear E; cbn; auto.
  - intros n Hn. unfold release_buffer. cbn [frame_count].
    destruct inp; cbn in *. apply u32_id. lia.
  - intros cs inp' views t Hp E.
    destruct (run_provider_conserves period cs Hper inp inp' views t
                ltac:(split; [|split]; assumption) Hp E) as [(_ & _ & Hr) Hc].
    split; assumption.
Qed.

Lemma provider_reads_one_period_per_exhaustion_witness :
  (get_next_buffer 0 in_started (mk_resampler_buffer None 300)
     = (0, SIn.set_frames_in 1024 in_started, mk_resampler_buffer (Some 0) 300,
        [EvPcmRead 4096 0]) /\
   [EvPcmRead 4096 0] = [EvPcmRead (SIn.buffer_size in_started) 0] /\
   SIn.frames_in (SIn.set_frames_in 1024 in_started) = 1024 /\
   mk_resampler_buffer (Some 0) 300 = mk_resampler_buffer (Some 0) (Z.min 300 1024)) /\
  (([] : trace) = [] /\ in_partly_consumed = in_partly_consumed /\
   mk_resampler_buffer (Some 300) 724
     = mk_resampler_buffer (Some (1024 - SIn.frames_in in_partly_consumed))
         (Z.min 1000 (SIn.frames_in in_partly_consumed))) /\
  SIn.frames_in (release_buffer in_partly_consumed (mk_resampler_buffer None 724))
    = SIn.frames_in in_partly_consumed - 724 /\
  (0 <= SIn.frames_in (SIn.set_frames_in 1014 in_started) <= 1024 /\
   1024 * successful_pcm_reads [EvPcmRead 4096 0; EvPcmRead 4096 0]
     + SIn.frames_in in_started
   = released_frames [ProvGetNextBuffer 300 0; ProvReleaseBuffer 300;
                      ProvGetNextBuffer 1000 0; ProvReleaseBuffer 724;
                      ProvGetNextBuffer 10 0; ProvReleaseBuffer 10]
     + SIn.frames_in (SIn.set_frames_in 1014 in_started)).
Proof.
  assert (Hne : ReadyPcm <> NullPcm) by discriminate.
  destruct (provider_reads_one_period_per_exhaustion 1024 in_started
              ltac:(lia) Hne eq_refl ltac:(cbn; lia)) as (Hget & _ & _ & Hrun).
  destruct (provider_reads_one_period_per_exhaustion 1024 in_partly_consumed
              ltac:(lia) Hne eq_refl ltac:(cbn; lia)) as (Hget' & _ & Hrel & _).
  split; [|split; [|split]].
  - split; [reflexivity|].
    destruct (Hget 300 0 0 (SIn.set_frames_in 1024 in_started)
                (mk_resampler_buffer (Some 0) 300) [EvPcmRead 4096 0]
                ltac:(lia) eq_refl) as [_ Hz].
    destruct (Hz eq_refl) as (Ht & Hok & _).
    destruct (Hok eq_refl) as (Hf & Hb).
    split; [exact Ht | split; [exact Hf | exact Hb]].
  - destruct (Hget' 1000 0 0 in_partly_consumed
                (mk_resampler_buffer (Some 300) 724) []
                ltac:(lia) eq_refl) as [Hnz _].
    apply Hnz. discriminate.
  - apply Hrel. cbn. lia.
  - apply (Hrun _ _ [mk_resampler_buffer (Some 0) 300;
                     mk_resampler_buffer (Some 300) 724;
                     mk_resampler_buffer (Some 0) 10]).
    + vm_compute. repeat split; discriminate.
    + reflexivity.
Defined.

(** ** Presentation position *)

(** C3.  [out_get_presentation_position] fails with [-ENOSYS] when the
    stream is in standby or has no handle.  Otherwise, when the hardware
    reports [avail] available frames, it computes
    [written - kernel_buffer_size + avail] (for counters for which this
    stays below 2^63, the range of [int64_t]) and succeeds exactly when that
    is not negative, storing it as the position; no stored position is ever
    negative; and with 10000 frames written, a kernel buffer of 4096 frames
    and 2000 available frames the position is 7904. *)
Theorem presentation_position_formula :
  forall (out : stream_out) (ht : option Z),
    (SOut.standby out = true \/ SOut.pcm out = NullPcm ->
       exists out',
         out_get_presentation_position ht out = Some (- ENOSYS, None, out', [])) /\
    (forall cfg avail,
       SOut.standby out = false -> SOut.pcm out <> NullPcm ->
       SOut.pcm_config out = Some cfg -> ht = Some avail ->
       0 <= period_size cfg * period_count cfg < 2 ^ 32 ->
       0 <= avail < 2 ^ 32 ->
       0 <= SOut.written out ->
       SOut.written out - period_size cfg * period_count cfg + avail < 2 ^ 63 ->
       let signed := SOut.written out - period_size cfg * period_count cfg + avail in
       exists out',
         out_get_presentation_position ht out =
           Some (if 0 <=? signed then 0 else - 1,
                 if 0 <=? signed then Some signed else None,
                 out', [EvGetHtimestamp ht])) /\
    (forall r frames out' t,
       out_get_presentation_position ht out = Some (r, Some frames, out', t) ->
       r = 0 /\ 0 <= frames) /\
    (SOut.standby out = false -> SOut.pcm out <> NullPcm ->
     SOut.pcm_config out = Some pcm_config_out -> SOut.written out = 10000 ->
     ht = Some 2000 ->
     period_size pcm_config_out * period_count pcm_config_out = 4096 /\
     exists out',
       out_get_presentation_position ht out
         = Some (0, Some 7904, out', [EvGetHtimestamp ht])).
Proof.
  intros out ht.
  assert (Hgen : forall cfg avail,
       SOut.standby out = false -> SOut.pcm out <> NullPcm ->
       SOut.pcm_config out = Some cfg -> ht = Some avail ->
       0 <= period_size cfg * period_count cfg < 2 ^ 32 ->
       0 <= avail < 2 ^ 32 ->
       0 <= SOut.written out ->
       SOut.written out - period_size cfg * period_count cfg + avail < 2 ^ 63 ->
       let signed := SOut.written out - period_size cfg * period_count cfg + avail in
       exists out',
         out_get_presentation_position ht out =
           Some (if 0 <=? signed then 0 else - 1,
                 if 0 <=? signed then Some signed else None,
                 out', [EvGetHtimestamp ht])).
  { intros cfg avail Hs Hp Hc -> HK Hav Hw Hlt signed.
    unfold out_get_presentation_position.
    cbn [SOut.standby SOut.pcm SOut.pcm_config SOut.written SOut.set_sleep_req
         out_lock SOut.set_lock_cnt].
    rewrite Hs, Hc.
    destruct (SOut.pcm out) eqn:Ep; [congruence| | |]; cbn [pcm_is_null];
      rewrite (u32_id (period_size cfg * period_count cfg)) by lia;
      rewrite (u32_id avail) by lia;
      rewrite u64_add_l, s64_u64;
      rewrite (s64_id (SOut.written out - period_size cfg * period_count cfg + avail))
        by lia;
      fold signed;
      (destruct (Z.geb_spec signed 0);
       [destruct (Z.leb_spec 0 signed); [|lia]; rewrite u64_id by lia
       |destruct (Z.leb_spec 0 signed); [lia|]]);
      eexists; reflexivity. }
  split; [|split; [exact Hgen|split]].
  - intros [Hs|Hp]; unfold out_get_presentation_position;
      cbn [SOut.standby SOut.pcm SOut.set_sleep_req out_lock SOut.set_lock_cnt].
    + rewrite Hs. eexists. reflexivity.
    + rewrite Hp. destruct (SOut.standby out); eexists; reflexivity.
  - intros r frames out' t E. unfold out_get_presentation_position in E.
    cbn [SOut.standby SOut.pcm SOut.pcm_config SOut.written SOut.set_sleep_req
         out_lock SOut.set_lock_cnt] in E.
    destruct (SOut.standby out); [discriminate|].
    destruct (pcm_is_null (SOut.pcm out)); [discriminate|].
    destruct ht as [avail|]; [|discriminate].
    destruct (SOut.pcm_config out) as [cfg|]; [|discriminate].
    destruct (_ >=? 0); [|discriminate].
    inversion E; subst. split; [reflexivity|].
    unfold u64. apply Z.mod_pos_bound. lia.
  - intros Hs Hp Hc Hw Hht. split; [reflexivity|].
    destruct (Hgen pcm_config_out 2000 Hs Hp Hc Hht) as [out' E].
    + change (period_size pcm_config_out * period_count pcm_config_out) with 4096. lia.
    + lia.
    + lia.
    + change (period_size pcm_config_out * period_count pcm_config_out) with 4096. lia.
    + exists out'. rewrite E, Hw. reflexivity.
Qed.

Lemma presentation_position_formula_witness :
  (exists out',
     out_get_presentation_position (Some 2000) out_in_standby
       = Some (- ENOSYS, None, out', [])) /\
  (exists out',
     out_get_presentation_position (Some 2000) out_started
       = Some (0, Some (10000 - 1024 * 4 + 2000), out', [EvGetHtimestamp (Some 2000)])) /\
  (0 = 0 /\ 0 <= 7904) /\
  (period_size pcm_config_out * period_count pcm_config_out = 4096 /\
   exists out',
     out_get_presentation_position (Some 2000) out_started
       = Some (0, Some 7904, out', [EvGetHtimestamp (Some 2000)])).
Proof.
  destruct (presentation_position_formula out_in_standby (Some 2000)) as (Hsb & _).
  destruct (presentation_position_formula out_started (Some 2000))
    as (_ & Hgen & Hpos & Hex).
  assert (Hne : ReadyPcm <> NullPcm) by discriminate.
  split; [|split; [|split]].
  - apply Hsb. left. reflexivity.
  - apply (Hgen pcm_config_out 2000 eq_refl Hne eq_refl eq_refl);
      vm_compute; repeat split; discriminate.
  - apply (Hpos 0 7904 (SOut.mk ReadyPcm (Some pcm_config_out) false 10000 None None 0
                          2048 2048 OUT_BUFFER_TYPE_SHORT false 0)
             [EvGetHtimestamp (Some 2000)]).
    reflexivity.
  - apply Hex; [reflexivity|exact Hne|reflexivity|reflexivity|reflexivity].
Defined.

(** ** Result of a write on an active output stream *)

Lemma select_buffer_type_written adev cfg out :
  SOut.written (select_buffer_type adev cfg out) = SOut.written out.
Proof.
  unfold select_buffer_type.
  repeat (match goal with |- context [if ?b then _ else _] => destruct b end);
    reflexivity.
Qed.

Lemma select_buffer_type_cur adev out :
  0 <= SOut.cur_write_threshold out < 2 ^ 31 ->
  0 <= SOut.cur_write_threshold (select_buffer_type adev pcm_config_out out) < 2 ^ 31.
Proof.
  intros H. unfold select_buffer_type.
  repeat (match goal with |- context [if ?b then _ else _] => destruct b end);
    cbn; try exact H; (vm_compute; split; [discriminate|reflexivity]).
Qed.

Lemma u32_quotients z a b : 0 < a -> 0 < b -> u32 (u32 z / a / b) = u32 z / a / b.
Proof.
  intros Ha Hb. apply u32_id.
  assert (H : 0 <= u32 z < 2 ^ 32) by (apply Z.mod_pos_bound; lia).
  assert (H1 : 0 <= u32 z / a <= u32 z).
  { split; [apply Z.div_pos; lia|]. apply Z.div_le_upper_bound; nia. }
  split; [apply Z.div_pos; lia|].
  apply Z.le_lt_trans with (m := u32 z / a); [|lia].
  apply Z.div_le_upper_bound; nia.
Qed.

(** The body of [out_write] on a started stream whose pacing loop ends. *)
Lemma out_write_body_started bytes hw adev out :
  SOut.pcm_config out = Some pcm_config_out ->
  0 <= bytes < 2 ^ 31 ->
  0 <= SOut.cur_write_threshold out < 2 ^ 31 ->
  0 <= ow_buffer_size hw <= 2 ^ 25 ->
  (forall k avail, ow_htimestamp hw k = Some avail -> 0 <= avail <= ow_buffer_size hw) ->
  let out2 := select_buffer_type adev pcm_config_out out in
  exists kf total t_pace,
    pacing_loop PACING_FUEL (ow_htimestamp hw) 0 (ow_buffer_size hw)
      (rate pcm_config_out) (SOut.cur_write_threshold out2) (ow_kernel_frames0 hw) 0
      = Some (kf, total, t_pace) /\
    0 <= total_slept t_pace <= MAX_WRITE_SLEEP_US /\
    out_write_body bytes hw adev out =
      let out3 :=
        SOut.set_cur_write_threshold
          (smooth_write_threshold (period_size pcm_config_out)
             (SOut.write_threshold out2) kf (SOut.cur_write_threshold out2)) out2 in
      let ret := ow_pcm_write hw in
      let t_write := [EvPcmWrite (bytes / 4 * 4) ret] in
      if ret =? - EPIPE then Some (ret, out_unlock out3, t_pace ++ t_write)
      else if ret =? 0 then
        Some (bytes,
              out_unlock (SOut.set_written (u64 (SOut.written out + bytes / 4)) out3),
              t_pace ++ t_write)
      else
        Some (bytes, out_unlock out3,
              t_pace ++ t_write ++ [EvUsleep (u32 (bytes * 1000000) / 4 / 44100)]).
Proof.
  intros Hcfg Hbytes Hcur Hbuf Hhts out2.
  pose proof (select_buffer_type_cur adev out Hcur) as Hcur2. fold out2 in Hcur2.
  destruct (pacing_loop_total (ow_htimestamp hw) (ow_buffer_size hw)
              (SOut.cur_write_threshold out2) Hbuf Hcur2 Hhts PACING_FUEL 0
              (ow_kernel_frames0 hw) 0) as (kf & total & t_pace & E & Hsl).
  { rewrite MAX_WRITE_SLEEP_US_value. lia. }
  { vm_compute. discriminate. }
  exists kf, total, t_pace. split; [exact E|]. split; [lia|].
  assert (Hdiv : 0 <= bytes / 4 /\ bytes / 4 * 4 <= bytes).
  { split; [apply Z.div_pos; lia|].
    pose proof (Z.mul_div_le bytes 4 ltac:(lia)). lia. }
  unfold out_write_body. rewrite Hcfg. fold out2.
  change (audio_channel_count_from_out_mask_stereo >? s32 (channels pcm_config_out))
    with false.
  change (negb (out_get_sample_rate =? rate pcm_config_out)) with false.
  cbv iota. rewrite E. cbv zeta.
  change audio_stream_out_frame_size with 4.
  rewrite (u32_id (bytes / 4 * 4)) by lia.
  destruct (ow_pcm_write hw =? - EPIPE) eqn:Hep; [reflexivity|].
  unfold out_write_exit.
  rewrite (s32_id bytes) by (unfold int_range; lia).
  change audio_stream_out_frame_size with 4.
  change out_get_sample_rate with 44100.
  rewrite u32_quotients by lia.
  destruct (ow_pcm_write hw =? 0) eqn:Hz; cbn [negb app].
  - replace (SOut.written
               (SOut.set_cur_write_threshold
                  (smooth_write_threshold (period_size pcm_config_out)
                     (SOut.write_threshold out2) kf (SOut.cur_write_threshold out2))
                  out2)) with (SOut.written out); [reflexivity|].
    subst out2. rewrite <- (select_buffer_type_written adev pcm_config_out out).
    reflexivity.
  - reflexivity.
Qed.

(** What [out_write] reports on a started output stream whose pacing loop
    ends (hardware figures as for the pacing loop), with a byte count below
    2^31: when [pcm_write] returns [-EPIPE], [out_write] returns [-EPIPE] and
    the write is its last external call, no sleep follows it; when it returns
    another error, [out_write] returns the byte count after one [usleep] of
    [bytes * 1000000 / frame_size / rate] microseconds, the product being
    taken in [size_t], so that it is the transfer time of the byte count
    whenever [bytes * 1000000] is below 2^32; when it returns 0, [out_write]
    returns the byte count without sleeping and [written] has grown by
    [bytes / frame_size] frames.  Only in the last case does [written]
    change. *)
Lemma out_write_reports_write_status :
  forall (o : nat) (bytes : Z) (hw : out_write_hw) (w : world) (out : stream_out),
    outs w !! o = Some out ->
    SOut.standby out = false ->
    SOut.pcm_config out = Some pcm_config_out ->
    0 <= SOut.cur_write_threshold out < 2 ^ 31 ->
    0 <= SOut.written out ->
    0 <= bytes < 2 ^ 31 ->
    0 <= ow_buffer_size hw <= 2 ^ 25 ->
    (forall k avail,
       ow_htimestamp hw k = Some avail -> 0 <= avail <= ow_buffer_size hw) ->
    let frames := bytes / audio_stream_out_frame_size in
    let t_write := [EvPcmWrite (frames * audio_stream_out_frame_size) (ow_pcm_write hw)] in
    exists out' kf total t_pace,
      let t_before :=
        (if SOut.sleep_req out then [EvUsleep 10000] else []) ++ t_pace in
      let w' := mk_world (adev w) (<[o := out']> (outs w)) (ins w) in
      pacing_loop PACING_FUEL (ow_htimestamp hw) 0 (ow_buffer_size hw)
        (rate pcm_config_out)
        (SOut.cur_write_threshold
           (select_buffer_type (adev w) pcm_config_out (out_lock out)))
        (ow_kernel_frames0 hw) 0 = Some (kf, total, t_pace) /\
      SOut.standby out' = false /\
      (ow_pcm_write hw = - EPIPE ->
         out_write o bytes hw w = Some (- EPIPE, w', t_before ++ t_write) /\
         SOut.written out' = SOut.written out) /\
      (ow_pcm_write hw <> - EPIPE -> ow_pcm_write hw <> 0 ->
         out_write o bytes hw w
           = Some (bytes, w',
                   t_before ++ t_write
                   ++ [EvUsleep (u32 (bytes * 1000000) / audio_stream_out_frame_size
                                 / out_get_sample_rate)]) /\
         SOut.written out' = SOut.written out /\
         (bytes * 1000000 < 2 ^ 32 ->
          u32 (bytes * 1000000) / audio_stream_out_frame_size / out_get_sample_rate
            = transfer_time_us bytes audio_stream_out_frame_size out_get_sample_rate)) /\
      (ow_pcm_write hw = 0 ->
         out_write o bytes hw w = Some (bytes, w', t_before ++ t_write) /\
         SOut.written out' = u64 (SOut.written out + frames) /\
         (SOut.written out + frames < 2 ^ 64 ->
          SOut.written out' = SOut.written out + frames)).
Proof.
  intros o bytes hw w out Hlook Hsb Hcfg Hcur Hwr Hbytes Hbuf Hhts frames t_write.
  destruct (out_write_body_started bytes hw (adev w) (out_lock out))
    as (kf & total & t_pace & Epace & _ & Ebody); try assumption.
  set (out2 := select_buffer_type (adev w) pcm_config_out (out_lock out)) in *.
  set (out3 := SOut.set_cur_write_threshold
                 (smooth_write_threshold (period_size pcm_config_out)
                    (SOut.write_threshold out2) kf (SOut.cur_write_threshold out2))
                 out2) in *.
  cbv zeta in Ebody.
  assert (Hsb3 : SOut.standby out3 = false).
  { subst out3 out2. unfold select_buffer_type.
    repeat (match goal with |- context [if ?b then _ else _] => destruct b end);
      cbn; exact Hsb. }
  assert (Hwr3 : SOut.written out3 = SOut.written out).
  { subst out3 out2. cbn [SOut.written SOut.set_cur_write_threshold].
    rewrite select_buffer_type_written. reflexivity. }
  assert (Hframes : 0 <= frames).
  { subst frames. apply Z.div_pos; [lia|reflexivity]. }
  subst t_write frames.
  assert (Ew : forall r out' t,
             out_write_body bytes hw (adev w) (out_lock out) = Some (r, out', t) ->
             out_write o bytes hw w
               = Some (r, mk_world (adev w) (<[o := out']> (outs w)) (ins w),
                       (if SOut.sleep_req out then [EvUsleep 10000] else []) ++ t)).
  { intros r out' t E. unfold out_write. rewrite Hlook.
    cbn [SOut.sleep_req out_lock SOut.set_lock_cnt SOut.standby].
    rewrite Hsb. cbn [Z.eqb negb].
    change (SOut.set_lock_cnt (s32 (SOut.lock_cnt out + 1)) out) with (out_lock out).
    rewrite E. reflexivity. }
  change audio_stream_out_frame_size with 4 in *.
  change out_get_sample_rate with 44100.
  destruct (Z.eq_dec (ow_pcm_write hw) (- EPIPE)) as [Hep|Hep].
  - exists (out_unlock out3), kf, total, t_pace. cbv zeta.
    split; [exact Epace|]. split; [exact Hsb3|].
    split; [|split]; [|intros; congruence|intros H0; rewrite H0 in Hep; discriminate].
    intros _. rewrite Hep in Ebody. cbn [Z.eqb Pos.eqb EPIPE Z.opp] in Ebody.
    rewrite (Ew _ _ _ Ebody). rewrite Hep, app_assoc.
    split; [reflexivity|exact Hwr3].
  - destruct (Z.eq_dec (ow_pcm_write hw) 0) as [Hz|Hz].
    + exists (out_unlock (SOut.set_written (u64 (SOut.written out + bytes / 4)) out3)),
        kf, total, t_pace. cbv zeta.
      split; [exact Epace|]. split; [exact Hsb3|].
      split; [|split]; [intros; congruence|intros; congruence|].
      intros _. rewrite Hz in Ebody. cbn [Z.eqb EPIPE Z.opp] in Ebody.
      rewrite (Ew _ _ _ Ebody). rewrite Hz, app_assoc.
      split; [reflexivity|]. split; [reflexivity|].
      intros Hlt. cbn [SOut.written out_unlock SOut.set_lock_cnt SOut.set_written].
      apply u64_id. lia.
    + exists (out_unlock out3), kf, total, t_pace. cbv zeta.
      split; [exact Epace|]. split; [exact Hsb3|].
      split; [|split]; [intros; congruence| |intros; congruence].
      intros _ _.
      destruct (Z.eqb_spec (ow_pcm_write hw) (- EPIPE)); [congruence|].
      destruct (Z.eqb_spec (ow_pcm_write hw) 0); [congruence|].
      rewrite (Ew _ _ _ Ebody). rewrite !app_assoc.
      split; [reflexivity|]. split; [exact Hwr3|].
      intros Hlt. unfold transfer_time_us. rewrite u32_id by lia. reflexivity.
Qed.

(** The sleep after a failed write, as line 977 computes it, falls short of
    the transfer time as soon as the product leaves [size_t]. *)
Lemma error_sleep_falls_short bytes :
  4295 <= bytes < 2 ^ 31 ->
  u32 (bytes * 1000000) / audio_stream_out_frame_size / out_get_sample_rate
  < transfer_time_us bytes audio_stream_out_frame_size out_get_sample_rate.
Proof.
  intros H. unfold transfer_time_us.
  change audio_stream_out_frame_size with 4. change out_get_sample_rate with 44100.
  assert (Hu : 0 <= u32 (bytes * 1000000) < 2 ^ 32)
    by (apply Z.mod_pos_bound; lia).
  rewrite !Z.div_div by lia. change (4 * 44100) with 176400.
  apply Z.lt_le_trans with (m := 24348).
  - apply Z.div_lt_upper_bound; lia.
  - apply Z.div_le_lower_bound; lia.
Qed.

(** C2, where the code departs from it.  A write of 8192 bytes on a started
    stream whose [pcm_write] fails with an error other than [-EPIPE] returns
    8192 after a sleep of 22092 microseconds, where 8192 bytes last 46439: the
    product [bytes * 1000000] is taken in the 32-bit [size_t] and wraps.  The
    sleep is the transfer time up to 4294 bytes; from 4295 bytes on it is
    shorter, for every state the write starts from. *)
Theorem out_write_error_sleep_wraps :
  (exists w' t,
     out_write 0 8192 (out_write_ok (- 5)) world_playing
       = Some (8192, w', t ++ [EvPcmWrite 8192 (- 5); EvUsleep 22092])) /\
  transfer_time_us 8192 audio_stream_out_frame_size out_get_sample_rate = 46439 /\
  (forall o bytes hw w out,
     outs w !! o = Some out ->
     SOut.standby out = false ->
     SOut.pcm_config out = Some pcm_config_out ->
     0 <= SOut.cur_write_threshold out < 2 ^ 31 ->
     0 <= SOut.written out ->
     0 <= bytes < 2 ^ 31 ->
     0 <= ow_buffer_size hw <= 2 ^ 25 ->
     (forall k avail,
        ow_htimestamp hw k = Some avail -> 0 <= avail <= ow_buffer_size hw) ->
     ow_pcm_write hw <> - EPIPE -> ow_pcm_write hw <> 0 ->
     exists w' t us,
       out_write o bytes hw w = Some (bytes, w', t ++ [EvUsleep us]) /\
       (bytes <= 4294 ->
        us = transfer_time_us bytes audio_stream_out_frame_size out_get_sample_rate) /\
       (4295 <= bytes ->
        us < transfer_time_us bytes audio_stream_out_frame_size out_get_sample_rate)).
Proof.
  split; [|split].
  - eexists _, [EvGetHtimestamp None]. vm_compute. reflexivity.
  - reflexivity.
  - intros o bytes hw w out Hlook Hsb Hcfg Hcur Hwr Hbytes Hbuf Hhts Hne Hnz.
    destruct (out_write_reports_write_status o bytes hw w out Hlook Hsb Hcfg Hcur Hwr
                Hbytes Hbuf Hhts)
      as (out' & kf & total & t_pace & _ & _ & _ & H & _).
    destruct (H Hne Hnz) as (E & _ & Hexact).
    eexists _, _, _. split.
    + rewrite E. rewrite !app_assoc. reflexivity.
    + split.
      * intros Hle. apply Hexact. lia.
      * intros Hge. apply error_sleep_falls_short. lia.
Qed.

(** ** A handle that does not open *)

Lemma resource_events_app d t1 t2 :
  resource_events d (t1 ++ t2) = resource_events d t1 ++ resource_events d t2.
Proof. unfold resource_events. apply List.filter_app. Qed.

Lemma do_in_standby_facts adev inp :
  let '(adev', inp', t) := do_in_standby adev inp in
  ADev.active_out adev' = ADev.active_out adev /\
  ADev.lock_cnt adev' = ADev.lock_cnt adev /\
  SIn.standby inp' = true /\
  resource_events Playback t = [].
Proof.
  unfold do_in_standby.
  destruct (SIn.standby inp) eqn:Hs; cbn [negb].
  - auto.
  - destruct (SIn.resampler _), (SIn.buffer _); cbn; auto.
Qed.

Lemma do_out_standby_facts adev out :
  let '(adev', out', t) := do_out_standby adev out in
  ADev.active_in adev' = ADev.active_in adev /\
  ADev.lock_cnt adev' = ADev.lock_cnt adev /\
  SOut.standby out' = true /\
  resource_events Capture t = [].
Proof.
  unfold do_out_standby.
  destruct (SOut.standby out) eqn:Hs; cbn [negb].
  - auto.
  - destruct (SOut.resampler _), (SOut.buffer _); cbn; auto.
Qed.

Lemma start_output_stream_facts o hw adev out :
  let '(r, adev', out', t) := start_output_stream o hw adev out in
  ADev.active_in adev' = ADev.active_in adev /\
  resource_events Capture t = [] /\
  SOut.resampler out' = SOut.resampler out /\
  SOut.buffer out' = SOut.buffer out /\
  SOut.standby out' = SOut.standby out /\
  SOut.pcm_config out' = Some pcm_config_out /\
  (r = 0 \/ r = - ENOMEM) /\
  (r = 0 -> ADev.active_out adev' = Some o /\ hw_open hw <> PcmOpenNotReady /\
            t = [EvPcmOpen Playback (hw_open hw)]) /\
  (hw_open hw = PcmOpenNotReady ->
     r = - ENOMEM /\ adev' = adev /\ SOut.pcm out' = ClosedPcm /\
     t = [EvPcmOpen Playback PcmOpenNotReady; EvPcmClose Playback BadPcm]).
Proof.
  unfold start_output_stream, start_output_stream_at.
  change (negb (out_get_sample_rate =? rate pcm_config_out)) with false.
  cbn [SOut.pcm SOut.set_pcm].
  destruct (hw_open hw) eqn:Ho; cbn;
    repeat split; auto; try discriminate; intros; discriminate.
Qed.

Lemma start_input_stream_facts i hw adev inp :
  let '(r, adev', inp', t) := start_input_stream i hw adev inp in
  ADev.active_out adev' = ADev.active_out adev /\
  resource_events Playback t = [] /\
  SIn.standby inp' = SIn.standby inp /\
  SIn.requested_rate inp' = SIn.requested_rate inp /\
  (r = 0 \/ r = - ENOMEM) /\
  (r = 0 -> ADev.active_in adev' = Some i /\ hw_open hw <> PcmOpenNotReady /\
            exists t', t = EvPcmOpen Capture (hw_open hw) :: t') /\
  (hw_open hw = PcmOpenNotReady ->
     r = - ENOMEM /\ adev' = adev /\ SIn.pcm inp' = ClosedPcm /\
     SIn.resampler inp' = SIn.resampler inp /\ SIn.buffer inp' = SIn.buffer inp /\
     t = [EvPcmOpen Capture PcmOpenNotReady; EvPcmClose Capture BadPcm]).
Proof.
  unfold start_input_stream.
  cbn [SIn.pcm SIn.set_pcm].
  destruct (hw_open hw) eqn:Ho; cbn [pcm_of_open pcm_is_null pcm_is_ready negb andb].
  - destruct (negb (in_get_sample_rate _ =? _)); [destruct (hw_resampler_ok hw)|];
      cbn; repeat split; auto; try discriminate; eauto.
  - cbn. repeat split; auto; discriminate.
  - destruct (negb (in_get_sample_rate _ =? _)); [destruct (hw_resampler_ok hw)|];
      cbn; repeat split; auto; try discriminate; eauto.
Qed.

Lemma out_write_wait_input_facts fuel :
  forall adev ins inp,
    let '(adev', ins', inp', in_locked, restart_input, t) :=
      out_write_wait_input fuel adev ins inp in
    ADev.active_out adev' = ADev.active_out adev /\
    resource_events Playback t = [].
Proof.
  induction fuel as [|fuel IH]; intros adev ins inp.
  - cbn. destruct inp as [i|]; [|auto].
    destruct (ins !! i) as [si|]; [|auto]. destruct (SIn.standby si); auto.
  - cbn [out_write_wait_input]. destruct inp as [i|]; [|auto].
    destruct (ins !! i) as [si|]; [|auto].
    destruct (SIn.standby si) eqn:Hsb; [auto|].
    destruct (bool_decide _).
    + cbn [SIn.standby in_lock SIn.set_lock_cnt SIn.set_sleep_req]. rewrite Hsb.
      cbn [negb].
      pose proof (do_in_standby_facts (adev_lock (adev_unlock adev))
                    (in_lock (SIn.set_sleep_req true si))) as H.
      destruct (do_in_standby _ _) as [[a s] t].
      destruct H as (Ha & _ & _ & Ht). split; [|exact Ht].
      rewrite Ha. destruct adev; reflexivity.
    + specialize (IH (adev_lock (adev_unlock adev))
                    (<[i := in_unlock (in_lock (SIn.set_sleep_req true si))]> ins)
                    (ADev.active_in (adev_lock (adev_unlock adev)))).
      destruct (out_write_wait_input _ _ _ _) as [[[[[a s] p] l] r] t].
      destruct IH as [Ha Ht]. split; [|exact Ht].
      rewrite Ha. destruct adev; reflexivity.
Qed.

Lemma in_read_wait_output_facts fuel :
  forall adev outs inp out,
    let '(adev', outs', inp', out', out_locked) :=
      in_read_wait_output fuel adev outs inp out in
    ADev.active_in adev' = ADev.active_in adev /\
    ADev.active_out adev' = ADev.active_out adev /\
    SIn.standby inp' = SIn.standby inp /\
    SIn.resampler inp' = SIn.resampler inp /\
    SIn.buffer inp' = SIn.buffer inp /\
    SIn.pcm_config inp' = SIn.pcm_config inp /\
    SIn.requested_rate inp' = SIn.requested_rate inp.
Proof.
  induction fuel as [|fuel IH]; intros adev outs inp out.
  - cbn. destruct out as [o|]; [|auto 10].
    destruct (outs !! o) as [so|]; [|auto 10]. destruct (SOut.standby so); auto 10.
  - cbn [in_read_wait_output]. destruct out as [o|]; [|auto 10].
    destruct (outs !! o) as [so|]; [|auto 10].
    destruct (SOut.standby so) eqn:Hsb; [auto 10|].
    destruct (bool_decide _).
    + destruct adev, inp; cbn; auto 10.
    + specialize (IH (adev_lock (adev_unlock adev))
                    (<[o := out_unlock (out_lock (SOut.set_sleep_req true so))]> outs)
                    (in_lock (in_unlock inp))
                    (ADev.active_out (adev_lock (adev_unlock adev)))).
      destruct (in_read_wait_output _ _ _ _ _) as [[[[a s] p] l] r].
      destruct IH as (H1 & H2 & H3 & H4 & H5 & H6 & H7).
      rewrite H1, H2, H3, H4, H5, H6, H7. destruct adev, inp; cbn; auto 10.
Qed.

(** The restart of the active output inside [in_read] touches neither the
    capture side nor the input registration. *)
Lemma in_read_exit_standby_failed i hw adev outs inp :
  hw_open (ir_start_in hw) = PcmOpenNotReady ->
  exists adev' outs' inp' t,
    in_read_exit_standby i hw adev outs inp = (- ENOMEM, adev', outs', inp', t) /\
    SIn.standby inp' = SIn.standby inp /\
    SIn.pcm inp' = ClosedPcm /\
    SIn.resampler inp' = SIn.resampler inp /\
    SIn.buffer inp' = SIn.buffer inp /\
    SIn.requested_rate inp' = SIn.requested_rate inp /\
    ADev.active_in adev' = ADev.active_in adev /\
    resource_events Capture t
      = [EvPcmOpen Capture PcmOpenNotReady; EvPcmClose Capture BadPcm].
Proof.
  intros Hopen. unfold in_read_exit_standby.
  pose proof (in_read_wait_output_facts 1 (adev_lock adev) outs inp
                (ADev.active_out (adev_lock adev))) as Hw.
  destruct (in_read_wait_output _ _ _ _ _) as [[[[a1 outs1] inp1] out] out_locked].
  destruct Hw as (Ha1 & _ & Hs1 & Hr1 & Hb1 & _ & Hq1).
  assert (Hout : exists a2 outs2 t_out,
             in_read_restart_output (ir_start_out hw) out out_locked a1 outs1
               = (a2, outs2, t_out) /\
             ADev.active_in a2 = ADev.active_in a1 /\
             resource_events Capture t_out = []).
  { unfold in_read_restart_output.
    destruct out as [o|]; [|eexists _, _, _; eauto].
    destruct (outs1 !! o) as [so|]; [|eexists _, _, _; eauto].
    destruct (negb (SOut.standby so)); [|eexists _, _, _; eauto].
    pose proof (do_out_standby_facts a1 so) as H1.
    destruct (do_out_standby a1 so) as [[a so'] t_sb].
    pose proof (start_output_stream_facts o (ir_start_out hw) a so') as H2.
    destruct (start_output_stream _ _ _ _) as [[[r a'] so''] t_start].
    destruct H1 as (H1a & _ & _ & H1t). destruct H2 as (H2a & H2t & _).
    eexists _, _, _. split; [reflexivity|]. split; [rewrite H2a; exact H1a|].
    rewrite resource_events_app, H1t, H2t. reflexivity. }
  destruct Hout as (a2 & outs2 & t_out & -> & Ha2 & Ht_out).
  pose proof (start_input_stream_facts i (ir_start_in hw) a2 inp1) as H3.
  destruct (start_input_stream _ _ _ _) as [[[r a3] inp3] t_in].
  destruct H3 as (_ & _ & Hs3 & Hq3 & _ & _ & Hfail).
  destruct (Hfail Hopen) as (-> & -> & Hp3 & Hr3 & Hb3 & ->).
  change (- ENOMEM =? 0) with false. cbv iota.
  eexists _, _, _, _. split; [reflexivity|].
  repeat split; try congruence.
  - transitivity (ADev.active_in a2); [destruct a2; reflexivity|].
    rewrite Ha2, Ha1. destruct adev; reflexivity.
  - rewrite !resource_events_app, Ht_out. reflexivity.
Qed.

Lemma out_write_exit_standby_failed o hw adev out ins :
  hw_open (ow_start_out hw) = PcmOpenNotReady ->
  exists adev' out' ins' t,
    out_write_exit_standby o hw adev out ins = (- ENOMEM, adev', out', ins', t) /\
    SOut.standby out' = SOut.standby out /\
    SOut.pcm out' = ClosedPcm /\
    SOut.resampler out' = SOut.resampler out /\
    SOut.buffer out' = SOut.buffer out /\
    ADev.active_out adev' = ADev.active_out adev /\
    resource_events Playback t
      = [EvPcmOpen Playback PcmOpenNotReady; EvPcmClose Playback BadPcm].
Proof.
  intros Hopen. unfold out_write_exit_standby.
  pose proof (out_write_wait_input_facts 1 (adev_lock adev) ins
                (ADev.active_in (adev_lock adev))) as Hw.
  destruct (out_write_wait_input _ _ _ _) as [[[[[a1 ins1] inp] in_locked] restart] t_wait].
  destruct Hw as [Ha1 Ht1].
  pose proof (start_output_stream_facts o (ow_start_out hw) a1 out) as H2.
  destruct (start_output_stream _ _ _ _) as [[[r a2] out2] t_start].
  destruct H2 as (_ & _ & Hr2 & Hb2 & Hs2 & _ & _ & _ & Hfail).
  destruct (Hfail Hopen) as (-> & -> & Hp2 & ->).
  change (- ENOMEM =? 0) with false. cbn [negb].
  eexists _, _, _, _. split; [reflexivity|].
  repeat split; try assumption.
  rewrite resource_events_app, Ht1. reflexivity.
Qed.

(** C6, as the code has it.  When the handle opened while a stream leaves
    standby is not ready, [start_output_stream] and [start_input_stream] close
    it and return [-ENOMEM]; the [out_write] or [in_read] that triggered the
    start does not hand that status on: it returns the caller's byte count,
    after the compensating sleep, which [in_read] computes by dividing by the
    requested rate of the stream, here other than 0.  The stream is still in
    standby, holds a closed handle, has the resampler and buffer fields it
    had, the registration of its direction is the one found, and the only
    resource calls made for its direction are the open and the close of that
    handle. *)
Theorem failed_open_keeps_stream_in_standby :
  (forall o hw adev out,
     hw_open hw = PcmOpenNotReady ->
     fst (fst (fst (start_output_stream o hw adev out))) = - ENOMEM) /\
  (forall i hw adev inp,
     hw_open hw = PcmOpenNotReady ->
     fst (fst (fst (start_input_stream i hw adev inp))) = - ENOMEM) /\
  (forall o bytes hw w out,
     outs w !! o = Some out ->
     SOut.standby out = true ->
     hw_open (ow_start_out hw) = PcmOpenNotReady ->
     0 <= bytes < 2 ^ 31 ->
     exists adev' out' ins' t,
       out_write o bytes hw w
         = Some (bytes, mk_world adev' (<[o := out']> (outs w)) ins',
                 t ++ [EvUsleep (u32 (bytes * 1000000) / audio_stream_out_frame_size
                                 / out_get_sample_rate)]) /\
       SOut.standby out' = true /\
       SOut.pcm out' = ClosedPcm /\
       SOut.resampler out' = SOut.resampler out /\
       SOut.buffer out' = SOut.buffer out /\
       ADev.active_out adev' = ADev.active_out (adev w) /\
       resource_events Playback t
         = [EvPcmOpen Playback PcmOpenNotReady; EvPcmClose Playback BadPcm]) /\
  (forall i bytes hw w inp,
     ins w !! i = Some inp ->
     SIn.standby inp = true ->
     SIn.requested_rate inp <> 0 ->
     hw_open (ir_start_in hw) = PcmOpenNotReady ->
     0 <= bytes < 2 ^ 31 ->
     exists adev' outs' inp' t,
       in_read i bytes hw w
         = Some (bytes, mk_world adev' outs' (<[i := inp']> (ins w)),
                 t ++ [EvUsleep (u32 (u32 (bytes * 1000000) / audio_stream_in_frame_size
                                      / in_get_sample_rate inp))]) /\
       SIn.standby inp' = true /\
       SIn.pcm inp' = ClosedPcm /\
       SIn.resampler inp' = SIn.resampler inp /\
       SIn.buffer inp' = SIn.buffer inp /\
       ADev.active_in adev' = ADev.active_in (adev w) /\
       resource_events Capture t
         = [EvPcmOpen Capture PcmOpenNotReady; EvPcmClose Capture BadPcm]).
Proof.
  split; [|split; [|split]].
  - intros o hw adev out Hopen.
    pose proof (start_output_stream_facts o hw adev out) as H.
    destruct (start_output_stream _ _ _ _) as [[[r a] s] t].
    destruct H as (_ & _ & _ & _ & _ & _ & _ & _ & Hfail).
    destruct (Hfail Hopen) as [-> _]. reflexivity.
  - intros i hw adev inp Hopen.
    pose proof (start_input_stream_facts i hw adev inp) as H.
    destruct (start_input_stream _ _ _ _) as [[[r a] s] t].
    destruct H as (_ & _ & _ & _ & _ & _ & Hfail).
    destruct (Hfail Hopen) as [-> _]. reflexivity.
  - intros o bytes hw w out Hlook Hsb Hopen Hbytes.
    destruct (out_write_exit_standby_failed o hw (adev w) (out_lock out) (ins w) Hopen)
      as (adev' & out' & ins' & t & E & Hs & Hp & Hr & Hb & Ha & Ht).
    unfold out_write. rewrite Hlook.
    cbn [SOut.standby out_lock SOut.set_lock_cnt]. rewrite Hsb.
    change (SOut.set_lock_cnt (s32 (SOut.lock_cnt out + 1)) out) with (out_lock out).
    rewrite E. change (negb (- ENOMEM =? 0)) with true. cbv iota.
    unfold out_write_exit. change (negb (- ENOMEM =? 0)) with true. cbv iota.
    rewrite (s32_id bytes) by (unfold int_range; lia).
    rewrite u32_quotients by reflexivity.
    exists adev', (out_unlock out'), ins',
      ((if SOut.sleep_req out then [EvUsleep 10000] else []) ++ t).
    split; [rewrite <- app_assoc; reflexivity|].
    repeat split; try assumption.
    + transitivity (SOut.standby out'); [destruct out'; reflexivity|].
      rewrite Hs. exact Hsb.
    + rewrite resource_events_app, Ht. destruct (SOut.sleep_req out); reflexivity.
  - intros i bytes hw w inp Hlook Hsb Hrate Hopen Hbytes.
    destruct (in_read_exit_standby_failed i hw (adev w) (outs w) (in_lock inp) Hopen)
      as (adev' & outs' & inp' & t & E & Hs & Hp & Hr & Hb & Hq & Ha & Ht).
    unfold in_read. rewrite Hlook.
    cbn [SIn.standby in_lock SIn.set_lock_cnt]. rewrite Hsb.
    change (SIn.set_lock_cnt (s32 (SIn.lock_cnt inp + 1)) inp) with (in_lock inp).
    rewrite E. unfold in_read_body. change (- ENOMEM <? 0) with true. cbv iota.
    rewrite (s32_id bytes) by (unfold int_range; lia).
    unfold in_get_sample_rate. rewrite Hq. cbn [SIn.requested_rate in_lock SIn.set_lock_cnt].
    destruct (Z.eqb_spec (SIn.requested_rate inp) 0) as [H0|_]; [contradiction|].
    cbn [andb].
    exists adev', outs', (in_unlock inp'),
      ((if SIn.sleep_req inp then [EvUsleep 10000] else []) ++ t).
    split; [rewrite <- !app_assoc; reflexivity|].
    repeat split; try assumption.
    + transitivity (SIn.standby inp'); [destruct inp'; reflexivity|].
      rewrite Hs. exact Hsb.
    + rewrite resource_events_app, Ht. destruct (SIn.sleep_req inp); reflexivity.
Qed.

Lemma failed_open_keeps_stream_in_standby_witness :
  fst (fst (fst (start_output_stream 0 start_not_ready (adev adev_open) out_in_standby)))
    = - ENOMEM /\
  fst (fst (fst (start_input_stream 0 start_not_ready (adev adev_open) in_in_standby)))
    = - ENOMEM /\
  (exists w' t, out_write 0 4096 out_write_not_ready world_opened
                = Some (4096, w', t ++ [EvUsleep 23219])) /\
  (exists w' t, in_read 0 2048 in_read_not_ready world_opened
                = Some (2048, w', t ++ [EvUsleep 23219])).
Proof.
  destruct failed_open_keeps_stream_in_standby as (H1 & H2 & H3 & H4).
  split; [apply H1; reflexivity|]. split; [apply H2; reflexivity|]. split.
  - destruct (H3 0%nat 4096 out_write_not_ready world_opened out_in_standby
                eq_refl eq_refl eq_refl ltac:(lia))
      as (adev' & out' & ins' & t & E & _).
    eexists _, t. exact E.
  - destruct (H4 0%nat 2048 in_read_not_ready world_opened in_in_standby
                eq_refl eq_refl ltac:(discriminate) eq_refl ltac:(lia))
      as (adev' & outs' & inp' & t & E & _).
    eexists _, t. exact E.
Defined.

(** C6 as stated fails: an [out_write] of 4096 bytes on a stream in standby
    whose handle does not open returns 4096, not a negative status. *)
Lemma failed_open_is_not_reported :
  exists w',
    out_write 0 4096 out_write_not_ready world_opened
      = Some (4096, w',
              [EvPcmOpen Playback PcmOpenNotReady; EvPcmClose Playback BadPcm;
               EvUsleep 23219]) /\
    ~ 4096 < 0 /\
    (exists out', outs w' !! 0%nat = Some out' /\ SOut.standby out' = true).
Proof.
  eexists. split; [vm_compute; reflexivity|]. split; [lia|].
  eexists. split; [vm_compute; reflexivity|]. reflexivity.
Qed.

(** ** Both directions after an activation *)

Lemma both_directions_active_excludes w :
  both_directions_active w -> ~ at_most_one_direction_active w.
Proof.
  intros (o & i & so & si & Ho & Hi & Hso & Hsi & Hs1 & Hs2) H.
  destruct (H o i so si Ho Hi Hso Hsi) as [E|E]; congruence.
Qed.

Lemma do_in_standby_active adev inp :
  SIn.standby inp = false ->
  exists inp' t_release,
    do_in_standby adev inp
      = (ADev.set_active_in None adev, inp',
         EvPcmClose Capture (SIn.pcm inp) :: t_release) /\
    SIn.standby inp' = true /\
    forallb is_release t_release = true.
Proof.
  intros Hs. unfold do_in_standby. rewrite Hs. cbn [negb].
  destruct (SIn.resampler _), (SIn.buffer _); cbn;
    eexists _, _; split; try reflexivity; split; reflexivity.
Qed.

Lemma do_out_standby_active adev out :
  SOut.standby out = false ->
  exists out' t_release,
    do_out_standby adev out
      = (ADev.set_active_out None adev, out',
         EvPcmClose Playback (SOut.pcm out) :: t_release) /\
    SOut.standby out' = true /\
    forallb is_release t_release = true.
Proof.
  intros Hs. unfold do_out_standby. rewrite Hs. cbn [negb].
  destruct (SOut.resampler _), (SOut.buffer _); cbn;
    eexists _, _; split; try reflexivity; split; reflexivity.
Qed.

Lemma start_output_stream_ready o hw adev out :
  hw_open hw = PcmOpenReady ->
  exists out',
    start_output_stream o hw adev out
      = (0, ADev.set_active_out (Some o) adev, out', [EvPcmOpen Playback PcmOpenReady]).
Proof.
  intros Ho. unfold start_output_stream, start_output_stream_at.
  change (negb (out_get_sample_rate =? rate pcm_config_out)) with false.
  cbn [SOut.pcm SOut.set_pcm]. rewrite Ho. cbn. eexists. reflexivity.
Qed.

Lemma start_input_stream_ready i hw adev inp :
  hw_open hw = PcmOpenReady ->
  exists inp' t_alloc,
    start_input_stream i hw adev inp
      = (0, ADev.set_active_in (Some i) adev, inp',
         EvPcmOpen Capture PcmOpenReady :: t_alloc).
Proof.
  intros Ho. unfold start_input_stream.
  cbn [SIn.pcm SIn.set_pcm]. rewrite Ho.
  cbn [pcm_of_open pcm_is_null pcm_is_ready negb andb].
  destruct (negb (in_get_sample_rate _ =? _)); [destruct (hw_resampler_ok hw)|];
    cbn; eexists _, _; reflexivity.
Qed.

(** With nothing running between the two reads of the registration, the
    first pass of either lock-taking loop leaves it: more fuel changes
    nothing. *)
Lemma out_write_wait_input_one_pass n adev ins :
  out_write_wait_input (S n) adev ins (ADev.active_in adev)
    = out_write_wait_input 1 adev ins (ADev.active_in adev).
Proof.
  cbn [out_write_wait_input].
  destruct (ADev.active_in adev) as [i|] eqn:Hact; [|reflexivity].
  destruct (ins !! i) as [si|]; [|reflexivity].
  destruct (SIn.standby si); [reflexivity|].
  replace (ADev.active_in (adev_lock (adev_unlock adev))) with (Some i)
    by (rewrite <- Hact; destruct adev; reflexivity).
  rewrite bool_decide_eq_true_2 by reflexivity. reflexivity.
Qed.

Lemma in_read_wait_output_one_pass n adev outs inp :
  in_read_wait_output (S n) adev outs inp (ADev.active_out adev)
    = in_read_wait_output 1 adev outs inp (ADev.active_out adev).
Proof.
  cbn [in_read_wait_output].
  destruct (ADev.active_out adev) as [o|] eqn:Hact; [|reflexivity].
  destruct (outs !! o) as [so|]; [|reflexivity].
  destruct (SOut.standby so); [reflexivity|].
  replace (ADev.active_out (adev_lock (adev_unlock adev))) with (Some o)
    by (rewrite <- Hact; destruct adev; reflexivity).
  rewrite bool_decide_eq_true_2 by reflexivity. reflexivity.
Qed.

(** C1, as the code has it.  An activation that finds the opposite direction
    active closes the handle of the opposite stream and opens it again:
    [out_write] leaving standby closes the active input, opens the output and
    then reopens the input; [in_read] leaving standby closes the active
    output, reopens it and then opens the input.  When the handles open, the
    block ends with both streams registered and out of standby. *)
Theorem activation_restarts_opposite_stream :
  (forall o hw adev out ins outs i si,
     ADev.active_in adev = Some i ->
     ins !! i = Some si ->
     SIn.standby si = false ->
     hw_open (ow_start_out hw) = PcmOpenReady ->
     hw_open (ow_start_in hw) = PcmOpenReady ->
     exists adev' out' si' t_release t_rest,
       out_write_exit_standby o hw adev out ins
         = (0, adev', out', <[i := si']> ins,
            EvPcmClose Capture (SIn.pcm si) :: t_release
            ++ EvPcmOpen Playback PcmOpenReady
               :: EvPcmOpen Capture PcmOpenReady :: t_rest) /\
       forallb is_release t_release = true /\
       both_directions_active
         (mk_world adev' (<[o := out']> outs) (<[i := si']> ins))) /\
  (forall i hw adev outs ins inp o so,
     ADev.active_out adev = Some o ->
     outs !! o = Some so ->
     SOut.standby so = false ->
     hw_open (ir_start_out hw) = PcmOpenReady ->
     hw_open (ir_start_in hw) = PcmOpenReady ->
     exists adev' so' inp' t_release t_rest,
       in_read_exit_standby i hw adev outs inp
         = (0, adev', <[o := so']> outs, inp',
            EvPcmClose Playback (SOut.pcm so) :: t_release
            ++ EvPcmOpen Playback PcmOpenReady
               :: EvPcmOpen Capture PcmOpenReady :: t_rest) /\
       forallb is_release t_release = true /\
       both_directions_active
         (mk_world adev' (<[o := so']> outs) (<[i := inp']> ins))).
Proof.
  split.
  - intros o hw adev out ins outs i si Hact Hlook Hsb Hoo Hoi.
    unfold out_write_exit_standby.
    cbn [out_write_wait_input]. 
    replace (ADev.active_in (adev_lock adev)) with (Some i)
      by (rewrite <- Hact; destruct adev; reflexivity).
    rewrite Hlook, Hsb.
    replace (ADev.active_in (adev_lock (adev_unlock (adev_lock adev)))) with (Some i)
      by (rewrite <- Hact; destruct adev; reflexivity).
    rewrite bool_decide_eq_true_2 by reflexivity.
    cbn [SIn.standby in_lock SIn.set_lock_cnt SIn.set_sleep_req]. rewrite Hsb.
    cbn [negb].
    change (SIn.set_lock_cnt _ (SIn.mk _ _ _ _ _ _ _ _ _ _ _))
      with (in_lock (SIn.set_sleep_req true si)).
    destruct (do_in_standby_active (adev_lock (adev_unlock (adev_lock adev)))
                (in_lock (SIn.set_sleep_req true si)))
      as (si1 & t_release & -> & Hs1 & Hrel);
      [destruct si; exact Hsb|].
    destruct (start_output_stream_ready o (ow_start_out hw)
                (ADev.set_active_in None (adev_lock (adev_unlock (adev_lock adev))))
                out Hoo) as (out1 & ->).
    cbn [Z.eqb negb]. unfold out_write_restart_input.
    rewrite lookup_insert_eq. rewrite Hs1. cbn [andb].
    destruct (start_input_stream_ready i (ow_start_in hw)
                (ADev.set_active_out (Some o)
                   (ADev.set_active_in None (adev_lock (adev_unlock (adev_lock adev)))))
                si1 Hoi) as (si2 & t_alloc & ->).
    cbn [Z.eqb]. rewrite insert_insert_eq.
    eexists _, _, _, t_release, _. split; [|split; [exact Hrel|]].
    + cbn [app SIn.pcm in_lock SIn.set_lock_cnt SIn.set_sleep_req].
      repeat rewrite <- app_assoc. cbn [app]. reflexivity.
    + eexists o, i, _, _. simpl.
      rewrite !lookup_insert_eq.
      repeat split; reflexivity.
  - intros i hw adev outs ins inp o so Hact Hlook Hsb Hoo Hoi.
    unfold in_read_exit_standby.
    cbn [in_read_wait_output].
    replace (ADev.active_out (adev_lock adev)) with (Some o)
      by (rewrite <- Hact; destruct adev; reflexivity).
    rewrite Hlook, Hsb.
    replace (ADev.active_out (adev_lock (adev_unlock (adev_lock adev)))) with (Some o)
      by (rewrite <- Hact; destruct adev; reflexivity).
    rewrite bool_decide_eq_true_2 by reflexivity.
    unfold in_read_restart_output.
    rewrite lookup_insert_eq.
    cbn [SOut.standby out_lock SOut.set_lock_cnt SOut.set_sleep_req]. rewrite Hsb.
    cbn [negb].
    change (SOut.set_lock_cnt _ (SOut.mk _ _ _ _ _ _ _ _ _ _ _ _))
      with (out_lock (SOut.set_sleep_req true so)).
    destruct (do_out_standby_active (adev_lock (adev_unlock (adev_lock adev)))
                (out_lock (SOut.set_sleep_req true so)))
      as (so1 & t_release & -> & Hs1 & Hrel);
      [destruct so; exact Hsb|].
    destruct (start_output_stream_ready o (ir_start_out hw)
                (ADev.set_active_out None (adev_lock (adev_unlock (adev_lock adev))))
                so1 Hoo) as (so2 & ->).
    rewrite insert_insert_eq.
    destruct (start_input_stream_ready i (ir_start_in hw)
                (ADev.set_active_out (Some o)
                   (ADev.set_active_out None (adev_lock (adev_unlock (adev_lock adev)))))
                (in_lock (in_unlock inp)) Hoi) as (inp2 & t_alloc & ->).
    cbn [Z.eqb].
    eexists _, _, _, t_release, _. split; [|split; [exact Hrel|]].
    + cbn [app SOut.pcm out_lock SOut.set_lock_cnt SOut.set_sleep_req].
      repeat rewrite <- app_assoc. cbn [app]. reflexivity.
    + eexists o, i, _, _. simpl.
      rewrite !lookup_insert_eq.
      repeat split; reflexivity.
Qed.

Lemma activation_restarts_opposite_stream_witness :
  (exists adev' out' si' t_release t_rest,
     out_write_exit_standby 0 (out_write_ok 0)
       (ADev.set_active_in (Some 0%nat) (adev adev_open)) out_in_standby
       {[ 0%nat := in_started ]}
       = (0, adev', out', <[0%nat := si']> {[ 0%nat := in_started ]},
          EvPcmClose Capture (SIn.pcm in_started) :: t_release
          ++ EvPcmOpen Playback PcmOpenReady
             :: EvPcmOpen Capture PcmOpenReady :: t_rest) /\
     forallb is_release t_release = true /\
     both_directions_active
       (mk_world adev' (<[0%nat := out']> {[ 0%nat := out_in_standby ]})
          (<[0%nat := si']> {[ 0%nat := in_started ]}))) /\
  (exists adev' so' inp' t_release t_rest,
     in_read_exit_standby 0 in_read_ok
       (ADev.set_active_out (Some 0%nat) (adev adev_open))
       {[ 0%nat := out_started ]} in_in_standby
       = (0, adev', <[0%nat := so']> {[ 0%nat := out_started ]}, inp',
          EvPcmClose Playback (SOut.pcm out_started) :: t_release
          ++ EvPcmOpen Playback PcmOpenReady
             :: EvPcmOpen Capture PcmOpenReady :: t_rest) /\
     forallb is_release t_release = true /\
     both_directions_active
       (mk_world adev' (<[0%nat := so']> {[ 0%nat := out_started ]})
          (<[0%nat := inp']> {[ 0%nat := in_in_standby ]}))).
Proof.
  destruct activation_restarts_opposite_stream as [Hout Hin].
  split.
  - apply (Hout 0%nat (out_write_ok 0)
             (ADev.set_active_in (Some 0%nat) (adev adev_open)) out_in_standby
             {[ 0%nat := in_started ]} {[ 0%nat := out_in_standby ]} 0%nat in_started);
      reflexivity.
  - apply (Hin 0%nat in_read_ok
             (ADev.set_active_out (Some 0%nat) (adev adev_open))
             {[ 0%nat := out_started ]} {[ 0%nat := in_in_standby ]} in_in_standby
             0%nat out_started);
      reflexivity.
Defined.

Lemma api_runs_reachable cs :
  forall w w', reachable w -> api_runs cs w = Some w' -> reachable w'.
Proof.
  induction cs as [|c cs IH]; intros w w' Hr E; cbn [api_runs] in E.
  - inversion E; subst. exact Hr.
  - destruct (api_run c w) as [[[r w1] t]|] eqn:E1; [|discriminate].
    apply (IH w1 w'); [|exact E].
    apply (reachable_call w c r w1 t Hr E1).
Qed.

(** C1 as stated fails: after opening both streams, one [in_read] and then
    one [out_write], with every handle opening, the registered output and the
    registered input are both out of standby. *)
Lemma both_directions_active_reachable :
  exists w,
    api_runs capture_then_playback adev_open = Some w /\
    reachable w /\
    both_directions_active w /\
    ~ at_most_one_direction_active w.
Proof.
  destruct (api_runs capture_then_playback adev_open) as [w|] eqn:E;
    [|vm_compute in E; discriminate].
  exists w. split; [reflexivity|].
  assert (Hb : both_directions_active w).
  { vm_compute in E. inversion E; subst; clear E.
    eexists 0%nat, 0%nat, _, _. repeat split; vm_compute; reflexivity. }
  split; [|split; [exact Hb|]].
  - apply (api_runs_reachable capture_then_playback adev_open w reachable_open E).
  - apply both_directions_active_excludes. exact Hb.
Qed.

(** ** No resampling on the output side *)

Lemma no_output_resampling_app t1 t2 :
  no_output_resampling (t1 ++ t2)
    = no_output_resampling t1 && no_output_resampling t2.
Proof. unfold no_output_resampling. apply forallb_app. Qed.

Lemma outputs_plain_insert m o so :
  outputs_plain m -> out_plain so -> outputs_plain (<[o := so]> m).
Proof.
  intros Hm Hso o' so' E. destruct (decide (o = o')) as [->|Hne].
  - rewrite lookup_insert_eq in E. inversion E; subst. exact Hso.
  - rewrite lookup_insert_ne in E by exact Hne. exact (Hm o' so' E).
Qed.

Lemma outputs_plain_delete m o :
  outputs_plain m -> outputs_plain (delete o m).
Proof.
  intros Hm o' so' E. destruct (decide (o = o')) as [->|Hne].
  - rewrite lookup_delete_eq in E. discriminate.
  - rewrite lookup_delete_ne in E by exact Hne. exact (Hm o' so' E).
Qed.

Ltac plain_fields :=
  match goal with
  | H : out_plain ?s |- out_plain _ =>
    unfold out_plain in *; destruct s; cbn in *; exact H
  end.

Lemma do_out_standby_plain adev out :
  out_plain out ->
  let '(_, out', t) := do_out_standby adev out in
  out_plain out' /\ no_output_resampling t = true.
Proof.
  intros (Hr & Hb & Hc). unfold do_out_standby, out_plain.
  destruct out; cbn in *. subst.
  destruct standby; cbn; auto.
Qed.

Lemma start_output_stream_plain o hw adev out :
  out_plain out ->
  let '(_, _, out', t) := start_output_stream o hw adev out in
  out_plain out' /\ no_output_resampling t = true.
Proof.
  intros (Hr & Hb & Hc). unfold start_output_stream, start_output_stream_at.
  change (negb (out_get_sample_rate =? rate pcm_config_out)) with false.
  cbn [SOut.pcm SOut.set_pcm].
  destruct (hw_open hw); cbn;
    (split; [|reflexivity]); unfold out_plain; destruct out; cbn in *; auto.
Qed.

Lemma out_standby_plain adev out :
  out_plain out ->
  let '(_, _, out', t) := out_standby adev out in
  out_plain out' /\ no_output_resampling t = true.
Proof.
  intros H. unfold out_standby.
  pose proof (do_out_standby_plain (adev_lock adev)
                (SOut.set_sleep_req false (out_lock (SOut.set_sleep_req true out)))) as H1.
  destruct (do_out_standby _ _) as [[a s] t].
  destruct H1 as [Hs Ht]; [plain_fields|].
  split; [plain_fields|exact Ht].
Qed.

Lemma out_set_parameters_plain ret value adev out :
  out_plain out ->
  let '(_, _, out', t) := out_set_parameters ret value adev out in
  out_plain out' /\ no_output_resampling t = true.
Proof.
  intros H. unfold out_set_parameters.
  set (out1 := SOut.set_sleep_req false (out_lock (SOut.set_sleep_req true out))).
  assert (H1 : out_plain out1) by (subst out1; plain_fields).
  clearbody out1.
  destruct (ret >=? 0); [|split; [plain_fields|reflexivity]].
  destruct (negb (ADev.out_device (adev_lock adev) =? u32 value)
            && negb (u32 value =? 0));
    [|split; [plain_fields|reflexivity]].
  destruct (negb (ADev.out_device (adev_lock adev) =? u32 value));
    [|split; [plain_fields|reflexivity]].
  destruct (negb (bool_decide _)); [|split; [plain_fields|reflexivity]].
  destruct (negb (SOut.standby out1)); [|split; [plain_fields|reflexivity]].
  pose proof (do_out_standby_plain (adev_lock adev) out1 H1) as H2.
  destruct (do_out_standby _ _) as [[a s] t]. destruct H2 as [Hs Ht].
  split; [plain_fields|exact Ht].
Qed.

Lemma out_get_presentation_position_plain ht out r frames out' t :
  out_plain out ->
  out_get_presentation_position ht out = Some (r, frames, out', t) ->
  out_plain out' /\ no_output_resampling t = true.
Proof.
  intros H E. unfold out_get_presentation_position in E.
  repeat (match type of E with
          | context [if ?b then _ else _] => destruct b
          | context [match ?x with _ => _ end] => destruct x
          end; try discriminate);
    inversion E; subst; (split; [plain_fields|reflexivity]).
Qed.

Lemma do_in_standby_clean adev inp :
  no_output_resampling (snd (do_in_standby adev inp)) = true.
Proof.
  unfold do_in_standby.
  destruct (negb _); [|reflexivity].
  destruct (SIn.resampler _), (SIn.buffer _); reflexivity.
Qed.

Lemma start_input_stream_clean i hw adev inp :
  no_output_resampling (snd (start_input_stream i hw adev inp)) = true.
Proof.
  unfold start_input_stream.
  destruct (_ && _); [reflexivity|].
  destruct (negb _); [destruct (hw_resampler_ok hw)|]; reflexivity.
Qed.

Lemma in_standby_clean adev inp :
  no_output_resampling (snd (in_standby adev inp)) = true.
Proof.
  unfold in_standby.
  pose proof (do_in_standby_clean (adev_lock adev)
                (SIn.set_sleep_req false (in_lock (SIn.set_sleep_req true inp)))) as H.
  destruct (do_in_standby _ _) as [[a s] t]. exact H.
Qed.

Lemma in_set_parameters_clean ret_source source ret_routing routing adev inp :
  no_output_resampling
    (snd (in_set_parameters ret_source source ret_routing routing adev inp)) = true.
Proof.
  unfold in_set_parameters.
  set (inp1 := SIn.set_sleep_req false (in_lock (SIn.set_sleep_req true inp))).
  clearbody inp1.
  assert (Hsrc : exists a1 t_src,
             (if ret_source >=? 0 then
                if negb (ADev.in_source (adev_lock adev) =? u32 source)
                then (ADev.set_in_source (u32 source) (adev_lock adev),
                      [EvSelectInputSource (u32 source)])
                else (adev_lock adev, [])
              else (adev_lock adev, [])) = (a1, t_src) /\
             no_output_resampling t_src = true).
  { destruct (ret_source >=? 0); [destruct (negb _)|];
      eexists _, _; split; reflexivity. }
  destruct Hsrc as (a1 & t_src & -> & Hsrc).
  destruct (ret_routing >=? 0);
    [|cbn; rewrite no_output_resampling_app, Hsrc; reflexivity].
  destruct (_ && _); [|cbn; rewrite no_output_resampling_app, Hsrc; reflexivity].
  destruct (negb (bool_decide _));
    [|cbn; rewrite no_output_resampling_app, Hsrc; reflexivity].
  destruct (negb (SIn.standby inp1));
    [|cbn; rewrite no_output_resampling_app, Hsrc; reflexivity].
  pose proof (do_in_standby_clean a1 inp1) as H.
  destruct (do_in_standby _ _) as [[a s] t]. cbn [snd] in *.
  rewrite no_output_resampling_app, Hsrc, H. reflexivity.
Qed.

Lemma out_write_wait_input_clean fuel :
  forall adev ins inp,
    no_output_resampling (snd (out_write_wait_input fuel adev ins inp)) = true.
Proof.
  induction fuel as [|fuel IH]; intros adev ins inp.
  - cbn. destruct inp as [i|]; [|reflexivity].
    destruct (ins !! i) as [si|]; [|reflexivity]. destruct (SIn.standby si); reflexivity.
  - cbn [out_write_wait_input]. destruct inp as [i|]; [|reflexivity].
    destruct (ins !! i) as [si|]; [|reflexivity].
    destruct (SIn.standby si); [reflexivity|].
    destruct (bool_decide _); [|apply IH].
    destruct (negb _); [|reflexivity].
    pose proof (do_in_standby_clean (adev_lock (adev_unlock adev))
                  (in_lock (SIn.set_sleep_req true si))) as H.
    destruct (do_in_standby _ _) as [[a s] t]. exact H.
Qed.

Lemma out_write_restart_input_clean hw inp in_locked restart_input adev ins :
  no_output_resampling
    (snd (out_write_restart_input hw inp in_locked restart_input adev ins)) = true.
Proof.
  unfold out_write_restart_input.
  destruct inp as [i|]; [|reflexivity].
  destruct (ins !! i) as [si|]; [|reflexivity].
  destruct (restart_input && SIn.standby si); [|reflexivity].
  pose proof (start_input_stream_clean i hw adev si) as H.
  destruct (start_input_stream _ _ _ _) as [[[r a] s] t].
  destruct (r =? 0); exact H.
Qed.

Lemma out_write_exit_standby_plain o hw adev out ins :
  out_plain out ->
  let '(_, _, out', _, t) := out_write_exit_standby o hw adev out ins in
  out_plain out' /\ no_output_resampling t = true.
Proof.
  intros H. unfold out_write_exit_standby.
  pose proof (out_write_wait_input_clean 1 (adev_lock adev) ins
                (ADev.active_in (adev_lock adev))) as H1.
  destruct (out_write_wait_input _ _ _ _) as [[[[[a1 ins1] inp] in_locked] restart] t_wait].
  cbn [snd] in H1.
  pose proof (start_output_stream_plain o (ow_start_out hw) a1 out H) as H2.
  destruct (start_output_stream _ _ _ _) as [[[r a2] out2] t_start].
  destruct H2 as [Hp2 Ht2].
  destruct (negb (r =? 0)).
  - split; [exact Hp2|]. rewrite no_output_resampling_app, H1, Ht2. reflexivity.
  - pose proof (out_write_restart_input_clean (ow_start_in hw) inp in_locked restart
                  a2 ins1) as H3.
    destruct (out_write_restart_input _ _ _ _ _ _) as [[a3 ins3] t_in].
    cbn [snd] in H3. split; [plain_fields|].
    rewrite !no_output_resampling_app, H1, Ht2, H3. reflexivity.
Qed.

Lemma pacing_loop_clean fuel :
  forall hts k bufsz hw_rate cur kf total kf' total' t,
    pacing_loop fuel hts k bufsz hw_rate cur kf total = Some (kf', total', t) ->
    no_output_resampling t = true.
Proof.
  induction fuel as [|fuel IH]; intros hts k bufsz hw_rate cur kf total kf' total' t E;
    [discriminate|].
  cbn [pacing_loop] in E.
  destruct (hts k) as [avail|]; [|inversion E; reflexivity].
  cbv zeta in E.
  destruct (_ >? cur); [|inversion E; reflexivity].
  destruct (_ <? MIN_WRITE_SLEEP_US); [inversion E; reflexivity|].
  destruct (_ && _); [|inversion E; reflexivity].
  destruct (pacing_loop fuel _ _ _ _ _ _ _) as [[[kf1 total1] t1]|] eqn:E1;
    [|discriminate].
  inversion E; subst. cbn. exact (IH _ _ _ _ _ _ _ _ _ _ E1).
Qed.

Lemma select_buffer_type_plain adev cfg out :
  out_plain out -> out_plain (select_buffer_type adev cfg out).
Proof.
  intros H. unfold select_buffer_type.
  repeat (match goal with |- context [if ?b then _ else _] => destruct b end);
    plain_fields.
Qed.

Lemma out_write_body_plain bytes hw adev out r out' t :
  out_plain out ->
  out_write_body bytes hw adev out = Some (r, out', t) ->
  out_plain out' /\ no_output_resampling t = true.
Proof.
  intros H E. unfold out_write_body in E.
  destruct (SOut.pcm_config out) as [cfg|] eqn:Hcfg; [|discriminate].
  assert (cfg = pcm_config_out) as ->.
  { destruct H as (_ & _ & [Hc|Hc]); congruence. }
  change (negb (out_get_sample_rate =? rate pcm_config_out)) with false in E.
  cbv iota in E.
  pose proof (select_buffer_type_plain adev pcm_config_out out H) as H2.
  set (out2 := select_buffer_type adev pcm_config_out out) in *. clearbody out2.
  destruct (pacing_loop _ _ _ _ _ _ _ _) as [[[kf total] t_pace]|] eqn:Ep;
    [|discriminate].
  pose proof (pacing_loop_clean _ _ _ _ _ _ _ _ _ _ _ Ep) as Hpace.
  destruct (ow_pcm_write hw =? - EPIPE).
  - inversion E; subst. split; [plain_fields|].
    rewrite !no_output_resampling_app, Hpace. reflexivity.
  - unfold out_write_exit in E.
    destruct (ow_pcm_write hw =? 0); inversion E; subst;
      (split; [plain_fields|]);
      rewrite !no_output_resampling_app, Hpace; reflexivity.
Qed.

Lemma out_write_plain o bytes hw w r w' t :
  outputs_plain (outs w) ->
  out_write o bytes hw w = Some (r, w', t) ->
  outputs_plain (outs w') /\ no_output_resampling t = true.
Proof.
  intros Hw E. unfold out_write in E.
  destruct (outs w !! o) as [out|] eqn:Hlook; [|discriminate].
  pose proof (Hw o out Hlook) as Hout.
  assert (Hsb : exists ret a out1 ins1 t_sb,
             (if SOut.standby (out_lock out)
              then out_write_exit_standby o hw (adev w) (out_lock out) (ins w)
              else (0, adev w, out_lock out, ins w, [])) = (ret, a, out1, ins1, t_sb) /\
             out_plain out1 /\ no_output_resampling t_sb = true).
  { destruct (SOut.standby (out_lock out)).
    - pose proof (out_write_exit_standby_plain o hw (adev w) (out_lock out) (ins w)
                    ltac:(plain_fields)) as H.
      destruct (out_write_exit_standby _ _ _ _ _) as [[[[ret a] out1] ins1] t_sb].
      eexists _, _, _, _, _. split; [reflexivity|exact H].
    - eexists _, _, _, _, _. split; [reflexivity|].
      split; [plain_fields|reflexivity]. }
  destruct Hsb as (ret & a & out1 & ins1 & t_sb & Esb & Hp1 & Ht1).
  rewrite Esb in E.
  destruct (negb (ret =? 0)).
  - unfold out_write_exit in E. inversion E; subst. cbn [outs]. split.
    + apply outputs_plain_insert; [exact Hw|plain_fields].
    + rewrite !no_output_resampling_app, Ht1.
      destruct (SOut.sleep_req out), (negb (ret =? 0)); reflexivity.
  - destruct (out_write_body bytes hw a out1) as [[[r2 out2] t2]|] eqn:Eb;
      [|discriminate].
    destruct (out_write_body_plain _ _ _ _ _ _ _ Hp1 Eb) as [Hp2 Ht2].
    inversion E; subst. cbn [outs]. split.
    + apply outputs_plain_insert; assumption.
    + rewrite !no_output_resampling_app, Ht1, Ht2.
      destruct (SOut.sleep_req out); reflexivity.
Qed.

Lemma in_read_wait_output_plain fuel :
  forall adev outs inp out,
    outputs_plain outs ->
    outputs_plain (snd (fst (fst (fst (in_read_wait_output fuel adev outs inp out))))).
Proof.
  induction fuel as [|fuel IH]; intros adev outs inp out H.
  - cbn. destruct out as [o|]; [|exact H].
    destruct (outs !! o) as [so|]; [|exact H]. destruct (SOut.standby so); exact H.
  - cbn [in_read_wait_output]. destruct out as [o|]; [|exact H].
    destruct (outs !! o) as [so|] eqn:Hlook; [|exact H].
    pose proof (H o so Hlook) as Hso.
    destruct (SOut.standby so); [exact H|].
    destruct (bool_decide _).
    + cbn [fst snd]. apply outputs_plain_insert; [exact H|plain_fields].
    + apply IH. apply outputs_plain_insert; [exact H|plain_fields].
Qed.

Lemma in_read_restart_output_plain hw out out_locked adev outs :
  outputs_plain outs ->
  let '(_, outs', t) := in_read_restart_output hw out out_locked adev outs in
  outputs_plain outs' /\ no_output_resampling t = true.
Proof.
  intros H. unfold in_read_restart_output.
  destruct out as [o|]; [|auto].
  destruct (outs !! o) as [so|] eqn:Hlook; [|auto].
  pose proof (H o so Hlook) as Hso.
  destruct (negb (SOut.standby so)); [|auto].
  pose proof (do_out_standby_plain adev so Hso) as H1.
  destruct (do_out_standby adev so) as [[a1 so1] t_sb]. destruct H1 as [Hp1 Ht1].
  pose proof (start_output_stream_plain o hw a1 so1 Hp1) as H2.
  destruct (start_output_stream _ _ _ _) as [[[r a2] so2] t_start].
  destruct H2 as [Hp2 Ht2].
  split.
  - apply outputs_plain_insert; [exact H|].
    destruct out_locked; plain_fields.
  - rewrite no_output_resampling_app, Ht1, Ht2. reflexivity.
Qed.

Lemma in_read_exit_standby_plain i hw adev outs inp :
  outputs_plain outs ->
  let '(_, _, outs', _, t) := in_read_exit_standby i hw adev outs inp in
  outputs_plain outs' /\ no_output_resampling t = true.
Proof.
  intros H. unfold in_read_exit_standby.
  pose proof (in_read_wait_output_plain 1 (adev_lock adev) outs inp
                (ADev.active_out (adev_lock adev)) H) as H1.
  destruct (in_read_wait_output _ _ _ _ _) as [[[[a1 outs1] inp1] out] out_locked].
  cbn [fst snd] in H1.
  pose proof (in_read_restart_output_plain (ir_start_out hw) out out_locked a1 outs1 H1)
    as H2.
  destruct (in_read_restart_output _ _ _ _ _) as [[a2 outs2] t_out].
  destruct H2 as [Hp2 Ht2].
  pose proof (start_input_stream_clean i (ir_start_in hw) a2 inp1) as H3.
  destruct (start_input_stream _ _ _ _) as [[[r a3] inp3] t_in]. cbn [snd] in H3.
  split; [exact Hp2|].
  rewrite !no_output_resampling_app, Ht2, H3. reflexivity.
Qed.

Lemma get_next_buffer_clean read_ret inp buf :
  no_output_resampling (snd (get_next_buffer read_ret inp buf)) = true.
Proof.
  unfold get_next_buffer.
  destruct (pcm_is_null _); [reflexivity|].
  destruct (SIn.frames_in inp =? 0); [|reflexivity].
  destruct (negb _); reflexivity.
Qed.

Lemma run_provider_clean cs :
  forall inp, no_output_resampling (snd (run_provider cs inp)) = true.
Proof.
  induction cs as [|[request read_ret|n] cs IH]; intros inp; cbn [run_provider].
  - reflexivity.
  - pose proof (get_next_buffer_clean read_ret inp (mk_resampler_buffer None request))
      as H.
    destruct (get_next_buffer _ _ _) as [[[r inp1] buf] t]. cbn [snd] in H.
    specialize (IH inp1).
    destruct (run_provider cs inp1) as [[inp2 views] t']. cbn [snd] in *.
    rewrite no_output_resampling_app, H, IH. reflexivity.
  - apply IH.
Qed.

Lemma read_frames_clean rcs :
  forall direct_read inp frames frames_wr r inp' t,
    read_frames rcs direct_read inp frames frames_wr = Some (r, inp', t) ->
    no_output_resampling t = true.
Proof.
  induction rcs as [|rc rcs IH]; intros direct_read inp frames frames_wr r inp' t E;
    cbn [read_frames] in E.
  - destruct (frames_wr <? frames); [discriminate|]. inversion E. reflexivity.
  - destruct (frames_wr <? frames); [|inversion E; reflexivity].
    assert (Hstep : exists inp1 frames_rd t1,
               read_frames_pass rc direct_read inp (u32 (frames - frames_wr))
                 = (inp1, frames_rd, t1) /\ no_output_resampling t1 = true).
    { unfold read_frames_pass. destruct (SIn.resampler inp).
      - pose proof (run_provider_clean (rc_calls rc) inp) as H.
        destruct (run_provider _ _) as [[inp1 views] t1]. cbn [snd] in H.
        eexists _, _, _. split; [reflexivity|]. cbn. exact H.
      - pose proof (get_next_buffer_clean direct_read inp
                      (mk_resampler_buffer None (u32 (frames - frames_wr)))) as H.
        destruct (get_next_buffer _ _ _) as [[[r1 inp1] buf] t1]. cbn [snd] in H.
        eexists _, _, _. split; [reflexivity|exact H]. }
    cbv zeta in E.
    destruct Hstep as (inp1 & frames_rd & t1 & Es & Ht1). rewrite Es in E.
    destruct (negb (SIn.read_status inp1 =? 0)); [inversion E; subst; exact Ht1|].
    destruct (read_frames rcs _ _ _ _) as [[[r2 inp2] t2]|] eqn:E2; [|discriminate].
    inversion E; subst.
    rewrite no_output_resampling_app, Ht1, (IH _ _ _ _ _ _ _ E2). reflexivity.
Qed.

Lemma in_read_body_clean bytes ret hw adev inp r inp' t :
  in_read_body bytes ret hw adev inp = Some (r, inp', t) ->
  no_output_resampling t = true.
Proof.
  unfold in_read_body. intros E.
  destruct (ret <? 0).
  - destruct (true && _); [discriminate|]. inversion E; subst. reflexivity.
  - destruct (SIn.resampler inp).
    + destruct (read_frames _ _ _ _ _) as [[[r1 inp1] t1]|] eqn:E1; [|discriminate].
      pose proof (read_frames_clean _ _ _ _ _ _ _ _ E1) as H1.
      cbv zeta in E.
      match type of E with
      | (if ?c then None else _) = _ => destruct c; [discriminate|]
      end.
      inversion E; subst. rewrite !no_output_resampling_app, H1.
      destruct (_ && _), (_ <? 0); reflexivity.
    + destruct (channels _ =? 2);
        [destruct (bytes * 2 <=? _); [|discriminate]|];
        cbv zeta in E;
        match type of E with
        | (if ?c then None else _) = _ => destruct c; [discriminate|]
        end;
        inversion E; subst;
        destruct (_ && _), (_ <? 0); reflexivity.
Qed.

Lemma in_read_plain i bytes hw w r w' t :
  outputs_plain (outs w) ->
  in_read i bytes hw w = Some (r, w', t) ->
  outputs_plain (outs w') /\ no_output_resampling t = true.
Proof.
  intros Hw E. unfold in_read in E.
  destruct (ins w !! i) as [inp|]; [|discriminate].
  assert (Hsb : exists ret a outs1 inp1 t_sb,
             (if SIn.standby (in_lock inp)
              then in_read_exit_standby i hw (adev w) (outs w) (in_lock inp)
              else (0, adev w, outs w, in_lock inp, [])) = (ret, a, outs1, inp1, t_sb) /\
             outputs_plain outs1 /\ no_output_resampling t_sb = true).
  { destruct (SIn.standby (in_lock inp)).
    - pose proof (in_read_exit_standby_plain i hw (adev w) (outs w) (in_lock inp) Hw)
        as H.
      destruct (in_read_exit_standby _ _ _ _ _) as [[[[ret a] outs1] inp1] t_sb].
      eexists _, _, _, _, _. split; [reflexivity|exact H].
    - eexists _, _, _, _, _. split; [reflexivity|]. split; [exact Hw|reflexivity]. }
  destruct Hsb as (ret & a & outs1 & inp1 & t_sb & Esb & Hp1 & Ht1).
  rewrite Esb in E.
  destruct (in_read_body bytes ret hw a inp1) as [[[r2 inp2] t2]|] eqn:Eb;
    [|discriminate].
  pose proof (in_read_body_clean _ _ _ _ _ _ _ _ Eb) as Ht2.
  inversion E; subst. cbn [outs]. split; [exact Hp1|].
  rewrite !no_output_resampling_app, Ht1, Ht2.
  destruct (SIn.sleep_req inp); reflexivity.
Qed.

Lemma on_out_plain {A} o w (f : audio_device -> stream_out ->
                              A * audio_device * stream_out * trace) r w' t :
  (forall a out, out_plain out ->
     let '(_, _, out', t) := f a out in
     out_plain out' /\ no_output_resampling t = true) ->
  outputs_plain (outs w) ->
  on_out o w f = Some (r, w', t) ->
  outputs_plain (outs w') /\ no_output_resampling t = true.
Proof.
  intros Hf Hw E. unfold on_out in E.
  destruct (outs w !! o) as [out|] eqn:Hlook; [|discriminate].
  specialize (Hf (adev w) out (Hw o out Hlook)).
  destruct (f (adev w) out) as [[[r1 a1] out1] t1]. destruct Hf as [Hp Ht].
  inversion E; subst. cbn [outs]. split; [|exact Ht].
  apply outputs_plain_insert; assumption.
Qed.

Lemma on_in_clean {A} i w (f : audio_device -> stream_in ->
                             A * audio_device * stream_in * trace) r w' t :
  (forall a inp, no_output_resampling (snd (f a inp)) = true) ->
  on_in i w f = Some (r, w', t) ->
  outs w' = outs w /\ no_output_resampling t = true.
Proof.
  intros Hf E. unfold on_in in E.
  destruct (ins w !! i) as [inp|]; [|discriminate].
  specialize (Hf (adev w) inp).
  destruct (f (adev w) inp) as [[[r1 a1] inp1] t1]. cbn [snd] in Hf.
  inversion E; subst. split; [reflexivity|exact Hf].
Qed.

Lemma adev_open_output_stream_plain calloc_ok config r config' out :
  adev_open_output_stream calloc_ok config = (r, config', Some out) -> out_plain out.
Proof.
  unfold adev_open_output_stream.
  destruct (negb calloc_ok); [intros E; inversion E|].
  destruct (_ || _); intros E; inversion E; subst.
  unfold out_plain. cbn. auto.
Qed.

Lemma api_run_plain c w r w' t :
  outputs_plain (outs w) ->
  api_run c w = Some (r, w', t) ->
  outputs_plain (outs w') /\ no_output_resampling t = true.
Proof.
  intros Hw E. destruct c; cbn [api_run] in E.
  - destruct (outs w !! o); [discriminate|].
    destruct (adev_open_output_stream calloc_ok config) as [[r1 c1] [out|]] eqn:Eo;
      inversion E; subst; (split; [|reflexivity]); [|exact Hw].
    cbn [outs set_outs]. apply outputs_plain_insert; [exact Hw|].
    exact (adev_open_output_stream_plain _ _ _ _ _ Eo).
  - destruct (on_out o w out_standby) as [[[r1 w1] t1]|] eqn:Eo; [|discriminate].
    destruct (on_out_plain o w out_standby r1 w1 t1 out_standby_plain Hw Eo) as [Hp Ht].
    inversion E; subst. cbn [outs set_outs]. split; [|exact Ht].
    apply outputs_plain_delete. exact Hp.
  - destruct (ins w !! i); [discriminate|].
    destruct (adev_open_input_stream calloc_ok config flag_fast) as [[r1 c1] [inp|]];
      inversion E; subst; (split; [exact Hw|reflexivity]).
  - destruct (on_in i w in_standby) as [[[r1 w1] t1]|] eqn:Ei; [|discriminate].
    destruct (on_in_clean i w in_standby r1 w1 t1 in_standby_clean Ei) as [Ho Ht].
    inversion E; subst. cbn [outs]. rewrite Ho. split; [exact Hw|exact Ht].
  - exact (out_write_plain _ _ _ _ _ _ _ Hw E).
  - exact (on_out_plain o w out_standby r w' t out_standby_plain Hw E).
  - exact (on_out_plain o w (out_set_parameters ret value) r w' t
             (out_set_parameters_plain ret value) Hw E).
  - destruct (outs w !! o) as [out|] eqn:Hlook; [|discriminate].
    destruct (out_get_presentation_position ht out) as [[[[r1 f1] out1] t1]|] eqn:Ep;
      [|discriminate].
    destruct (out_get_presentation_position_plain _ _ _ _ _ _ (Hw o out Hlook) Ep)
      as [Hp Ht].
    inversion E; subst. cbn [outs set_outs]. split; [|exact Ht].
    apply outputs_plain_insert; assumption.
  - exact (in_read_plain _ _ _ _ _ _ _ Hw E).
  - destruct (on_in_clean i w in_standby r w' t in_standby_clean E) as [Ho Ht].
    rewrite Ho. split; [exact Hw|exact Ht].
  - destruct (on_in_clean i w
                (in_set_parameters ret_source source ret_routing routing) r w' t
                (in_set_parameters_clean ret_source source ret_routing routing) E)
      as [Ho Ht].
    rewrite Ho. split; [exact Hw|exact Ht].
  - inversion E; subst. split; [exact Hw|reflexivity].
  - unfold adev_set_mic_mute in E.
    destruct (ADev.active_in (adev w)) as [i|];
      [|inversion E; subst; split; [exact Hw|reflexivity]].
    destruct (ins w !! i) as [si|];
      [|inversion E; subst; split; [exact Hw|reflexivity]].
    destruct (negb (bool_decide _)).
    + pose proof (do_in_standby_clean (adev_lock (adev w))
                    (SIn.set_sleep_req false (in_lock (SIn.set_sleep_req true si))))
        as H.
      destruct (do_in_standby _ _) as [[a s] t1]. cbn [snd] in H.
      inversion E; subst. split; [exact Hw|exact H].
    + inversion E; subst. split; [exact Hw|reflexivity].
  - destruct (adev_set_parameters ret is_on (adev w)) as [r1 a1].
    inversion E; subst. split; [exact Hw|reflexivity].
Qed.

Lemma reachable_outputs_plain w : reachable w -> outputs_plain (outs w).
Proof.
  induction 1 as [|w c r w' t Hr IH E].
  - intros o so E. cbn in E. rewrite lookup_empty in E. discriminate.
  - exact (proj1 (api_run_plain c w r w' t IH E)).
Qed.

(** C10.  [adev_open_output_stream] succeeds only for a stereo request at
    44100 Hz and reports that rate back; [out_get_sample_rate] is the
    hardware rate of [pcm_config_out]; so [start_output_stream] never takes
    its rate-mismatch branch: in every state the framework can reach no
    output stream has a resampler or a conversion buffer, and no call creates,
    feeds or releases one. *)
Theorem output_never_resamples :
  (forall calloc_ok config,
     (fst (fst (adev_open_output_stream calloc_ok config)) = 0 ->
      channel_mask config = AUDIO_CHANNEL_OUT_STEREO /\ sample_rate config = 44100) /\
     (channel_mask config = AUDIO_CHANNEL_OUT_STEREO -> sample_rate config = 44100 ->
      fst (fst (adev_open_output_stream true config)) = 0) /\
     (sample_rate config <> 44100 ->
      fst (fst (adev_open_output_stream true config)) = - EINVAL /\
      snd (adev_open_output_stream calloc_ok config) = None) /\
     (forall out,
        snd (adev_open_output_stream calloc_ok config) = Some out ->
        sample_rate (snd (fst (adev_open_output_stream calloc_ok config))) = 44100 /\
        SOut.standby out = true /\ SOut.resampler out = None /\
        SOut.buffer out = None)) /\
  (out_get_sample_rate = 44100 /\ out_get_sample_rate = rate pcm_config_out) /\
  (forall o hw adev out,
     no_output_resampling (snd (start_output_stream o hw adev out)) = true /\
     SOut.resampler (snd (fst (start_output_stream o hw adev out)))
       = SOut.resampler out /\
     SOut.buffer (snd (fst (start_output_stream o hw adev out))) = SOut.buffer out) /\
  (forall w o so,
     reachable w -> outs w !! o = Some so ->
     SOut.resampler so = None /\ SOut.buffer so = None) /\
  (forall w c r w' t,
     reachable w -> api_run c w = Some (r, w', t) ->
     no_output_resampling t = true).
Proof.
  split; [|split; [|split; [|split]]].
  - intros calloc_ok config. unfold adev_open_output_stream.
    destruct (Z.eqb_spec (channel_mask config) AUDIO_CHANNEL_OUT_STEREO) as [Hc|Hc];
      destruct (Z.eqb_spec (sample_rate config) 44100) as [Hs|Hs];
      destruct calloc_ok;
      cbn [negb orb fst snd sample_rate];
      repeat split; intros; try congruence; try discriminate; auto;
      match goal with H : Some _ = Some _ |- _ => inversion H; reflexivity end.
  - split; reflexivity.
  - intros o hw adev out.
    pose proof (start_output_stream_facts o hw adev out) as H.
    unfold start_output_stream, start_output_stream_at in *.
    change (negb (out_get_sample_rate =? rate pcm_config_out)) with false in *.
    cbn [SOut.pcm SOut.set_pcm] in *.
    destruct (hw_open hw); cbn in *; auto.
  - intros w o so Hr Hlook.
    destruct (reachable_outputs_plain w Hr o so Hlook) as (H1 & H2 & _). auto.
  - intros w c r w' t Hr E.
    exact (proj2 (api_run_plain c w r w' t (reachable_outputs_plain w Hr) E)).
Qed.

Lemma output_never_resamples_witness :
  (channel_mask config_stereo_44100 = AUDIO_CHANNEL_OUT_STEREO /\
   sample_rate config_stereo_44100 = 44100) /\
  fst (fst (adev_open_output_stream true config_stereo_44100)) = 0 /\
  (fst (fst (adev_open_output_stream true config_stereo_48000)) = - EINVAL /\
   snd (adev_open_output_stream true config_stereo_48000) = None) /\
  (sample_rate (snd (fst (adev_open_output_stream true config_stereo_44100))) = 44100 /\
   SOut.standby out_in_standby = true /\ SOut.resampler out_in_standby = None /\
   SOut.buffer out_in_standby = None) /\
  (SOut.resampler out_in_standby = None /\ SOut.buffer out_in_standby = None) /\
  no_output_resampling
    [EvPcmOpen Playback PcmOpenReady; EvSelectDevices 0 0; EvGetHtimestamp None;
     EvPcmWrite 4096 0] = true.
Proof.
  destruct output_never_resamples as (Hopen & _ & _ & Hinv & Hrun).
  assert (Hr : reachable world_output_opened).
  { apply (reachable_call adev_open (OpenOutputStream 0 true config_stereo_44100) 0
             world_output_opened [] reachable_open).
    reflexivity. }
  destruct (Hopen true config_stereo_44100) as (H1 & H2 & _ & H4).
  destruct (Hopen true config_stereo_48000) as (_ & _ & H3 & _).
  split; [apply H1; reflexivity|].
  split; [apply H2; reflexivity|].
  split; [apply H3; vm_compute; discriminate|].
  split; [apply (H4 out_in_standby); reflexivity|].
  split; [apply (Hinv world_output_opened 0%nat out_in_standby Hr); reflexivity|].
  refine (Hrun world_output_opened (OutWrite 0 4096 (out_write_ok 0)) 4096 _ _ Hr _).
  vm_compute. reflexivity.
Defined.

(** ** Remarks on the failure paths *)

(** The [goto exit] taken by [out_write] when the stream cannot be started
    skips the [adev_unlock]: the lock count of the device stays at 1. *)
Remark failed_start_keeps_device_locked :
  exists w' t,
    out_write 0 4096 out_write_not_ready world_opened = Some (4096, w', t) /\
    ADev.lock_cnt (adev world_opened) = 0 /\
    ADev.lock_cnt (adev w') = 1.
Proof.
  eexists _, _. split; [vm_compute; reflexivity|]. split; reflexivity.
Qed.

(** When [in_read] cannot reopen the active output it has just closed, it
    still marks that output as started, with its closed handle and without a
    registration. *)
Remark failed_restart_marks_output_started :
  exists w' t so,
    in_read 0 2048 (mk_in_read_hw start_not_ready start_ok [] 0)
      (mk_world (ADev.set_active_out (Some 0%nat) (adev adev_open))
         {[ 0%nat := out_started ]} {[ 0%nat := in_in_standby ]})
      = Some (2048, w', t) /\
    outs w' !! 0%nat = Some so /\
    SOut.standby so = false /\ SOut.pcm so = ClosedPcm /\
    ADev.active_out (adev w') = None.
Proof.
  eexists _, _, _. split; [vm_compute; reflexivity|].
  split; [vm_compute; reflexivity|]. repeat split.
Qed.

(** [adev_open_input_stream] takes a sample rate of 0 as it takes any other.
    On such a stream no failed [in_read] returns: the sleep at the [exit]
    label divides by the requested rate. *)
Remark failed_read_at_rate_zero_divides_by_zero :
  snd (adev_open_input_stream true (mk_audio_config 0 AUDIO_CHANNEL_IN_MONO
                                      AUDIO_FORMAT_PCM_16_BIT) false)
    = Some (SIn.mk NullPcm pcm_config_in true 0 None None 0 0 0 false 0) /\
  in_read 0 2048 in_read_not_ready
    (mk_world (adev adev_open) ∅ {[ 0%nat := SIn.mk NullPcm pcm_config_in true 0 None None 0 0 0 false 0 ]})
    = None.
Proof. split; vm_compute; reflexivity. Qed.

(** ** The rate at which an output stream is started *)

(** C5, as the code has it.  No output stream is started at a rate other
    than the hardware rate: [adev_open_output_stream] refuses every other rate
    with [-EINVAL], handing 44100 Hz back, and opens no stream; the stream it
    does open has no resampler, no conversion buffer and a [buffer_frames] of
    0; [start_output_stream], whatever state it runs in, leaves these three
    fields as they are and makes no external call but the [pcm_open] and, for
    a handle that is not ready, the [pcm_close]; and no output stream of a
    state the framework can reach has a resampler or a conversion buffer. *)
Theorem output_starts_without_conversion_buffer :
  (forall calloc_ok config,
     sample_rate config <> rate pcm_config_out ->
     snd (adev_open_output_stream calloc_ok config) = None /\
     (calloc_ok = true ->
      fst (adev_open_output_stream calloc_ok config)
        = (- EINVAL,
           mk_audio_config (rate pcm_config_out) AUDIO_CHANNEL_OUT_STEREO
             (format config)))) /\
  (forall calloc_ok config out,
     snd (adev_open_output_stream calloc_ok config) = Some out ->
     sample_rate config = rate pcm_config_out /\
     SOut.resampler out = None /\ SOut.buffer out = None /\
     SOut.buffer_frames out = 0) /\
  (forall o hw adev out,
     let '(r, _, out', t) := start_output_stream o hw adev out in
     SOut.resampler out' = SOut.resampler out /\
     SOut.buffer out' = SOut.buffer out /\
     SOut.buffer_frames out' = SOut.buffer_frames out /\
     t = EvPcmOpen Playback (hw_open hw)
         :: (if r =? 0 then [] else [EvPcmClose Playback BadPcm])) /\
  (forall w o so,
     reachable w -> outs w !! o = Some so ->
     SOut.resampler so = None /\ SOut.buffer so = None).
Proof.
  split; [|split; [|split]].
  - intros calloc_ok config Hne. unfold adev_open_output_stream.
    destruct (Z.eqb_spec (sample_rate config) 44100) as [He|_]; [contradiction|].
    rewrite orb_true_r. destruct calloc_ok; cbn [negb snd fst].
    + split; [reflexivity|]. intros _. reflexivity.
    + split; [reflexivity|]. discriminate.
  - intros calloc_ok config out. unfold adev_open_output_stream.
    destruct calloc_ok; cbn [negb]; [|discriminate].
    destruct (Z.eqb_spec (sample_rate config) 44100) as [He|Hne];
      [|rewrite orb_true_r; discriminate].
    destruct (negb (channel_mask config =? AUDIO_CHANNEL_OUT_STEREO));
      cbn [orb negb snd]; [discriminate|].
    intros E. inversion E; subst. repeat split. exact He.
  - intros o hw adev out. unfold start_output_stream, start_output_stream_at.
    change (negb (out_get_sample_rate =? rate pcm_config_out)) with false.
    cbn [SOut.pcm SOut.set_pcm].
    destruct (hw_open hw); cbn; destruct out; repeat split.
  - intros w o so Hr Hlook.
    destruct (reachable_outputs_plain w Hr o so Hlook) as (H1 & H2 & _). auto.
Qed.

(** C5 as stated fails: a request for 48000 Hz is refused when the stream is
    opened, with [-EINVAL] and 44100 Hz handed back, and leaves the device
    without a stream; the stream opened at 44100 Hz and started by a write is
    active without resampler and without conversion buffer.  No stream is
    started at 48000 Hz and no buffer of 942 frames is made. *)
Lemma output_at_48000_is_not_started :
  api_run (OpenOutputStream 0 true config_stereo_48000) adev_open
    = Some (- EINVAL, adev_open, []) /\
  sample_rate (snd (fst (adev_open_output_stream true config_stereo_48000))) = 44100 /\
  (exists w so,
     api_runs [OpenOutputStream 0 true config_stereo_44100;
               OutWrite 0 4096 (out_write_ok 0)] adev_open = Some w /\
     outs w !! 0%nat = Some so /\
     SOut.standby so = false /\ SOut.pcm so = ReadyPcm /\
     SOut.resampler so = None /\ SOut.buffer so = None /\
     SOut.buffer_frames so = 0 /\ SOut.buffer_frames so <> 942).
Proof.
  split; [vm_compute; reflexivity|]. split; [reflexivity|].
  eexists _, _. split; [vm_compute; reflexivity|].
  split; [vm_compute; reflexivity|].
  repeat split. discriminate.
Qed.

(** ** Buffer sizes of the capture side *)

Lemma round_up_16 n :
  0 <= n ->
  ((n + 15) / 16 * 16) mod 16 = 0 /\ n <= (n + 15) / 16 * 16 < n + 16.
Proof.
  intros H. split.
  - apply Z.mod_mul. lia.
  - pose proof (Z.div_mod (n + 15) 16 ltac:(lia)) as Hd.
    pose proof (Z.mod_pos_bound (n + 15) 16 ltac:(lia)) as Hm. lia.
Qed.

Lemma rounded_frames_u32 n :
  0 <= n < 2 ^ 31 - 16 ->
  u32 (u32 (n + 15) / 16 * 16) = (n + 15) / 16 * 16.
Proof.
  intros H. destruct (round_up_16 n ltac:(lia)) as [_ Hr].
  rewrite (u32_id (n + 15)) by lia. apply u32_id. lia.
Qed.

(** X1.  [in_get_buffer_size] scales the period of the stream's
    configuration by requested rate over hardware rate, rounds the frame
    count up to the next multiple of 16 and returns it in bytes of mono
    16-bit frames, as long as the product fits the 32-bit [size_t]. *)
Theorem in_get_buffer_size_majoring_multiple inp :
  0 < rate (SIn.pcm_config inp) ->
  0 <= period_size (SIn.pcm_config inp) * SIn.requested_rate inp < 2 ^ 32 ->
  period_size (SIn.pcm_config inp) * SIn.requested_rate inp
    / rate (SIn.pcm_config inp) < 2 ^ 31 - 16 ->
  exists m,
    in_get_buffer_size inp = m * audio_stream_in_frame_size /\
    m mod 16 = 0 /\
    period_size (SIn.pcm_config inp) * SIn.requested_rate inp
      / rate (SIn.pcm_config inp) <= m
    < period_size (SIn.pcm_config inp) * SIn.requested_rate inp
      / rate (SIn.pcm_config inp) + 16.
Proof.
  intros Hrate Hprod Hq.
  set (n := period_size (SIn.pcm_config inp) * SIn.requested_rate inp
            / rate (SIn.pcm_config inp)) in *.
  assert (Hn : 0 <= n) by (apply Z.div_pos; lia).
  exists ((n + 15) / 16 * 16).
  destruct (round_up_16 n Hn) as [Hmod Hr].
  split; [|split; [exact Hmod|exact Hr]].
  unfold in_get_buffer_size, in_get_sample_rate.
  rewrite (u32_id (period_size _ * _)) by exact Hprod.
  fold n. rewrite rounded_frames_u32 by lia.
  apply u32_id. unfold audio_stream_in_frame_size. lia.
Qed.

Lemma in_get_buffer_size_majoring_multiple_witness :
  exists m,
    in_get_buffer_size in_8000_standby = m * audio_stream_in_frame_size /\
    m mod 16 = 0 /\
    period_size (SIn.pcm_config in_8000_standby) * SIn.requested_rate in_8000_standby
      / rate (SIn.pcm_config in_8000_standby) <= m
    < period_size (SIn.pcm_config in_8000_standby) * SIn.requested_rate in_8000_standby
      / rate (SIn.pcm_config in_8000_standby) + 16.
Proof.
  apply (in_get_buffer_size_majoring_multiple in_8000_standby).
  - vm_compute. reflexivity.
  - vm_compute. split; [discriminate|reflexivity].
  - vm_compute. reflexivity.
Defined.

(** X2.  The size [adev_get_input_buffer_size] announces for a mono 16-bit
    request is the size the stream opened for that request reports, except
    for a fast stream at the hardware rate: that one runs on the low-latency
    configuration and reports 1024 bytes where 2048 were announced. *)
Theorem input_buffer_size_announced calloc_ok config flag_fast config' inp :
  adev_open_input_stream calloc_ok config flag_fast = (0, config', Some inp) ->
  (flag_fast = false \/ sample_rate config <> IN_SAMPLING_RATE ->
   in_get_buffer_size inp = adev_get_input_buffer_size 1 2 config) /\
  (flag_fast = true -> sample_rate config = IN_SAMPLING_RATE ->
   in_get_buffer_size inp = 1024 /\ adev_get_input_buffer_size 1 2 config = 2048).
Proof.
  unfold adev_open_input_stream.
  destruct (negb (channel_mask config =? AUDIO_CHANNEL_IN_MONO)); [discriminate|].
  destruct (negb calloc_ok); [discriminate|].
  intros E. injection E as Hconfig Hinp. subst inp. clear Hconfig. split.
  - intros H.
    assert (Hc : (sample_rate config =? IN_SAMPLING_RATE) && flag_fast = false).
    { destruct H as [->|H]; [apply andb_false_r|].
      apply andb_false_intro1. apply Z.eqb_neq. exact H. }
    rewrite Hc. unfold in_get_buffer_size, adev_get_input_buffer_size, in_get_sample_rate.
    cbn [SIn.pcm_config SIn.requested_rate]. unfold audio_stream_in_frame_size.
    rewrite Z.mul_1_r.
    match goal with |- u32 (?x * _) = u32 (u32 ?y * 2) =>
      replace (u32 y) with x; [reflexivity|] end.
    unfold u32 at 1 3. symmetry. apply Z.mod_small.
    apply Z.mod_pos_bound. lia.
  - intros -> Hs. unfold adev_get_input_buffer_size. rewrite Hs.
    vm_compute. split; reflexivity.
Qed.

Lemma input_buffer_size_announced_witness :
  in_get_buffer_size in_8000_standby = adev_get_input_buffer_size 1 2 config_mono_8000.
Proof.
  refine (proj1 (input_buffer_size_announced true config_mono_8000 false
                   config_mono_8000 in_8000_standby _) _).
  - reflexivity.
  - left. reflexivity.
Defined.

(** X3.  Both open calls answer a refused request with a configuration they
    accept: opening again with the configuration handed back succeeds when
    memory is available, whatever was asked first. *)
Theorem open_accepts_suggested_config :
  (forall config,
     fst (fst (adev_open_output_stream true
                 (snd (fst (adev_open_output_stream true config))))) = 0) /\
  (forall config flag_fast flag_fast',
     fst (fst (adev_open_input_stream true
                 (snd (fst (adev_open_input_stream true config flag_fast)))
                 flag_fast')) = 0 /\
     sample_rate (snd (fst (adev_open_input_stream true config flag_fast)))
       = sample_rate config).
Proof.
  split.
  - intros config. unfold adev_open_output_stream. cbn [negb].
    destruct (negb (channel_mask config =? AUDIO_CHANNEL_OUT_STEREO)
              || negb (sample_rate config =? 44100)); reflexivity.
  - intros config flag_fast flag_fast'. unfold adev_open_input_stream. cbn [negb].
    destruct (Z.eqb_spec (channel_mask config) AUDIO_CHANNEL_IN_MONO) as [Hc|Hc];
      cbn [negb fst snd channel_mask sample_rate].
    + rewrite Hc. cbn. split; reflexivity.
    + cbn. split; reflexivity.
Qed.

(** ** Parameters, mute and transfers on one stream *)

#[local] Arguments u32 : simpl never.
#[local] Arguments s32 : simpl never.
#[local] Arguments u64 : simpl never.
#[local] Arguments s64 : simpl never.

Lemma adev_lock_unlock a : int_range (ADev.lock_cnt a) -> adev_unlock (adev_lock a) = a.
Proof.
  intros H. destruct a. unfold adev_unlock, adev_lock, ADev.set_lock_cnt. cbn in *.
  rewrite s32_lock_unlock by exact H. reflexivity.
Qed.

Lemma out_lock_unlock out :
  int_range (SOut.lock_cnt out) ->
  out_unlock (SOut.set_sleep_req false (out_lock (SOut.set_sleep_req true out)))
    = SOut.set_sleep_req false out.
Proof.
  intros H. destruct out.
  unfold out_unlock, out_lock, SOut.set_lock_cnt, SOut.set_sleep_req. cbn in *.
  rewrite s32_lock_unlock by exact H. reflexivity.
Qed.

Lemma in_lock_unlock inp :
  int_range (SIn.lock_cnt inp) ->
  in_unlock (SIn.set_sleep_req false (in_lock (SIn.set_sleep_req true inp)))
    = SIn.set_sleep_req false inp.
Proof.
  intros H. destruct inp.
  unfold in_unlock, in_lock, SIn.set_lock_cnt, SIn.set_sleep_req. cbn in *.
  rewrite s32_lock_unlock by exact H. reflexivity.
Qed.

Lemma do_out_standby_started a out :
  SOut.standby out = false ->
  exists t,
    do_out_standby a out
      = (ADev.set_active_out None a,
         SOut.set_standby true
           (SOut.set_buffer None (SOut.set_resampler None (SOut.set_pcm NullPcm out))),
         EvPcmClose Playback (SOut.pcm out) :: t).
Proof.
  intros Hs. unfold do_out_standby. rewrite Hs. destruct out. cbn in *.
  destruct resampler, buffer; cbn; eexists; reflexivity.
Qed.

Lemma do_in_standby_started a inp :
  SIn.standby inp = false ->
  exists t,
    do_in_standby a inp
      = (ADev.set_active_in None a,
         SIn.set_standby true
           (SIn.set_buffer None (SIn.set_resampler None (SIn.set_pcm NullPcm inp))),
         EvPcmClose Capture (SIn.pcm inp) :: t) /\
    forallb is_release t = true.
Proof.
  intros Hs. unfold do_in_standby. rewrite Hs. destruct inp. cbn in *.
  destruct resampler, buffer; cbn; eexists; split; reflexivity.
Qed.

(** X4.  [out_set_parameters] returns the status of the routing key.  A
    request without that key, for device 0 or for the device already selected
    changes nothing but the advisory [sleep_req] flag and makes no external
    call.  Any other request stores the new device; outside a call it first
    puts a started stream in standby, closing its handle and dropping the
    registration; during a call it leaves stream and hardware untouched. *)
Theorem out_set_parameters_routing ret value adev out :
  int_range (ADev.lock_cnt adev) -> int_range (SOut.lock_cnt out) ->
  (ret < 0 \/ u32 value = 0 \/ u32 value = ADev.out_device adev ->
   out_set_parameters ret value adev out
     = (ret, adev, SOut.set_sleep_req false out, [])) /\
  (0 <= ret -> u32 value <> 0 -> u32 value <> ADev.out_device adev ->
   (ADev.mode adev = AUDIO_MODE_IN_CALL \/ SOut.standby out = true ->
    out_set_parameters ret value adev out
      = (ret, ADev.set_out_device (u32 value) adev, SOut.set_sleep_req false out, [])) /\
   (ADev.mode adev <> AUDIO_MODE_IN_CALL -> SOut.standby out = false ->
    exists t,
      out_set_parameters ret value adev out
        = (ret, ADev.set_out_device (u32 value) (ADev.set_active_out None adev),
           SOut.set_standby true
             (SOut.set_buffer None
                (SOut.set_resampler None
                   (SOut.set_pcm NullPcm (SOut.set_sleep_req false out)))),
           EvPcmClose Playback (SOut.pcm out) :: t))).
Proof.
  intros Ha Ho.
  assert (Hdev : ADev.out_device (adev_lock adev) = ADev.out_device adev)
    by (destruct adev; reflexivity).
  assert (Hmode : ADev.mode (adev_lock adev) = ADev.mode adev)
    by (destruct adev; reflexivity).
  split.
  - intros Hcase. unfold out_set_parameters.
    destruct (ret >=? 0) eqn:Hret.
    + destruct (negb (ADev.out_device (adev_lock adev) =? u32 value)
                && negb (u32 value =? 0)) eqn:Hc.
      * exfalso. apply andb_prop in Hc as [H1 H2].
        apply negb_true_iff, Z.eqb_neq in H1. apply negb_true_iff, Z.eqb_neq in H2.
        apply Z.geb_le in Hret. rewrite Hdev in H1.
        destruct Hcase as [H|[H|H]]; [lia|congruence|congruence].
      * rewrite adev_lock_unlock, out_lock_unlock by assumption. reflexivity.
    + rewrite adev_lock_unlock, out_lock_unlock by assumption. reflexivity.
  - intros Hret Hnz Hne.
    assert (Hc1 : negb (ADev.out_device (adev_lock adev) =? u32 value) = true).
    { apply negb_true_iff, Z.eqb_neq. rewrite Hdev. congruence. }
    assert (Hc2 : negb (u32 value =? 0) = true)
      by (apply negb_true_iff, Z.eqb_neq; exact Hnz).
    assert (Hc0 : (ret >=? 0) = true) by (apply Z.geb_le; exact Hret).
    split.
    + intros Hcase. unfold out_set_parameters. rewrite Hc0, Hc1, Hc2. cbn [andb].
      rewrite Hmode.
      assert (Hskip :
                (if negb (bool_decide (ADev.mode adev = AUDIO_MODE_IN_CALL))
                 then
                   if negb (SOut.standby
                              (SOut.set_sleep_req false
                                 (out_lock (SOut.set_sleep_req true out))))
                   then do_out_standby (adev_lock adev)
                          (SOut.set_sleep_req false (out_lock (SOut.set_sleep_req true out)))
                   else (adev_lock adev,
                         SOut.set_sleep_req false (out_lock (SOut.set_sleep_req true out)),
                         [])
                 else (adev_lock adev,
                       SOut.set_sleep_req false (out_lock (SOut.set_sleep_req true out)),
                       []))
                = (adev_lock adev,
                   SOut.set_sleep_req false (out_lock (SOut.set_sleep_req true out)), [])).
      { destruct Hcase as [Hm|Hs].
        - rewrite bool_decide_eq_true_2 by exact Hm. reflexivity.
        - replace (SOut.standby (SOut.set_sleep_req false
                                   (out_lock (SOut.set_sleep_req true out))))
            with true by (rewrite <- Hs; destruct out; reflexivity).
          destruct (negb (bool_decide _)); reflexivity. }
      rewrite Hskip. rewrite out_lock_unlock by assumption.
      replace (adev_unlock (ADev.set_out_device (u32 value) (adev_lock adev)))
        with (ADev.set_out_device (u32 value) (adev_unlock (adev_lock adev)))
        by (destruct adev; reflexivity).
      rewrite adev_lock_unlock by assumption. reflexivity.
    + intros Hm Hs. unfold out_set_parameters. rewrite Hc0, Hc1, Hc2. cbn [andb].
      rewrite Hmode. rewrite bool_decide_eq_false_2 by exact Hm. cbn [negb].
      set (out1 := SOut.set_sleep_req false (out_lock (SOut.set_sleep_req true out))).
      assert (Hs1 : SOut.standby out1 = false)
        by (rewrite <- Hs; subst out1; destruct out; reflexivity).
      rewrite Hs1. cbn [negb].
      destruct (do_out_standby_started (adev_lock adev) out1 Hs1) as (t & ->).
      exists t. subst out1. destruct adev, out.
      unfold adev_unlock, adev_lock, out_unlock, out_lock. cbn in *.
      rewrite !s32_lock_unlock by assumption. reflexivity.
Qed.

Lemma out_set_parameters_routing_witness :
  out_set_parameters (- 1) 2 (adev world_playing) out_started
    = (- 1, adev world_playing, SOut.set_sleep_req false out_started, []) /\
  exists t,
    out_set_parameters 0 2 (adev world_playing) out_started
      = (0, ADev.set_out_device (u32 2) (ADev.set_active_out None (adev world_playing)),
         SOut.set_standby true
           (SOut.set_buffer None
              (SOut.set_resampler None
                 (SOut.set_pcm NullPcm (SOut.set_sleep_req false out_started)))),
         EvPcmClose Playback (SOut.pcm out_started) :: t).
Proof.
  assert (Ha : int_range (ADev.lock_cnt (adev world_playing)))
    by (vm_compute; split; [discriminate|reflexivity]).
  assert (Ho : int_range (SOut.lock_cnt out_started))
    by (vm_compute; split; [discriminate|reflexivity]).
  split.
  - apply (proj1 (out_set_parameters_routing (- 1) 2 (adev world_playing) out_started
                    Ha Ho)).
    left. reflexivity.
  - apply (proj2 (out_set_parameters_routing 0 2 (adev world_playing) out_started Ha Ho)).
    + discriminate.
    + discriminate.
    + discriminate.
    + discriminate.
    + reflexivity.
Defined.

Lemma clear_bit_in routing :
  Z.land (u32 routing) (u32 (Z.lnot AUDIO_DEVICE_BIT_IN)) = u32 routing mod 2 ^ 31.
Proof.
  change (u32 (Z.lnot AUDIO_DEVICE_BIT_IN)) with (Z.ones 31).
  apply Z.land_ones. lia.
Qed.

(** X5.  [in_set_parameters] returns the status of the routing key only: a
    request that carries just a new input source stores it, selects it on the
    mixer without touching the stream, and still reports the missing routing
    key.  A routing value is stored with [AUDIO_DEVICE_BIT_IN] cleared, unless
    that leaves 0 or the device already selected; outside a call a started
    stream is first put in standby. *)
Theorem in_set_parameters_source_and_routing ret_source source ret_routing routing
    adev inp :
  int_range (ADev.lock_cnt adev) -> int_range (SIn.lock_cnt inp) ->
  (0 <= ret_source -> ret_routing < 0 -> u32 source <> ADev.in_source adev ->
   in_set_parameters ret_source source ret_routing routing adev inp
     = (ret_routing, ADev.set_in_source (u32 source) adev, SIn.set_sleep_req false inp,
        [EvSelectInputSource (u32 source)])) /\
  (ret_source < 0 -> 0 <= ret_routing ->
   u32 routing mod 2 ^ 31 = 0 \/ u32 routing mod 2 ^ 31 = ADev.in_device adev ->
   in_set_parameters ret_source source ret_routing routing adev inp
     = (ret_routing, adev, SIn.set_sleep_req false inp, [])) /\
  (ret_source < 0 -> 0 <= ret_routing ->
   u32 routing mod 2 ^ 31 <> 0 -> u32 routing mod 2 ^ 31 <> ADev.in_device adev ->
   (ADev.mode adev = AUDIO_MODE_IN_CALL \/ SIn.standby inp = true ->
    in_set_parameters ret_source source ret_routing routing adev inp
      = (ret_routing, ADev.set_in_device (u32 routing mod 2 ^ 31) adev,
         SIn.set_sleep_req false inp, [])) /\
   (ADev.mode adev <> AUDIO_MODE_IN_CALL -> SIn.standby inp = false ->
    exists t,
      in_set_parameters ret_source source ret_routing routing adev inp
        = (ret_routing,
           ADev.set_in_device (u32 routing mod 2 ^ 31) (ADev.set_active_in None adev),
           SIn.set_standby true
             (SIn.set_buffer None
                (SIn.set_resampler None
                   (SIn.set_pcm NullPcm (SIn.set_sleep_req false inp)))),
           EvPcmClose Capture (SIn.pcm inp) :: t))).
Proof.
  intros Ha Hi.
  assert (Hsrc : ADev.in_source (adev_lock adev) = ADev.in_source adev)
    by (destruct adev; reflexivity).
  assert (Hdev : ADev.in_device (adev_lock adev) = ADev.in_device adev)
    by (destruct adev; reflexivity).
  assert (Hmode : ADev.mode (adev_lock adev) = ADev.mode adev)
    by (destruct adev; reflexivity).
  split; [|split].
  - intros Hs Hr Hne. unfold in_set_parameters.
    replace (ret_source >=? 0) with true by (symmetry; apply Z.geb_le; exact Hs).
    replace (negb (ADev.in_source (adev_lock adev) =? u32 source)) with true
      by (symmetry; apply negb_true_iff, Z.eqb_neq; rewrite Hsrc; congruence).
    replace (ret_routing >=? 0) with false
      by (symmetry; apply not_true_is_false; rewrite Z.geb_le; lia).
    rewrite in_lock_unlock by assumption.
    replace (adev_unlock (ADev.set_in_source (u32 source) (adev_lock adev)))
      with (ADev.set_in_source (u32 source) (adev_unlock (adev_lock adev)))
      by (destruct adev; reflexivity).
    rewrite adev_lock_unlock by assumption. reflexivity.
  - intros Hs Hr Hcase. unfold in_set_parameters.
    replace (ret_source >=? 0) with false
      by (symmetry; apply not_true_is_false; rewrite Z.geb_le; lia).
    replace (ret_routing >=? 0) with true by (symmetry; apply Z.geb_le; exact Hr).
    rewrite clear_bit_in, Hdev.
    replace (negb (ADev.in_device adev =? u32 routing mod 2 ^ 31)
             && negb (u32 routing mod 2 ^ 31 =? 0)) with false.
    + rewrite in_lock_unlock, adev_lock_unlock by assumption. reflexivity.
    + symmetry. destruct Hcase as [H|H].
      * rewrite H. apply andb_false_r.
      * rewrite H, Z.eqb_refl. reflexivity.
  - intros Hs Hr Hnz Hne.
    assert (Hc : negb (ADev.in_device adev =? u32 routing mod 2 ^ 31)
                 && negb (u32 routing mod 2 ^ 31 =? 0) = true).
    { apply andb_true_intro. split; apply negb_true_iff, Z.eqb_neq; congruence. }
    split.
    + intros Hcase. unfold in_set_parameters.
      replace (ret_source >=? 0) with false
        by (symmetry; apply not_true_is_false; rewrite Z.geb_le; lia).
      replace (ret_routing >=? 0) with true by (symmetry; apply Z.geb_le; exact Hr).
      rewrite clear_bit_in, Hdev, Hc, Hmode.
      set (inp1 := SIn.set_sleep_req false (in_lock (SIn.set_sleep_req true inp))).
      assert (Hskip :
                (if negb (bool_decide (ADev.mode adev = AUDIO_MODE_IN_CALL))
                 then if negb (SIn.standby inp1) then do_in_standby (adev_lock adev) inp1
                      else (adev_lock adev, inp1, [])
                 else (adev_lock adev, inp1, []))
                = (adev_lock adev, inp1, [])).
      { destruct Hcase as [Hm|Hsb].
        - rewrite bool_decide_eq_true_2 by exact Hm. reflexivity.
        - replace (SIn.standby inp1) with true
            by (rewrite <- Hsb; subst inp1; destruct inp; reflexivity).
          destruct (negb (bool_decide _)); reflexivity. }
      rewrite Hskip. subst inp1. rewrite in_lock_unlock by assumption.
      replace (adev_unlock (ADev.set_in_device (u32 routing mod 2 ^ 31) (adev_lock adev)))
        with (ADev.set_in_device (u32 routing mod 2 ^ 31) (adev_unlock (adev_lock adev)))
        by (destruct adev; reflexivity).
      rewrite adev_lock_unlock by assumption. reflexivity.
    + intros Hm Hsb. unfold in_set_parameters.
      replace (ret_source >=? 0) with false
        by (symmetry; apply not_true_is_false; rewrite Z.geb_le; lia).
      replace (ret_routing >=? 0) with true by (symmetry; apply Z.geb_le; exact Hr).
      rewrite clear_bit_in, Hdev, Hc, Hmode.
      rewrite bool_decide_eq_false_2 by exact Hm. cbn [negb].
      set (inp1 := SIn.set_sleep_req false (in_lock (SIn.set_sleep_req true inp))).
      assert (Hs1 : SIn.standby inp1 = false)
        by (rewrite <- Hsb; subst inp1; destruct inp; reflexivity).
      rewrite Hs1. cbn [negb].
      destruct (do_in_standby_started (adev_lock adev) inp1 Hs1) as (t & -> & _).
      exists t. subst inp1. destruct adev, inp.
      unfold adev_unlock, adev_lock, in_unlock, in_lock. cbn in *.
      rewrite !s32_lock_unlock by assumption. reflexivity.
Qed.

Lemma in_set_parameters_source_and_routing_witness :
  in_set_parameters 0 5 (- 1) 0 (adev world_recording) in_started
    = (- 1, ADev.set_in_source (u32 5) (adev world_recording),
       SIn.set_sleep_req false in_started, [EvSelectInputSource (u32 5)]) /\
  in_set_parameters (- 1) 0 0 (2 ^ 31) (adev world_recording) in_started
    = (0, adev world_recording, SIn.set_sleep_req false in_started, []) /\
  exists t,
    in_set_parameters (- 1) 0 0 (2 ^ 31 + 4) (adev world_recording) in_started
      = (0,
         ADev.set_in_device (u32 (2 ^ 31 + 4) mod 2 ^ 31)
           (ADev.set_active_in None (adev world_recording)),
         SIn.set_standby true
           (SIn.set_buffer None
              (SIn.set_resampler None
                 (SIn.set_pcm NullPcm (SIn.set_sleep_req false in_started)))),
         EvPcmClose Capture (SIn.pcm in_started) :: t).
Proof.
  assert (Ha : int_range (ADev.lock_cnt (adev world_recording)))
    by (vm_compute; split; [discriminate|reflexivity]).
  assert (Hi : int_range (SIn.lock_cnt in_started))
    by (vm_compute; split; [discriminate|reflexivity]).
  split; [|split].
  - apply (proj1 (in_set_parameters_source_and_routing 0 5 (- 1) 0
                    (adev world_recording) in_started Ha Hi)).
    + discriminate.
    + reflexivity.
    + discriminate.
  - apply (proj1 (proj2 (in_set_parameters_source_and_routing (- 1) 0 0 (2 ^ 31)
                           (adev world_recording) in_started Ha Hi))).
    + reflexivity.
    + discriminate.
    + left. reflexivity.
  - apply (proj2 (proj2 (in_set_parameters_source_and_routing (- 1) 0 0 (2 ^ 31 + 4)
                           (adev world_recording) in_started Ha Hi))).
    + reflexivity.
    + discriminate.
    + discriminate.
    + discriminate.
    + discriminate.
    + reflexivity.
Defined.

(** ** The mute flag *)

(** X6.  [adev_set_mic_mute] stores the flag, which [adev_get_mic_mute]
    reads back, and leaves the output streams alone.  Whatever the new value
    is, a registered input that is started is put in standby (handle closed,
    registration dropped) unless the device is in a call; in a call, or when
    that input is in standby already, nothing but its [sleep_req] flag is
    written. *)
Theorem set_mic_mute_restarts_capture state w :
  adev_get_mic_mute (adev (snd (fst (adev_set_mic_mute state w)))) = (0, state) /\
  outs (snd (fst (adev_set_mic_mute state w))) = outs w /\
  (ADev.active_in (adev w) = None ->
   adev_set_mic_mute state w = (0, set_adev (ADev.set_mic_mute state (adev w)) w, [])) /\
  (forall i si,
     ADev.active_in (adev w) = Some i -> ins w !! i = Some si ->
     int_range (ADev.lock_cnt (adev w)) -> int_range (SIn.lock_cnt si) ->
     (ADev.mode (adev w) = AUDIO_MODE_IN_CALL \/ SIn.standby si = true ->
      adev_set_mic_mute state w
        = (0, mk_world (ADev.set_mic_mute state (adev w)) (outs w)
                (<[i := SIn.set_sleep_req false si]> (ins w)), [])) /\
     (ADev.mode (adev w) <> AUDIO_MODE_IN_CALL -> SIn.standby si = false ->
      exists t,
        adev_set_mic_mute state w
          = (0, mk_world (ADev.set_mic_mute state (ADev.set_active_in None (adev w)))
                  (outs w)
                  (<[i := SIn.set_standby true
                            (SIn.set_buffer None
                               (SIn.set_resampler None
                                  (SIn.set_pcm NullPcm (SIn.set_sleep_req false si))))]>
                     (ins w)),
             EvPcmClose Capture (SIn.pcm si) :: t) /\
        forallb is_release t = true)).
Proof.
  split; [|split; [|split]].
  - unfold adev_set_mic_mute.
    destruct (ADev.active_in (adev w)) as [i|]; [|reflexivity].
    destruct (ins w !! i) as [si|]; [|reflexivity].
    destruct (negb (bool_decide _)); [|reflexivity].
    destruct (do_in_standby _ _) as [[a s] t]. reflexivity.
  - unfold adev_set_mic_mute.
    destruct (ADev.active_in (adev w)) as [i|]; [|reflexivity].
    destruct (ins w !! i) as [si|]; [|reflexivity].
    destruct (negb (bool_decide _)); [|reflexivity].
    destruct (do_in_standby _ _) as [[a s] t]. reflexivity.
  - intros Hact. unfold adev_set_mic_mute. rewrite Hact. reflexivity.
  - intros i si Hact Hlook Ha Hi.
    assert (Hmode : ADev.mode (adev_lock (adev w)) = ADev.mode (adev w))
      by (destruct (adev w); reflexivity).
    set (si1 := SIn.set_sleep_req false (in_lock (SIn.set_sleep_req true si))).
    assert (Hsb1 : SIn.standby si1 = SIn.standby si)
      by (subst si1; destruct si; reflexivity).
    split.
    + intros Hcase. unfold adev_set_mic_mute. rewrite Hact, Hlook, Hmode. fold si1.
      assert (Hskip :
                (if negb (bool_decide (ADev.mode (adev w) = AUDIO_MODE_IN_CALL))
                 then do_in_standby (adev_lock (adev w)) si1
                 else (adev_lock (adev w), si1, []))
                = (adev_lock (adev w), si1, [])).
      { destruct Hcase as [Hm|Hs].
        - rewrite bool_decide_eq_true_2 by exact Hm. reflexivity.
        - rewrite do_in_standby_noop by (rewrite Hsb1; exact Hs).
          destruct (negb (bool_decide _)); reflexivity. }
      rewrite Hskip. subst si1.
      rewrite in_lock_unlock, adev_lock_unlock by assumption. reflexivity.
    + intros Hm Hs. unfold adev_set_mic_mute. rewrite Hact, Hlook, Hmode. fold si1.
      rewrite bool_decide_eq_false_2 by exact Hm. cbn [negb].
      destruct (do_in_standby_started (adev_lock (adev w)) si1
                  ltac:(rewrite Hsb1; exact Hs)) as (t & -> & Ht).
      exists t. split; [|exact Ht].
      subst si1. destruct (adev w) as [], si.
      unfold adev_unlock, adev_lock, in_unlock, in_lock, set_adev. cbn in *.
      rewrite !s32_lock_unlock by assumption. reflexivity.
Qed.

Lemma set_mic_mute_restarts_capture_witness :
  exists t,
    adev_set_mic_mute true world_recording
      = (0, mk_world (ADev.set_mic_mute true
                        (ADev.set_active_in None (adev world_recording)))
              (outs world_recording)
              (<[0%nat := SIn.set_standby true
                            (SIn.set_buffer None
                               (SIn.set_resampler None
                                  (SIn.set_pcm NullPcm
                                     (SIn.set_sleep_req false in_started))))]>
                 (ins world_recording)),
         EvPcmClose Capture (SIn.pcm in_started) :: t) /\
    forallb is_release t = true.
Proof.
  refine (proj2 (proj2 (proj2 (proj2 (set_mic_mute_restarts_capture true world_recording)))
                   0%nat in_started _ _ _ _) _ _).
  - reflexivity.
  - reflexivity.
  - vm_compute. split; [discriminate|reflexivity].
  - vm_compute. split; [discriminate|reflexivity].
  - discriminate.
  - reflexivity.
Defined.

(** ** Transfers *)

(** X7.  [in_read] on a started stream without resampler makes one
    [pcm_read], into [in->buffer] and of twice the byte count when the
    hardware configuration is stereo; a negative result is followed by a
    sleep of the time the bytes last at the requested rate, any other result
    counts as success and the buffer is zeroed when the microphone is muted;
    the call returns the byte count and leaves the state as it was.  There
    are two cases without a result: a stereo configuration with [in->buffer]
    missing or shorter than twice the byte count, where the read and the loop
    that follows run outside the buffer, and a failed read on a stream whose
    requested rate is 0, where the sleep divides by zero. *)
Theorem in_read_reports_transfer i bytes hw w inp :
  ins w !! i = Some inp -> SIn.standby inp = false -> SIn.resampler inp = None ->
  let stereo := channels (SIn.pcm_config inp) =? 2 in
  let outside_buffer := stereo && negb (bytes * 2 <=? in_buffer_capacity inp) in
  let division_by_zero := (ir_pcm_read hw <? 0) && (SIn.requested_rate inp =? 0) in
  in_read i bytes hw w =
    if outside_buffer || division_by_zero then None
    else
      Some (s32 bytes,
            mk_world (adev w) (outs w) (<[i := in_unlock (in_lock inp)]> (ins w)),
            (if SIn.sleep_req inp then [EvUsleep 10000] else []) ++
            [EvPcmRead (if stereo then u32 (bytes * 2) else bytes) (ir_pcm_read hw)] ++
            (if ir_pcm_read hw <? 0
             then [EvUsleep (u32 (u32 (bytes * 1000000) / audio_stream_in_frame_size
                                  / SIn.requested_rate inp))]
             else if ADev.mic_mute (adev w) then [EvMemset bytes] else [])).
Proof.
  intros Hlook Hs Hr. cbv zeta. unfold in_read. rewrite Hlook.
  replace (SIn.standby (in_lock inp)) with false
    by (rewrite <- Hs; destruct inp; reflexivity).
  unfold in_read_body. change (0 <? 0) with false. cbv iota.
  replace (SIn.resampler (in_lock inp)) with (@None resampler_itfe)
    by (rewrite <- Hr; destruct inp; reflexivity).
  replace (in_get_sample_rate (in_lock inp)) with (SIn.requested_rate inp)
    by (destruct inp; reflexivity).
  replace (SIn.pcm_config (in_lock inp)) with (SIn.pcm_config inp)
    by (destruct inp; reflexivity).
  replace (in_buffer_capacity (in_lock inp)) with (in_buffer_capacity inp)
    by (destruct inp; reflexivity).
  set (r := ir_pcm_read hw).
  assert (Hcases : ((r <? 0) = true /\ (r >? 0) = false /\ (r =? 0) = false) \/
                   ((r <? 0) = false /\ (r >? 0) = true) \/
                   ((r <? 0) = false /\ (r >? 0) = false /\ (r =? 0) = true)).
  { destruct (Z.lt_trichotomy r 0) as [H|[H|H]].
    - left. rewrite Z.gtb_ltb. repeat split;
        [apply Z.ltb_lt|apply Z.ltb_ge|apply Z.eqb_neq]; lia.
    - right. right. subst r. rewrite H. repeat split.
    - right. left. rewrite Z.gtb_ltb. split; [apply Z.ltb_ge|apply Z.ltb_lt]; lia. }
  destruct (channels (SIn.pcm_config inp) =? 2);
    [destruct (bytes * 2 <=? in_buffer_capacity inp); [|reflexivity]|];
    destruct Hcases as [(H1 & H2 & H3)|[(H1 & H2)|(H1 & H2 & H3)]];
    rewrite ?H1, ?H2, ?H3; cbn [Z.eqb Z.ltb Z.compare andb orb negb];
    rewrite ?H1; cbn [andb orb negb];
    change (in_get_sample_rate (in_lock inp)) with (SIn.requested_rate inp);
    destruct (SIn.requested_rate inp =? 0); cbn [andb orb negb];
    try reflexivity;
    destruct (ADev.mic_mute (adev w)), (SIn.sleep_req inp);
    cbn [app]; reflexivity.
Qed.

Lemma in_read_reports_transfer_witness :
  in_read 0 2048 (mk_in_read_hw start_ok start_ok [] (- 5)) world_recording =
    Some (2048,
          mk_world (adev world_recording) (outs world_recording)
            (<[0%nat := in_unlock (in_lock in_started)]> (ins world_recording)),
          [EvPcmRead 4096 (- 5); EvUsleep 23219]) /\
  in_read 0 2048 (mk_in_read_hw start_ok start_ok [] 0)
    (mk_world (adev world_recording) ∅ {[ 0%nat := SIn.set_buffer None in_started ]})
    = None.
Proof.
  split.
  - exact (in_read_reports_transfer 0 2048 (mk_in_read_hw start_ok start_ok [] (- 5))
             world_recording in_started eq_refl eq_refl eq_refl).
  - exact (in_read_reports_transfer 0 2048 (mk_in_read_hw start_ok start_ok [] 0)
             (mk_world (adev world_recording) ∅
                {[ 0%nat := SIn.set_buffer None in_started ]})
             (SIn.set_buffer None in_started) eq_refl eq_refl eq_refl).
Defined.

(** X8.  [read_frames] never returns short: what it returns is either the
    non-zero status left by the provider or a frame count that is at least
    the count asked for. *)
Theorem read_frames_never_short rcs :
  forall direct_read inp frames frames_wr r inp' t,
    read_frames rcs direct_read inp frames frames_wr = Some (r, inp', t) ->
    (r = SIn.read_status inp' /\ r <> 0) \/ frames <= r.
Proof.
  induction rcs as [|rc rcs IH]; intros direct_read inp frames frames_wr r inp' t E;
    cbn [read_frames] in E.
  - destruct (Z.ltb_spec frames_wr frames); [discriminate|].
    inversion E; subst. right. assumption.
  - destruct (Z.ltb_spec frames_wr frames) as [Hlt|Hge];
      [|inversion E; subst; right; assumption].
    cbv zeta in E.
    destruct (read_frames_pass rc direct_read inp (u32 (frames - frames_wr)))
      as [[inp1 frames_rd] t1].
    destruct (Z.eqb_spec (SIn.read_status inp1) 0) as [Hz|Hnz]; cbn [negb] in E.
    + destruct (read_frames rcs _ _ _ _) as [[[r2 inp2] t2]|] eqn:E2; [|discriminate].
      inversion E; subst. exact (IH _ _ _ _ _ _ _ E2).
    + inversion E; subst. left. split; [reflexivity|exact Hnz].
Qed.

Lemma read_frames_never_short_witness :
  (512 = SIn.read_status (SIn.set_frames_in 512 in_started) /\ 512 <> 0) \/ 512 <= 512.
Proof.
  apply (read_frames_never_short [mk_resampler_call [] 0] 0 in_started 512 0 512
           (SIn.set_frames_in 512 in_started) [EvPcmRead 4096 0]).
  vm_compute. reflexivity.
Defined.

(** X9.  The only values [out_write] returns are the byte count and, when
    [pcm_write] itself returned it, [-EPIPE]; [in_read] returns the byte
    count and nothing else.  No other error of the hardware or of the start
    of a stream reaches the caller. *)
Theorem stream_io_return_values :
  (forall o bytes hw w r w' t,
     out_write o bytes hw w = Some (r, w', t) ->
     r = s32 bytes \/ (r = - EPIPE /\ ow_pcm_write hw = - EPIPE)) /\
  (forall i bytes hw w r w' t,
     in_read i bytes hw w = Some (r, w', t) -> r = s32 bytes).
Proof.
  split.
  - intros o bytes hw w r w' t E. unfold out_write in E.
    destruct (outs w !! o) as [out|]; [|discriminate].
    destruct (if SOut.standby (out_lock out) then _ else _)
      as [[[[ret a] out1] ins1] t_sb].
    destruct (negb (ret =? 0)).
    + unfold out_write_exit in E. inversion E. left. reflexivity.
    + destruct (out_write_body bytes hw a out1) as [[[r2 out2] t2]|] eqn:Eb;
        [|discriminate].
      inversion E; subst. clear E. unfold out_write_body in Eb.
      destruct (SOut.pcm_config out1) as [cfg|]; [|discriminate].
      cbv zeta in Eb.
      destruct (if negb (out_get_sample_rate =? rate cfg) then _ else _)
        as [out_frames t_rs].
      destruct (pacing_loop _ _ _ _ _ _ _ _) as [[[kf total] t_pace]|]; [|discriminate].
      destruct (Z.eqb_spec (ow_pcm_write hw) (- EPIPE)) as [Hp|Hp].
      * inversion Eb; subst. right. split; [exact Hp|exact Hp].
      * unfold out_write_exit in Eb. inversion Eb. left. reflexivity.
  - intros i bytes hw w r w' t E. unfold in_read in E.
    destruct (ins w !! i) as [inp|]; [|discriminate].
    destruct (if SIn.standby (in_lock inp) then _ else _)
      as [[[[ret a] outs1] inp1] t_sb].
    destruct (in_read_body bytes ret hw a inp1) as [[[r2 inp2] t2]|] eqn:Eb;
      [|discriminate].
    inversion E; subst. clear E. unfold in_read_body in Eb.
    destruct (ret <? 0).
    { destruct (true && _); [discriminate|]. inversion Eb. reflexivity. }
    destruct (SIn.resampler inp1).
    + destruct (read_frames _ _ _ _ _) as [[[r1 inp3] t1]|]; [|discriminate].
      cbv zeta in Eb.
      match type of Eb with
      | (if ?c then None else _) = _ => destruct c; [discriminate|]
      end.
      inversion Eb. reflexivity.
    + destruct (channels _ =? 2);
        [destruct (bytes * 2 <=? _); [|discriminate]|];
        cbv zeta in Eb;
        match type of Eb with
        | (if ?c then None else _) = _ => destruct c; [discriminate|]
        end;
        inversion Eb; reflexivity.
Qed.

Lemma stream_io_return_values_witness :
  (4096 = s32 4096 \/ (4096 = - EPIPE /\ ow_pcm_write out_write_not_ready = - EPIPE)) /\
  2048 = s32 2048.
Proof.
  split.
  - apply (proj1 stream_io_return_values 0%nat 4096 out_write_not_ready world_opened 4096
             (snd (fst (default (0, world_opened, [])
                          (out_write 0 4096 out_write_not_ready world_opened))))
             (snd (default (0, world_opened, [])
                     (out_write 0 4096 out_write_not_ready world_opened)))).
    vm_compute. reflexivity.
  - apply (proj2 stream_io_return_values 0%nat 2048 in_read_not_ready world_opened 2048
             (snd (fst (default (0, world_opened, [])
                          (in_read 0 2048 in_read_not_ready world_opened))))
             (snd (default (0, world_opened, [])
                     (in_read 0 2048 in_read_not_ready world_opened)))).
    vm_compute. reflexivity.
Defined.

(** ** The depletion reset of the write threshold *)

Lemma s32_wrap z : s32 z = s32 (z - 2 ^ 32).
Proof.
  unfold s32. replace (z + 2 ^ 31) with (z - 2 ^ 32 + 2 ^ 31 + 1 * 2 ^ 32) by lia.
  rewrite Z_mod_plus_full. reflexivity.
Qed.

Lemma u32_negative z : - 2 ^ 32 <= z < 0 -> u32 z = z + 2 ^ 32.
Proof.
  intros H. unfold u32. symmetry. apply (Z.mod_unique z (2 ^ 32) (- 1)); lia.
Qed.

(** The period boundary above a fill level, as line 954 computes it: the
    division is unsigned, the result is stored in an [int]. *)
Lemma period_above_fill_level period_size kernel_frames :
  4 <= period_size <= 2 ^ 20 ->
  - 2 ^ 31 <= kernel_frames < 2 ^ 31 - period_size ->
  let cur := s32 (u32 ((u32 kernel_frames / period_size + 1) * period_size)) in
  kernel_frames < cur <= kernel_frames + period_size /\
  (0 <= kernel_frames \/ 2 ^ 32 mod period_size = 0 ->
   cur = (kernel_frames / period_size + 1) * period_size).
Proof.
  intros Hps Hkf cur. subst cur. rewrite s32_u32.
  destruct (Z_lt_le_dec kernel_frames 0) as [Hneg|Hpos].
  - rewrite (u32_negative kernel_frames) by lia.
    set (K := kernel_frames + 2 ^ 32).
    pose proof (Z.div_mod K period_size ltac:(lia)) as Hdm.
    pose proof (Z.mod_pos_bound K period_size ltac:(lia)) as Hmb.
    set (x := (K / period_size + 1) * period_size).
    assert (Hx : K < x <= K + period_size) by (subst x; nia).
    rewrite (s32_wrap x), (s32_id (x - 2 ^ 32)) by (unfold int_range; subst K; lia).
    split; [subst K; lia|].
    intros [H|Hdiv]; [lia|].
    pose proof (Z.div_mod (2 ^ 32) period_size ltac:(lia)) as Hc.
    rewrite Hdiv in Hc.
    set (c := 2 ^ 32 / period_size) in *.
    assert (HK : K / period_size = kernel_frames / period_size + c).
    { subst K. replace (kernel_frames + 2 ^ 32) with (kernel_frames + c * period_size)
        by lia.
      apply Z.div_add. lia. }
    subst x. rewrite HK. lia.
  - rewrite (u32_id kernel_frames) by lia.
    pose proof (Z.div_mod kernel_frames period_size ltac:(lia)) as Hdm.
    pose proof (Z.mod_pos_bound kernel_frames period_size ltac:(lia)) as Hmb.
    set (x := (kernel_frames / period_size + 1) * period_size).
    assert (Hx : kernel_frames < x <= kernel_frames + period_size) by (subst x; nia).
    rewrite (s32_id x) by (unfold int_range; lia).
    split; [exact Hx|]. intros _. reflexivity.
Qed.

(** X10.  When [cur_write_threshold] has reached [write_threshold], a write
    leaves it there as long as the fill level [kernel_frames] is at most
    [period_size * OUT_SHORT_PERIOD_COUNT] frames below the target; below
    that it is reset to the period boundary above the fill level plus a
    quarter period, a value strictly above the fill level, at most a period
    and a quarter above it, and strictly below the target.  This holds for
    every [int] fill level, also a negative one, which is what the
    uninitialised [kernel_frames] can be when [pcm_get_htimestamp] fails
    (where the subtraction from the target leaves the [int] range and wraps,
    the threshold is left alone).  With a target of two periods, the short
    regime, a fill level of 0 or more never resets the threshold and a
    negative one lowers it. *)
Theorem depletion_reset_bounds period_size write_threshold kernel_frames :
  4 <= period_size <= 2 ^ 20 -> 0 <= write_threshold <= 2 ^ 30 ->
  - 2 ^ 31 <= kernel_frames < 2 ^ 31 ->
  let new :=
    smooth_write_threshold period_size write_threshold kernel_frames write_threshold in
  (write_threshold <= kernel_frames + period_size * OUT_SHORT_PERIOD_COUNT ->
   new = write_threshold) /\
  (write_threshold - 2 ^ 31 < kernel_frames ->
   kernel_frames + period_size * OUT_SHORT_PERIOD_COUNT < write_threshold ->
   kernel_frames < new <= kernel_frames + period_size + period_size / 4 /\
   new < write_threshold /\
   (0 <= kernel_frames \/ 2 ^ 32 mod period_size = 0 ->
    new = (kernel_frames / period_size + 1) * period_size + period_size / 4)) /\
  (kernel_frames <= write_threshold - 2 ^ 31 -> new = write_threshold) /\
  (write_threshold = period_size * OUT_SHORT_PERIOD_COUNT ->
   (0 <= kernel_frames -> new = write_threshold) /\
   (write_threshold - 2 ^ 31 < kernel_frames < 0 -> new < write_threshold)).
Proof.
  intros Hps Hwt Hkf new.
  assert (Hq : 1 <= period_size / 4 < period_size).
  { split; [apply Z.div_le_lower_bound; lia|apply Z.div_lt_upper_bound; lia]. }
  assert (Hp2 : s32 (u32 (period_size * 2)) = period_size * 2).
  { rewrite s32_u32. apply s32_id. unfold int_range. lia. }
  assert (Hkeep : write_threshold <= kernel_frames + period_size * 2 ->
                  new = write_threshold).
  { intros Hle. subst new. unfold smooth_write_threshold, OUT_SHORT_PERIOD_COUNT.
    rewrite Z.gtb_ltb, Z.ltb_irrefl, Hp2.
    destruct (Z.ltb_spec kernel_frames write_threshold) as [Hlt|Hge]; [|reflexivity].
    rewrite s32_id by (unfold int_range; lia).
    rewrite Z.gtb_ltb.
    destruct (Z.ltb_spec (period_size * 2) (write_threshold - kernel_frames));
      [lia|reflexivity]. }
  assert (Hreset : write_threshold - 2 ^ 31 < kernel_frames ->
                   kernel_frames + period_size * 2 < write_threshold ->
                   kernel_frames < new <= kernel_frames + period_size + period_size / 4 /\
                   new < write_threshold /\
                   (0 <= kernel_frames \/ 2 ^ 32 mod period_size = 0 ->
                    new = (kernel_frames / period_size + 1) * period_size
                          + period_size / 4)).
  { intros Hno Hlt. subst new. unfold smooth_write_threshold, OUT_SHORT_PERIOD_COUNT.
    rewrite Z.gtb_ltb, Z.ltb_irrefl, Hp2.
    destruct (Z.ltb_spec kernel_frames write_threshold) as [_|Hge]; [|lia].
    rewrite s32_id by (unfold int_range; lia).
    rewrite Z.gtb_ltb.
    destruct (Z.ltb_spec (period_size * 2) (write_threshold - kernel_frames))
      as [_|Hge]; [|lia].
    cbn [andb].
    destruct (period_above_fill_level period_size kernel_frames Hps ltac:(lia))
      as [Hcur Hval].
    set (cur := s32 (u32 ((u32 kernel_frames / period_size + 1) * period_size))) in *.
    rewrite u32_add_l, s32_u32, s32_id by (unfold int_range; lia).
    split; [lia|]. split; [lia|].
    intros H. rewrite (Hval H). reflexivity. }
  split; [exact Hkeep|]. split; [exact Hreset|]. split.
  - intros Hfar. subst new. unfold smooth_write_threshold, OUT_SHORT_PERIOD_COUNT.
    rewrite Z.gtb_ltb, Z.ltb_irrefl, Hp2.
    destruct (Z.ltb_spec kernel_frames write_threshold) as [_|Hge]; [|reflexivity].
    rewrite (s32_wrap (write_threshold - kernel_frames)),
      (s32_id (write_threshold - kernel_frames - 2 ^ 32)) by (unfold int_range; lia).
    rewrite Z.gtb_ltb.
    destruct (Z.ltb_spec (period_size * 2) (write_threshold - kernel_frames - 2 ^ 32));
      [lia|reflexivity].
  - unfold OUT_SHORT_PERIOD_COUNT. intros Hshort. split.
    + intros Hpos. apply Hkeep. lia.
    + intros Hneg. apply Hreset; lia.
Qed.

Lemma depletion_reset_bounds_witness :
  smooth_write_threshold 1024 2048 0 2048 = 2048 /\
  (700 < smooth_write_threshold 1024 4096 700 4096 <= 700 + 1024 + 1024 / 4 /\
   smooth_write_threshold 1024 4096 700 4096 < 4096 /\
   smooth_write_threshold 1024 4096 700 4096 = 1280) /\
  smooth_write_threshold 1024 2048 (- 1) 2048 = 256 /\
  smooth_write_threshold 1024 2048 (- 1) 2048 < 2048.
Proof.
  assert (R1 : 4 <= 1024 <= 2 ^ 20) by lia.
  assert (R2 : 0 <= 2048 <= 2 ^ 30) by lia.
  assert (R3 : 0 <= 4096 <= 2 ^ 30) by lia.
  split; [|split; [|split]].
  - apply (proj1 (depletion_reset_bounds 1024 2048 0 R1 R2 ltac:(lia))).
    vm_compute. discriminate.
  - destruct (proj1 (proj2 (depletion_reset_bounds 1024 4096 700 R1 R3 ltac:(lia)))
                ltac:(lia) ltac:(vm_compute; reflexivity)) as (H1 & H2 & H3).
    split; [exact H1|]. split; [exact H2|].
    etransitivity; [apply H3; left; lia|reflexivity].
  - destruct (proj1 (proj2 (depletion_reset_bounds 1024 2048 (- 1) R1 R2 ltac:(lia)))
                ltac:(lia) ltac:(vm_compute; reflexivity)) as (_ & _ & H3).
    etransitivity; [apply H3; right; reflexivity|reflexivity].
  - apply (proj2 (proj2 (proj2 (proj2
             (depletion_reset_bounds 1024 2048 (- 1) R1 R2 ltac:(lia)))) eq_refl)).
    lia.
Defined.

(** ** Discarding the right channel in place *)

Lemma discard_right_channel_loop_spec (buf0 : list Z) (k : nat) :
  forall (i : nat) (buf : list Z),
    (1 <= i)%nat ->
    Z.of_nat (i + k) <= 2 ^ 31 ->
    (2 * (i + k) <= length buf0 + 1)%nat ->
    length buf = length buf0 ->
    (forall j, (j < i)%nat -> buf !! j = buf0 !! (2 * j)%nat) ->
    (forall j, (i <= j)%nat -> buf !! j = buf0 !! j) ->
    exists buf',
      discard_right_channel_loop k (Z.of_nat i) buf = Some buf' /\
      length buf' = length buf0 /\
      (forall j, (j < i + k)%nat -> buf' !! j = buf0 !! (2 * j)%nat) /\
      (forall j, (i + k <= j)%nat -> buf' !! j = buf0 !! j).
Proof.
  induction k as [|k IH]; intros i buf Hi Hmax Hlen Hsame Hlow Hhigh.
  - exists buf. cbn [discard_right_channel_loop].
    rewrite Nat.add_0_r. auto.
  - cbn [discard_right_channel_loop].
    assert (Hidx : Z.to_nat (u32 (Z.of_nat i * 2)) = (2 * i)%nat).
    { rewrite u32_id by lia. lia. }
    rewrite Hidx.
    assert (Hin : (2 * i < length buf0)%nat) by lia.
    destruct (lookup_lt_is_Some_2 buf0 (2 * i)%nat Hin) as [v Hv].
    rewrite (Hhigh (2 * i)%nat) by lia. rewrite Hv.
    replace (u32 (Z.of_nat i + 1)) with (Z.of_nat (S i)) by (rewrite u32_id; lia).
    rewrite Nat2Z.id.
    destruct (IH (S i) (<[i := v]> buf)) as (buf' & E & Hl & H1 & H2).
    + lia.
    + lia.
    + lia.
    + rewrite length_insert. exact Hsame.
    + intros j Hj. destruct (decide (j = i)) as [->|Hne].
      * rewrite list_lookup_insert_eq by lia. symmetry. exact Hv.
      * rewrite list_lookup_insert_ne by congruence. apply Hlow. lia.
    + intros j Hj. rewrite list_lookup_insert_ne by lia. apply Hhigh. lia.
    + exists buf'. split; [exact E|]. split; [exact Hl|].
      split; intros j Hj; [apply H1|apply H2]; lia.
Qed.

(** X11.  The in-place loop [for (i = 1; i < n; i++) buf[i] = buf[i * 2]]
    of [get_next_buffer] and [out_write] stays inside a buffer of at least
    [2 * n - 1] samples and leaves the left-channel samples of the first [n]
    stereo frames in the first [n] places: no sample is overwritten before it
    has been read.  The samples from place [n] on and the length are
    unchanged. *)
Theorem discard_right_channel_keeps_left (n : nat) (buf : list Z) :
  Z.of_nat n <= 2 ^ 31 ->
  (2 * n <= length buf + 1)%nat ->
  exists buf',
    discard_right_channel (Z.of_nat n) buf = Some buf' /\
    length buf' = length buf /\
    (forall j, (j < n)%nat -> buf' !! j = buf !! (2 * j)%nat) /\
    (forall j, (n <= j)%nat -> buf' !! j = buf !! j).
Proof.
  intros Hmax Hlen. unfold discard_right_channel.
  destruct n as [|n].
  - exists buf. cbn. split; [reflexivity|]. split; [reflexivity|].
    split; [intros j Hj; lia|auto].
  - replace (Z.to_nat (Z.of_nat (S n) - 1)) with n by lia.
    destruct (discard_right_channel_loop_spec buf n 1 buf) as (buf' & E & Hl & H1 & H2).
    + lia.
    + lia.
    + lia.
    + reflexivity.
    + intros j Hj. replace j with 0%nat by lia. reflexivity.
    + auto.
    + exists buf'. split; [exact E|]. split; [exact Hl|].
      split; intros j Hj; [apply H1|apply H2]; lia.
Qed.

Lemma discard_right_channel_keeps_left_witness :
  exists buf',
    discard_right_channel (Z.of_nat 3) [10; 11; 20; 21; 30; 31] = Some buf' /\
    length buf' = length [10; 11; 20; 21; 30; 31] /\
    (forall j, (j < 3)%nat -> buf' !! j = [10; 11; 20; 21; 30; 31] !! (2 * j)%nat) /\
    (forall j, (3 <= j)%nat -> buf' !! j = [10; 11; 20; 21; 30; 31] !! j).
Proof.
  apply (discard_right_channel_keeps_left 3 [10; 11; 20; 21; 30; 31]).
  - vm_compute. discriminate.
  - cbn. lia.
Defined.

(** ** Mixer routing *)

Lemma land_u32_range a b : 0 <= a < 2 ^ 32 -> 0 <= Z.land a b < 2 ^ 32.
Proof.
  intros Ha.
  assert (Ha' : Z.land a (Z.ones 32) = a)
    by (rewrite Z.land_ones by lia; apply Z.mod_small; lia).
  assert (Hm : Z.land a b = Z.land (Z.land a b) (Z.ones 32)).
  { rewrite <- Ha' at 1. rewrite <- !Z.land_assoc. f_equal. apply Z.land_comm. }
  rewrite Hm, Z.land_ones by lia. apply Z.mod_pos_bound. lia.
Qed.

Lemma s32_land_zero a b :
  0 <= a < 2 ^ 32 -> (s32 (Z.land a b) =? 0) = (Z.land a b =? 0).
Proof.
  intros Ha. pose proof (land_u32_range a b Ha) as Hr.
  unfold s32.
  destruct (Z.eqb_spec (Z.land a b) 0) as [->|Hne]; [reflexivity|].
  apply Z.eqb_neq.
  destruct (Z_lt_le_dec (Z.land a b) (2 ^ 31)).
  - rewrite Z.mod_small by lia. lia.
  - replace (Z.land a b + 2 ^ 31) with (Z.land a b - 2 ^ 31 + 1 * 2 ^ 32) by lia.
    rewrite Z.mod_add by lia. rewrite Z.mod_small by lia. lia.
Qed.

(** X12.  [select_devices] decides on single device bits.  With the speaker
    bit set the playback path is "SPK_HP" when a wired headset or headphone
    bit is set too and "SPK" otherwise; without it, a headset bit gives
    "HP_NO_MIC", a headphone bit alone "HP", and with none of the three bits
    the control is not written.  The capture path is always written: built-in
    microphone before headset before Bluetooth, else "MIC OFF". *)
Theorem select_devices_by_bits (SPEAKER HEADSET HEADPHONE MIC HEADSET_MIC BT_MIC : Z)
    (adev : audio_device) :
  0 <= ADev.out_device adev < 2 ^ 32 -> 0 <= ADev.in_device adev < 2 ^ 32 ->
  select_devices SPEAKER HEADSET HEADPHONE MIC HEADSET_MIC BT_MIC adev
    = (if negb (Z.land (ADev.out_device adev) SPEAKER =? 0) then
         if negb (Z.land (ADev.out_device adev) HEADSET =? 0)
            || negb (Z.land (ADev.out_device adev) HEADPHONE =? 0)
         then Some SPK_HP else Some SPK
       else if negb (Z.land (ADev.out_device adev) HEADSET =? 0) then Some HP_NO_MIC
       else if negb (Z.land (ADev.out_device adev) HEADPHONE =? 0) then Some HP
       else None,
       if negb (Z.land (ADev.in_device adev) MIC =? 0) then Main_Mic
       else if negb (Z.land (ADev.in_device adev) HEADSET_MIC =? 0) then Hands_Free_Mic
       else if negb (Z.land (ADev.in_device adev) BT_MIC =? 0) then BT_Sco_Mic
       else MIC_OFF).
Proof.
  intros Ho Hi. unfold select_devices.
  rewrite !s32_land_zero by assumption.
  rewrite Z.land_lor_distr_r.
  assert (Hor : (Z.lor (Z.land (ADev.out_device adev) HEADSET)
                   (Z.land (ADev.out_device adev) HEADPHONE) =? 0)
                = (Z.land (ADev.out_device adev) HEADSET =? 0)
                  && (Z.land (ADev.out_device adev) HEADPHONE =? 0)).
  { destruct (Z.eqb_spec (Z.land (ADev.out_device adev) HEADSET) 0) as [H1|H1];
      destruct (Z.eqb_spec (Z.land (ADev.out_device adev) HEADPHONE) 0) as [H2|H2];
      cbn [andb];
      [apply Z.eqb_eq; apply Z.lor_eq_0_iff; auto
      |apply Z.eqb_neq; rewrite Z.lor_eq_0_iff; tauto ..]. }
  rewrite Hor.
  destruct (Z.land (ADev.out_device adev) SPEAKER =? 0),
    (Z.land (ADev.out_device adev) HEADSET =? 0),
    (Z.land (ADev.out_device adev) HEADPHONE =? 0); reflexivity.
Qed.

Lemma select_devices_by_bits_witness :
  select_devices 2 4 8 (2 ^ 31 + 4) (2 ^ 31 + 16) (2 ^ 31 + 8)
    (ADev.set_in_device 16 (ADev.set_out_device 6 (adev adev_open)))
  = (Some SPK_HP, Hands_Free_Mic).
Proof.
  rewrite (select_devices_by_bits 2 4 8 (2 ^ 31 + 4) (2 ^ 31 + 16) (2 ^ 31 + 8)
             (ADev.set_in_device 16 (ADev.set_out_device 6 (adev adev_open)))).
  - reflexivity.
  - vm_compute. split; [discriminate|reflexivity].
  - vm_compute. split; [discriminate|reflexivity].
Defined.

(** ** Starting and stopping a capture stream *)

Lemma held_app delta t1 t2 : held delta (t1 ++ t2) = held delta t1 + held delta t2.
Proof.
  unfold held. induction t1 as [|e t1 IH]; cbn [app fold_right]; [reflexivity|].
  rewrite IH. lia.
Qed.

(** X13.  Starting a capture stream that holds nothing and putting it in
    standby again gives back whatever was acquired: over the two calls every
    handle that [pcm_open] returned is closed, a resampler that was created is
    released and a buffer that was allocated is freed, whatever the hardware
    answered, and the stream ends in standby holding nothing and
    unregistered. *)
Theorem capture_start_then_standby_balanced i hw adev inp :
  SIn.standby inp = true -> in_idle inp ->
  forall r a1 inp1 t1 a2 inp2 t2,
    start_input_stream i hw adev inp = (r, a1, inp1, t1) ->
    do_in_standby a1 (if r =? 0 then SIn.set_standby false inp1 else inp1)
      = (a2, inp2, t2) ->
    held (handle_delta Capture) (t1 ++ t2) = 0 /\
    held (resampler_delta Capture) (t1 ++ t2) = 0 /\
    held (buffer_delta Capture) (t1 ++ t2) = 0 /\
    SIn.standby inp2 = true /\ in_idle inp2 /\
    ADev.active_in a2 = (if r =? 0 then None else ADev.active_in adev).
Proof.
  intros Hs (Hpcm & Hrs & Hbuf) r a1 inp1 t1 a2 inp2 t2 E1 E2.
  unfold start_input_stream in E1. unfold in_idle.
  destruct inp. cbn in Hs, Hrs, Hbuf, Hpcm. subst.
  cbn [SIn.pcm SIn.set_pcm SIn.pcm_config] in E1.
  destruct (hw_open hw); cbn [pcm_of_open pcm_is_null pcm_is_ready negb andb] in E1.
  - destruct (negb (_ =? _)), (hw_resampler_ok hw), (hw_malloc_ok hw);
      inversion E1; subst; clear E1;
      cbn in E2; inversion E2; subst; clear E2;
      cbn; repeat split; auto.
  - inversion E1; subst; clear E1.
    change (- ENOMEM =? 0) with false in E2. cbn in E2. inversion E2; subst; clear E2.
    cbn. repeat split; auto.
  - destruct (negb (_ =? _)), (hw_resampler_ok hw), (hw_malloc_ok hw);
      inversion E1; subst; clear E1;
      cbn in E2; inversion E2; subst; clear E2;
      cbn; repeat split; auto.
Qed.

Lemma capture_start_then_standby_balanced_witness :
  held (handle_delta Capture)
    ([EvPcmOpen Capture PcmOpenReady; EvCreateResampler Capture 44100 8000 1 true;
      EvMalloc Capture 4096 true]
     ++ [EvPcmClose Capture ReadyPcm; EvReleaseResampler Capture; EvFree Capture]) = 0 /\
  held (resampler_delta Capture)
    ([EvPcmOpen Capture PcmOpenReady; EvCreateResampler Capture 44100 8000 1 true;
      EvMalloc Capture 4096 true]
     ++ [EvPcmClose Capture ReadyPcm; EvReleaseResampler Capture; EvFree Capture]) = 0 /\
  held (buffer_delta Capture)
    ([EvPcmOpen Capture PcmOpenReady; EvCreateResampler Capture 44100 8000 1 true;
      EvMalloc Capture 4096 true]
     ++ [EvPcmClose Capture ReadyPcm; EvReleaseResampler Capture; EvFree Capture]) = 0 /\
  SIn.standby (SIn.set_buffer_size 4096 in_8000_standby) = true /\
  in_idle (SIn.set_buffer_size 4096 in_8000_standby) /\
  ADev.active_in (ADev.set_active_in None (ADev.set_active_in (Some 0%nat)
                                             (adev adev_open)))
    = (if 0 =? 0 then None else ADev.active_in (adev adev_open)).
Proof.
  apply (capture_start_then_standby_balanced 0 start_ok (adev adev_open) in_8000_standby
           ltac:(reflexivity) ltac:(repeat split; auto)
           0 (ADev.set_active_in (Some 0%nat) (adev adev_open))
           (SIn.set_standby true in_8000_started)).
  - vm_compute. reflexivity.
  - vm_compute. reflexivity.
Defined.
